(** * SpeechCraft processing server: note-processing lifecycle and API-key gate

    Shallow embedding of the two Express servers of the repository:

    - the API-secret server (controller [ProcessingController], services
      [SupabaseService] and [OpenAIService], middleware [Auth] and
      [Middleware], the protected routes and the rate-limit key of
      [Server], the statistics and health of the store in [Statistics]), and
    - the earlier [speechcraft-processor] server (module [Processor]), which
      has its own controller, services and request schema, and its key
      check ([ProcessorAuth]).

    JavaScript strings are kept as [string], read as the UTF-8 bytes of the
    JavaScript value.  The external note store and the completion service are
    collaborators whose answers are not determined by the code; they are read
    from an explicit environment ([Env]) indexed by a logical clock that
    advances at every outbound call. *)

From Stdlib Require Import ZArith NArith Uint63 Floats Ascii String List Bool Lia.
From stdpp Require Import gmap strings list.

Local Open Scope Z_scope.

(** ** JavaScript string primitives *)

Module JS.

(** The line feed, written [\n] in the sources. *)
Definition LF : string := String "010"%char "".

(** Truthiness of a string value: only the empty string is falsy. *)
Definition truthy (s : string) : bool :=
  match s with
  | EmptyString => false
  | String _ _ => true
  end.

(** Truthiness of a possibly [undefined] string. *)
Definition truthy_opt (o : option string) : bool :=
  match o with
  | Some s => truthy s
  | None => false
  end.

(** [o || d] for a possibly [undefined] string [o]. *)
Definition or_else (o : option string) (d : string) : string :=
  match o with
  | Some (String _ _ as s) => s
  | Some EmptyString | None => d
  end.

Definition to_bytes (s : string) : list N :=
  map N_of_ascii (list_ascii_of_string s).

Definition of_bytes (l : list N) : string :=
  string_of_list_ascii (map ascii_of_N l).

(** White space and line terminators of ECMAScript, by UTF-8 encoding
    length: TAB, LF, VT, FF, CR, SP; U+00A0; U+1680, U+2000..U+200A,
    U+2028, U+2029, U+202F, U+205F, U+3000 and U+FEFF. *)
Definition ws1 (a : N) : bool :=
  ((9 <=? a) && (a <=? 13) || (a =? 32))%N.

Definition ws2 (a b : N) : bool :=
  ((a =? 194) && (b =? 160))%N.

Definition ws3 (a b c : N) : bool :=
  ((a =? 225) && (b =? 154) && (c =? 128)
   || (a =? 226) && (b =? 128)
      && ((128 <=? c) && (c <=? 138) || (c =? 168) || (c =? 169) || (c =? 175))
   || (a =? 226) && (b =? 129) && (c =? 159)
   || (a =? 227) && (b =? 128) && (c =? 128)
   || (a =? 239) && (b =? 187) && (c =? 191))%N.

(** Drop leading white space.  With [backwards] the list is a reversed
    string, so the bytes of a multi-byte character arrive last byte first. *)
Fixpoint strip (backwards : bool) (l : list N) : list N :=
  match l with
  | [] => []
  | a :: l1 =>
      if ws1 a then strip backwards l1
      else match l1 with
           | [] => l
           | b :: l2 =>
               if (if backwards then ws2 b a else ws2 a b)
               then strip backwards l2
               else match l2 with
                    | [] => l
                    | c :: l3 =>
                        if (if backwards then ws3 c b a else ws3 a b c)
                        then strip backwards l3
                        else l
                    end
           end
  end.

(** [s.length]: the number of UTF-16 code units.  Every character has one
    byte that is not a continuation byte; a character of four bytes takes
    two code units. *)
Definition length (s : string) : nat :=
  List.length (filter (fun b => (b <? 128) || (192 <=? b))%N (to_bytes s))
  + List.length (filter (fun b => (240 <=? b))%N (to_bytes s)).

(** [String.prototype.trim]. *)
Definition trim (s : string) : string :=
  of_bytes (rev (strip true (rev (strip false (to_bytes s))))).

(** [s.slice(n)] for [n] within bounds. *)
Fixpoint drop_chars (n : nat) (s : string) : string :=
  match n, s with
  | O, _ => s
  | S n', String _ s' => drop_chars n' s'
  | S _, EmptyString => EmptyString
  end.

(** First occurrence of [pat] in [s]: the text before it and the text
    after it. *)
Fixpoint split_at_first (pat s : string) : option (string * string) :=
  if String.prefix pat s then Some (EmptyString, drop_chars (String.length pat) s)
  else match s with
       | EmptyString => None
       | String a s' =>
           match split_at_first pat s' with
           | Some (before, after) => Some (String a before, after)
           | None => None
           end
       end.

(** GetSubstitution for a string pattern (no capture groups): [$$] is a
    dollar sign, [$&] the matched text, [$`] the text before the match and
    [$'] the text after it; any other dollar sign stands for itself. *)
Fixpoint substitution (matched before after replacement : string) : string :=
  match replacement with
  | EmptyString => EmptyString
  | String a r1 =>
      if Ascii.eqb a "$"%char then
        match r1 with
        | EmptyString => String a EmptyString
        | String c r2 =>
            if Ascii.eqb c "$"%char then String "$"%char (substitution matched before after r2)
            else if Ascii.eqb c "&"%char then matched +:+ substitution matched before after r2
            else if Ascii.eqb c "`"%char then before +:+ substitution matched before after r2
            else if Ascii.eqb c "'"%char then after +:+ substitution matched before after r2
            else String a (substitution matched before after r1)
        end
      else String a (substitution matched before after r1)
  end.

(** [s.replace(pat, replacement)] with a string pattern: only the first
    occurrence is replaced. *)
Definition replace (pat replacement s : string) : string :=
  match split_at_first pat s with
  | Some (before, after) =>
      before +:+ substitution pat before after replacement +:+ after
  | None => s
  end.

(** [s.replace(/[.!?]/g, by)] for a replacement text without dollar
    signs: every full stop, exclamation mark and question mark is
    replaced. *)
Fixpoint replace_sentence_marks (by_ s : string) : string :=
  match s with
  | EmptyString => EmptyString
  | String a s' =>
      if (Ascii.eqb a "."%char || Ascii.eqb a "!"%char || Ascii.eqb a "?"%char)%bool
      then by_ +:+ replace_sentence_marks by_ s'
      else String a (replace_sentence_marks by_ s')
  end.

(** [t] occurs in [s] as a contiguous piece, unchanged. *)
Definition occurs_in (t s : string) : Prop :=
  exists before after, s = before +:+ t +:+ after.

(** Executable test for [occurs_in]. *)
Definition includes (s t : string) : bool :=
  match split_at_first t s with
  | Some _ => true
  | None => false
  end.

End JS.


(** ** Data model *)

(** A row of the [notes] table.  The text and the category are strings
    (a null category behaves as the string "null" in every test the code
    makes); the nullable columns are options; times are in milliseconds. *)
Module Note.
Record t := mk {
  id : string;
  user_id : string;
  original_text : string;
  processed_text : option string;
  note_type : string;
  processing_status : string;
  tokens_used : option Z;
  processing_time : option Z;
  created_at : Z;
  updated_at : Z
}.
End Note.

(** A row of the [profiles] table. *)
Module Profile.
Record t := mk {
  monthly_note_count : Z;
  notes_processed : Z;
  subscription_tier : string
}.
End Profile.

(** The answer of the [check_user_limits] routine of the store. *)
Module UserLimits.
Record t := mk {
  limit_reached : bool;
  monthly_note_count : Z;
  notes_remaining : Z;
  subscription_tier : string
}.
End UserLimits.

(** The columns an update sets ([updateData] in the source); [None] is a
    column left out of the update. *)
Module Patch.
Record t := mk {
  processed_text : option string;
  processing_status : option string;
  tokens_used : option Z;
  processing_time : option Z;
  note_type : option string;
  updated_at : Z
}.

Definition apply (p : t) (n : Note.t) : Note.t :=
  {| Note.id := Note.id n;
     Note.user_id := Note.user_id n;
     Note.original_text := Note.original_text n;
     Note.processed_text :=
       match processed_text p with Some x => Some x | None => Note.processed_text n end;
     Note.note_type := default (Note.note_type n) (note_type p);
     Note.processing_status := default (Note.processing_status n) (processing_status p);
     Note.tokens_used :=
       match tokens_used p with Some x => Some x | None => Note.tokens_used n end;
     Note.processing_time :=
       match processing_time p with Some x => Some x | None => Note.processing_time n end;
     Note.created_at := Note.created_at n;
     Note.updated_at := updated_at p |}.
End Patch.

(** What the chat-completion endpoint answers: a completion (the content of
    the first choice, when there is one, the total token count and the
    model name), or an error. *)
Inductive ApiReply :=
| ApiCompletion (content : option string) (total_tokens : Z) (model : string)
| ApiError (message : string).

(** The store and the logical clock.  [tick] counts the calls made to the
    store client and to the completion client so far. *)
Record World := mkWorld {
  notes : gmap string Note.t;
  profiles : gmap string Profile.t;
  tick : nat
}.

(** The answers of the collaborators, by the tick at which the call is
    issued: [store_error t] is the error the store client reports for the
    call issued at tick [t] (other than "no row"), [limits_data t] the data
    of [check_user_limits] ([None] is a null answer), [completion t] what
    the call of [client.chat.completions.create] issued at tick [t]
    resolves to or throws, and [clock t] the value of [Date.now()] while
    the tick is [t].  The completion client is a library: a call of
    [create] is one call here, however often the library sends the request
    before it gives its answer. *)
Record Env := mkEnv {
  store_error : nat -> option string;
  limits_data : nat -> option UserLimits.t;
  completion : nat -> ApiReply;
  clock : nat -> Z
}.

(** The production logger runs at level [warn]: only [error] and [warn]
    records are emitted, and only those are kept here. *)
Inductive Level := LError | LWarn.

(** Observable effects of a request, in the order they happen.
    [CompletionRequested] is a call of [client.chat.completions.create]
    with the prompt built for it. *)
Inductive Event :=
| Log (level : Level) (message : string)
| NoteFetched (noteId : string)
| NoteUpdated (noteId : string) (previous : Note.t) (patch : Patch.t)
| NoteUpdateRejected (noteId : string) (patch : Patch.t)
| LimitsChecked (userId : string)
| CountIncremented (userId : string)
| CountIncrementRejected (userId : string)
| CompletionRequested (prompt : option string).

(** A thrown JavaScript [Error] and its [message]. *)
Inductive Exn := Error (message : string).

Definition message_of (e : Exn) : string :=
  match e with Error m => m end.

(** ** Asynchronous code as state passing *)

Inductive Outcome (A : Type) :=
| Returns (a : A)
| Throws (e : Exn).
Arguments Returns {A} a.
Arguments Throws {A} e.

(** An [async] function: from the world it starts in to its outcome, the
    world it leaves and the events it caused. *)
Definition Async (A : Type) : Type := World -> Outcome A * World * list Event.

Definition ret {A} (a : A) : Async A := fun w => (Returns a, w, []).

Definition throw {A} (e : Exn) : Async A := fun w => (Throws e, w, []).

Definition bind {A B} (m : Async A) (k : A -> Async B) : Async B :=
  fun w =>
    match m w with
    | (Returns a, w1, l1) =>
        match k a w1 with
        | (r, w2, l2) => (r, w2, l1 ++ l2)
        end
    | (Throws e, w1, l1) => (Throws e, w1, l1)
    end.

(** [try { m } catch (e) { handler e }]. *)
Definition try_catch {A} (m : Async A) (handler : Exn -> Async A) : Async A :=
  fun w =>
    match m w with
    | (Returns a, w1, l1) => (Returns a, w1, l1)
    | (Throws e, w1, l1) =>
        match handler e w1 with
        | (r, w2, l2) => (r, w2, l1 ++ l2)
        end
    end.

Declare Scope async_scope.
Delimit Scope async_scope with async.
Notation "x <- m ;; k" := (bind m (fun x => k))
  (at level 100, m at next level, right associativity) : async_scope.
Notation "m ;;; k" := (bind m (fun _ => k))
  (at level 100, right associativity) : async_scope.
Local Open Scope async_scope.

Definition emit (e : Event) : Async unit := fun w => (Returns tt, w, [e]).

Definition log (level : Level) (message : string) : Async unit :=
  emit (Log level message).

Definition world : Async World := fun w => (Returns w, w, []).

Definition set_notes (m : gmap string Note.t) : Async unit :=
  fun w => (Returns tt, mkWorld m (profiles w) (tick w), []).

Definition set_profiles (m : gmap string Profile.t) : Async unit :=
  fun w => (Returns tt, mkWorld (notes w) m (tick w), []).

(** A call of a client (the store's or the completion service's): it is
    issued at the current tick, and the clock advances. *)
Definition outbound : Async nat :=
  fun w => (Returns (tick w), mkWorld (notes w) (profiles w) (S (tick w)), []).

(** [Date.now()]. *)
Definition now (env : Env) : Async Z :=
  fun w => (Returns (clock env (tick w)), w, []).

(** ** The API-secret server *)

(** *** SupabaseService *)

Module SupabaseService.

(** The [data] argument of [updateNoteProcessing]; [None] is [undefined]. *)
Record ProcessingData := mkData {
  processedText : option string;
  status : option string;
  tokensUsed : option Z;
  processingTime : option Z
}.

(** Modelled from the spec: the server-side routine [increment_note_count]
    of the store, which is not part of the repository; the Processor
    "increments the counter" of the user's profile, the monthly
    processed-note counter, by one. *)
Definition increment_note_count (userId : string)
    (ps : gmap string Profile.t) : gmap string Profile.t :=
  alter (fun p => {| Profile.monthly_note_count := Profile.monthly_note_count p + 1;
                     Profile.notes_processed := Profile.notes_processed p;
                     Profile.subscription_tier := Profile.subscription_tier p |})
        userId ps.

Section WithEnv.
Variable env : Env.

Definition updateNoteProcessing (noteId : string) (data : ProcessingData)
  : Async Note.t :=
  updated_at <- now env ;;
  let updateData :=
    {| Patch.processed_text := processedText data;
       Patch.processing_status := status data;
       Patch.tokens_used := tokensUsed data;
       Patch.processing_time := processingTime data;
       Patch.note_type := None;
       Patch.updated_at := updated_at |} in
  t <- outbound ;;
  w <- world ;;
  (* [.single()] reports an error when no row matches the id *)
  match store_error env t, notes w !! noteId with
  | None, Some n =>
      let updatedNote := Patch.apply updateData n in
      set_notes (<[noteId := updatedNote]> (notes w)) ;;;
      emit (NoteUpdated noteId n updateData) ;;;
      ret updatedNote
  | Some message, _ =>
      emit (NoteUpdateRejected noteId updateData) ;;;
      log LError "Failed to update note processing" ;;;
      log LError "Error updating note processing" ;;;
      throw (Error message)
  | None, None =>
      emit (NoteUpdateRejected noteId updateData) ;;;
      log LError "Failed to update note processing" ;;;
      log LError "Error updating note processing" ;;;
      throw (Error "JSON object requested, multiple (or no) rows returned")
  end.

Definition getNoteById (noteId : string) : Async (option Note.t) :=
  t <- outbound ;;
  emit (NoteFetched noteId) ;;;
  w <- world ;;
  match store_error env t, notes w !! noteId with
  | None, Some n => ret (Some n)
  | None, None =>
      (* error code PGRST116: no row *)
      log LWarn "Note not found" ;;;
      ret None
  | Some message, _ =>
      log LError "Failed to get note by ID" ;;;
      log LError "Error getting note by ID" ;;;
      throw (Error message)
  end.

Definition incrementUserNoteCount (userId : string) : Async unit :=
  t <- outbound ;;
  w <- world ;;
  match store_error env t with
  | None =>
      set_profiles (increment_note_count userId (profiles w)) ;;;
      emit (CountIncremented userId)
  | Some message =>
      emit (CountIncrementRejected userId) ;;;
      log LError "Failed to increment user note count" ;;;
      log LError "Error incrementing user note count" ;;;
      throw (Error message)
  end.

(** The routine [check_user_limits] runs in the store; its answer is the
    environment's.  A null answer is returned as it is. *)
Definition checkUserLimits (userId : string) : Async (option UserLimits.t) :=
  t <- outbound ;;
  emit (LimitsChecked userId) ;;;
  match store_error env t with
  | None => ret (limits_data env t)
  | Some message =>
      log LError "Failed to check user limits" ;;;
      log LError "Error checking user limits" ;;;
      throw (Error message)
  end.

End WithEnv.
End SupabaseService.

(** *** OpenAIService *)

Module OpenAIService.

(** The double quote of the prompt templates. *)
Definition DQ : string := String "034"%char "".

(** A template literal that spans several source lines. *)
Fixpoint lines (l : list string) : string :=
  match l with
  | [] => ""
  | [x] => x
  | x :: rest => x +:+ JS.LF +:+ lines rest
  end.

Definition meeting_prompt : string := lines [
  "Transform this speech transcript into professional meeting notes:";
  "";
  "Input: " +:+ DQ +:+ "{text}" +:+ DQ;
  "";
  "Please create:";
  "1. **Key Discussion Points** - Main topics covered";
  "2. **Decisions Made** - Clear decisions and conclusions";
  "3. **Action Items** - Specific tasks with context";
  "4. **Next Steps** - Follow-up actions needed";
  "";
  "Format with clear headings, bullet points, and professional language." ].

Definition todo_prompt : string := lines [
  "Convert this speech into actionable tasks:";
  "";
  "Input: " +:+ DQ +:+ "{text}" +:+ DQ;
  "";
  "Please create:";
  "1. **Priority Tasks** - Most important items first";
  "2. **Quick Tasks** - Items that can be done quickly  ";
  "3. **Long-term Tasks** - Items requiring more time";
  "4. **Context** - Additional details for each task";
  "";
  "Format as an organized, prioritized task list." ].

Definition idea_prompt : string := lines [
  "Enhance and structure this creative idea:";
  "";
  "Input: " +:+ DQ +:+ "{text}" +:+ DQ;
  "";
  "Please organize into:";
  "1. **Core Concept** - Main idea clearly stated";
  "2. **Key Features** - Important aspects or components";
  "3. **Potential Benefits** - Value and advantages";
  "4. **Next Steps** - How to develop this idea further";
  "";
  "Format as a structured idea document with clear sections." ].

Definition general_prompt : string := lines [
  "Improve and format this note:";
  "";
  "Input: " +:+ DQ +:+ "{text}" +:+ DQ;
  "";
  "Please:";
  "1. **Fix grammar and clarity** - Make it readable";
  "2. **Organize logically** - Structure the content";
  "3. **Add proper formatting** - Use headings and bullets";
  "4. **Enhance professional tone** - Make it polished";
  "";
  "Format as a well-structured, professional note." ].

(** What [this.prompts[key]] evaluates to.  [prompts] is an object
    literal, so besides its four own keys a lookup also finds the
    properties every object inherits from [Object.prototype]; those values
    are truthy and are not strings. *)
Inductive Slot :=
| Template (text : string)
| Inherited
| Undefined.

Definition object_prototype_names : list string :=
  [ "constructor"; "__defineGetter__"; "__defineSetter__"; "hasOwnProperty";
    "__lookupGetter__"; "__lookupSetter__"; "isPrototypeOf";
    "propertyIsEnumerable"; "toString"; "valueOf"; "__proto__";
    "toLocaleString" ].

Definition prompts (key : string) : Slot :=
  if String.eqb key "meeting" then Template meeting_prompt
  else if String.eqb key "todo" then Template todo_prompt
  else if String.eqb key "idea" then Template idea_prompt
  else if String.eqb key "general" then Template general_prompt
  else if existsb (String.eqb key) object_prototype_names then Inherited
  else Undefined.

(** The object [processNote] resolves to.  [processingTime] is kept as the
    elapsed milliseconds (the source divides them by 1000). *)
Record Result := mkResult {
  processedText : string;
  tokensUsed : Z;
  processingTime : Z;
  success : bool;
  model : option string;
  error : option string;
  noteType : string
}.

Definition fallback_notice : string :=
  "**Note:** Enhanced formatting temporarily unavailable.".

Definition bullet : string := "• ".

Definition _createFallbackText (originalText noteType : string) : string :=
  let cleanText := JS.trim originalText in
  if String.eqb noteType "meeting" then
    "# Meeting Notes" +:+ JS.LF +:+ JS.LF +:+ "**Discussion:**" +:+ JS.LF
      +:+ cleanText +:+ JS.LF +:+ JS.LF +:+ fallback_notice
  else if String.eqb noteType "todo" then
    "# Task List" +:+ JS.LF +:+ JS.LF +:+ bullet
      +:+ JS.replace_sentence_marks (JS.LF +:+ bullet) cleanText
      +:+ JS.LF +:+ JS.LF +:+ fallback_notice
  else if String.eqb noteType "idea" then
    "# Creative Idea" +:+ JS.LF +:+ JS.LF +:+ "**Concept:**" +:+ JS.LF
      +:+ cleanText +:+ JS.LF +:+ JS.LF +:+ fallback_notice
  else
    "# Note" +:+ JS.LF +:+ JS.LF +:+ cleanText +:+ JS.LF +:+ JS.LF +:+ fallback_notice.

(** [!originalText || originalText.trim().length === 0] *)
Definition is_blank (originalText : string) : bool :=
  negb (JS.truthy originalText) || (JS.length (JS.trim originalText) =? 0)%nat.

Section WithEnv.
Variable env : Env.

(** The [catch] block of [processNote]: the fallback result.  It sees
    the value [noteType] has when the exception is thrown. *)
Definition fallback (startTime : Z) (originalText noteType : string)
    (e : Exn) : Async Result :=
  finished <- now env ;;
  log LError "OpenAI processing failed" ;;;
  ret {| processedText := _createFallbackText originalText noteType;
         tokensUsed := 0;
         processingTime := finished - startTime;
         success := false;
         model := None;
         error := Some (message_of e);
         noteType := noteType |}.

(** The body of the [try] block once the text is known not to be blank
    and [noteType] has its final value.  A [TypeError] is thrown when
    the slot is not a string (no [replace] method) and when the answer
    has no content to trim; the messages are the engine's. *)
Definition complete (startTime : Z) (originalText noteType : string)
  : Async Result :=
  match prompts noteType with
  | Template text =>
      let prompt := JS.replace "{text}" (JS.trim originalText) text in
      t <- outbound ;;
      emit (CompletionRequested (Some prompt)) ;;;
      match completion env t with
      | ApiCompletion (Some content) total_tokens model =>
          finished <- now env ;;
          ret {| processedText := JS.trim content;
                 tokensUsed := total_tokens;
                 processingTime := finished - startTime;
                 success := true;
                 model := Some model;
                 error := None;
                 noteType := noteType |}
      | ApiCompletion None _ _ =>
          fallback startTime originalText noteType
            (Error "Cannot read properties of undefined (reading 'trim')")
      | ApiError message =>
          fallback startTime originalText noteType (Error message)
      end
  | Inherited | Undefined =>
      fallback startTime originalText noteType
        (Error "this.prompts[noteType].replace is not a function")
  end.

Definition processNote (originalText noteType : string) : Async Result :=
  startTime <- now env ;;
  if is_blank originalText
  then fallback startTime originalText noteType (Error "Original text is required")
  else
    match prompts noteType with
    | Undefined =>
        log LWarn ("Unknown note type: " +:+ noteType +:+ ", using general instead") ;;;
        complete startTime originalText "general"
    | Template _ | Inherited =>
        complete startTime originalText noteType
    end.

End WithEnv.
End OpenAIService.

(** *** ProcessingController *)

(** The JSON bodies the controller sends. *)
Module Json.

Record Already := mkAlready {
  a_noteId : string;
  a_processedText : option string;
  a_tokensUsed : option Z;
  a_processingTime : option Z;
  alreadyProcessed : bool
}.

Record Limit := mkLimit {
  monthlyCount : Z;
  notesRemaining : Z;
  subscriptionTier : string
}.

Record Processed := mkProcessed {
  noteId : string;
  originalText : string;
  processedText : string;
  noteType : string;
  processingStatus : string;
  tokensUsed : Z;
  processingTime : Z;
  totalTime : Z;
  openaiSuccess : bool;
  model : string
}.

Record Status := mkStatus {
  s_noteId : string;
  s_processingStatus : string;
  s_tokensUsed : option Z;
  s_processingTime : option Z;
  hasProcessedText : bool;
  createdAt : Z;
  updatedAt : Z
}.

Inductive Data :=
| DAlready (d : Already)
| DLimit (d : Limit)
| DProcessed (d : Processed)
| DStatus (d : Status).

End Json.

(** [res.status(code).json({ success, message, error, data, details })];
    [None] is a key left out. *)
Record Response := mkResponse {
  code : nat;
  success : bool;
  message : option string;
  error : option string;
  data : option Json.Data;
  details : option string
}.

Module ProcessingController.

(** [req.body] of [POST /api/process]; [None] is a missing [noteId]. *)
Record ProcessRequest := mkRequest {
  noteId : option string
}.

Definition limit_notice : string :=
  JS.LF +:+ JS.LF
    +:+ "**Note: Monthly processing limit reached. Please upgrade to premium.**".

Section WithEnv.
Variable env : Env.
(** [process.env.NODE_ENV === 'development'] *)
Variable development : bool.

Definition missing_note_id : Response :=
  {| code := 400; success := false; message := Some "Note ID is required";
     error := Some "MISSING_NOTE_ID"; data := None; details := None |}.

(** The [try] block of [processNote], from the point where [noteId] is
    known to be truthy. *)
Definition process (startTime : Z) (noteId : string) : Async Response :=
  note <- SupabaseService.getNoteById env noteId ;;
  match note with
  | None =>
      log LWarn "Note not found for processing" ;;;
      ret {| code := 404; success := false; message := Some "Note not found";
             error := Some "NOTE_NOT_FOUND"; data := None; details := None |}
  | Some note =>
      if String.eqb (Note.processing_status note) "completed" then
        ret {| code := 200; success := true; message := Some "Note already processed";
               error := None;
               data := Some (Json.DAlready
                 {| Json.a_noteId := noteId;
                    Json.a_processedText := Note.processed_text note;
                    Json.a_tokensUsed := Note.tokens_used note;
                    Json.a_processingTime := Note.processing_time note;
                    Json.alreadyProcessed := true |});
               details := None |}
      else
        userLimits <- SupabaseService.checkUserLimits env (Note.user_id note) ;;
        match userLimits with
        | None =>
            throw (Error "Cannot read properties of null (reading 'limit_reached')")
        | Some userLimits =>
            if UserLimits.limit_reached userLimits then
              log LWarn "User processing limit reached" ;;;
              SupabaseService.updateNoteProcessing env noteId
                {| SupabaseService.processedText :=
                     Some (Note.original_text note +:+ limit_notice);
                   SupabaseService.status := Some "failed";
                   SupabaseService.tokensUsed := None;
                   SupabaseService.processingTime := None |} ;;;
              ret {| code := 429; success := false;
                     message := Some "Monthly processing limit reached";
                     error := Some "LIMIT_REACHED";
                     data := Some (Json.DLimit
                       {| Json.monthlyCount := UserLimits.monthly_note_count userLimits;
                          Json.notesRemaining := UserLimits.notes_remaining userLimits;
                          Json.subscriptionTier := UserLimits.subscription_tier userLimits |});
                     details := None |}
            else
              SupabaseService.updateNoteProcessing env noteId
                {| SupabaseService.processedText := None;
                   SupabaseService.status := Some "processing";
                   SupabaseService.tokensUsed := None;
                   SupabaseService.processingTime := None |} ;;;
              result <- OpenAIService.processNote env
                          (Note.original_text note) (Note.note_type note) ;;
              let status :=
                if OpenAIService.success result then "completed" else "failed" in
              SupabaseService.updateNoteProcessing env noteId
                {| SupabaseService.processedText :=
                     Some (OpenAIService.processedText result);
                   SupabaseService.status := Some status;
                   SupabaseService.tokensUsed := Some (OpenAIService.tokensUsed result);
                   SupabaseService.processingTime :=
                     Some (OpenAIService.processingTime result) |} ;;;
              (* Increment user's note count only if processing was successful *)
              (if OpenAIService.success result
               then SupabaseService.incrementUserNoteCount env (Note.user_id note)
               else ret tt) ;;;
              finished <- now env ;;
              ret {| code := 200; success := true;
                     message :=
                       Some (if OpenAIService.success result
                             then "Note processed successfully"
                             else "Note processing completed with fallback");
                     error := None;
                     data := Some (Json.DProcessed
                       {| Json.noteId := noteId;
                          Json.originalText := Note.original_text note;
                          Json.processedText := OpenAIService.processedText result;
                          Json.noteType := Note.note_type note;
                          Json.processingStatus := status;
                          Json.tokensUsed := OpenAIService.tokensUsed result;
                          Json.processingTime := OpenAIService.processingTime result;
                          Json.totalTime := finished - startTime;
                          Json.openaiSuccess := OpenAIService.success result;
                          Json.model :=
                            JS.or_else (OpenAIService.model result) "fallback" |});
                     details := None |}
        end
  end.

(** The [catch] block of [processNote]. *)
Definition recover (req : ProcessRequest) (e : Exn) : Async Response :=
  log LError (message_of e) ;;;
  (* Try to update note status to failed *)
  (if JS.truthy_opt (noteId req) then
     try_catch
       (SupabaseService.updateNoteProcessing env (default "" (noteId req))
          {| SupabaseService.processedText := None;
             SupabaseService.status := Some "failed";
             SupabaseService.tokensUsed := None;
             SupabaseService.processingTime := None |} ;;;
        ret tt)
       (fun updateError => log LError (message_of updateError))
   else ret tt) ;;;
  ret {| code := 500; success := false; message := Some "Processing failed";
         error := Some "PROCESSING_ERROR"; data := None;
         details := if development then Some (message_of e) else None |}.

(** [POST /api/process] *)
Definition processNote (req : ProcessRequest) : Async Response :=
  startTime <- now env ;;
  try_catch
    (if negb (JS.truthy_opt (noteId req)) then ret missing_note_id
     else process startTime (default "" (noteId req)))
    (recover req).

(** [GET /api/status/:noteId]; [noteId] is [req.params.noteId]. *)
Definition getProcessingStatus (noteId : option string) : Async Response :=
  try_catch
    (if negb (JS.truthy_opt noteId) then
       ret {| code := 400; success := false; message := Some "Note ID is required";
              error := None; data := None; details := None |}
     else
       let id := default "" noteId in
       note <- SupabaseService.getNoteById env id ;;
       match note with
       | None =>
           ret {| code := 404; success := false; message := Some "Note not found";
                  error := None; data := None; details := None |}
       | Some note =>
           ret {| code := 200; success := true; message := None;
                  error := None;
                  data := Some (Json.DStatus
                    {| Json.s_noteId := id;
                       Json.s_processingStatus := Note.processing_status note;
                       Json.s_tokensUsed := Note.tokens_used note;
                       Json.s_processingTime := Note.processing_time note;
                       Json.hasProcessedText := JS.truthy_opt (Note.processed_text note);
                       Json.createdAt := Note.created_at note;
                       Json.updatedAt := Note.updated_at note |});
                  details := None |}
       end)
    (fun e =>
       log LError (message_of e) ;;;
       ret {| code := 500; success := false;
              message := Some "Failed to get processing status";
              error := Some "STATUS_ERROR"; data := None; details := None |}).

End WithEnv.
End ProcessingController.

(** *** Authentication middleware *)

Module Auth.

(** [req.headers]: the two headers the middleware reads ([None] is a
    header that was not sent). *)
Record Headers := mkHeaders {
  x_api_key : option string;
  authorization : option string
}.

(** What the middleware does with the request: pass it on, or answer. *)
Inductive Verdict :=
| Next
| Sent (r : Response).

(** [req.headers['x-api-key'] ||
     req.headers['authorization']?.replace('Bearer ', '')] *)
Definition presented_key (h : Headers) : option string :=
  if JS.truthy_opt (x_api_key h) then x_api_key h
  else option_map (JS.replace "Bearer " "") (authorization h).

Definition reject (status : nat) (text code : string) : Response :=
  {| code := status; success := false; message := Some text;
     error := Some code; data := None; details := None |}.

(** [apiKeyAuth]; [expectedApiKey] is [process.env.API_SECRET_KEY].  None
    of the statements of the [try] block throws on these inputs, so the
    [AUTH_ERROR] answer of its [catch] block is not reached. *)
Definition apiKeyAuth (expectedApiKey : option string) (h : Headers)
  : Verdict * list Event :=
  let apiKey := presented_key h in
  if negb (JS.truthy_opt apiKey) then
    (Sent (reject 401 "API key required" "MISSING_API_KEY"),
     [Log LWarn "API request without key"])
  else if negb (JS.truthy_opt expectedApiKey) then
    (Sent (reject 500 "Server configuration error" "CONFIG_ERROR"),
     [Log LError "API_SECRET_KEY not configured in environment"])
  else if negb (bool_decide (apiKey = expectedApiKey)) then
    (Sent (reject 401 "Invalid API key" "INVALID_API_KEY"),
     [Log LWarn "Invalid API key attempt"])
  else (Next, []).

End Auth.

(** *** The other middleware of auth.js *)

Module Middleware.

(** [req.rateLimit] as [authenticatedRateLimit] sets it. *)
Record RateLimit := mkRateLimit {
  max : Z;
  windowMs : Z
}.

(** The request as the handlers down the chain see it: [authenticated]
    and [rateLimit] are [None] ([undefined]) until a middleware sets them. *)
Record Request := mkRequest {
  headers : Auth.Headers;
  authenticated : option bool;
  rateLimit : option RateLimit
}.

(** [optionalAuth]: always calls [next()]; its log records are at level
    [debug].  The comparison is [apiKey === expectedApiKey], with
    [expectedApiKey] as it is in the environment. *)
Definition optionalAuth (expectedApiKey : option string) (req : Request) : Request :=
  let apiKey := Auth.presented_key (headers req) in
  if JS.truthy_opt apiKey then
    if bool_decide (apiKey = expectedApiKey)
    then {| headers := headers req; authenticated := Some true;
            rateLimit := rateLimit req |}
    else {| headers := headers req; authenticated := Some false;
            rateLimit := rateLimit req |}
  else {| headers := headers req; authenticated := Some false;
          rateLimit := rateLimit req |}.

(** [authenticatedRateLimit]: always calls [next()]. *)
Definition authenticatedRateLimit (req : Request) : Request :=
  if default false (authenticated req) then
    {| headers := headers req; authenticated := authenticated req;
       rateLimit := Some {| max := 100; windowMs := 60000 |} |}
  else
    {| headers := headers req; authenticated := authenticated req;
       rateLimit := Some {| max := 20; windowMs := 60000 |} |}.

(** [devBypass]; [development] is [process.env.NODE_ENV === 'development']. *)
Definition devBypass (development : bool) (expectedApiKey : option string)
    (req : Request) : Auth.Verdict * Request * list Event :=
  if development then
    (Auth.Next,
     {| headers := headers req; authenticated := Some true;
        rateLimit := rateLimit req |},
     [])
  else
    let '(verdict, events) := Auth.apiKeyAuth expectedApiKey (headers req) in
    (verdict, req, events).

End Middleware.

(** *** The routes of server.js *)

Module Server.

(** The [keyGenerator] of [processingRateLimit]: the bucket a request is
    counted in.  [ip] is [req.ip]; an undefined value is rendered by the
    template literal as the text [undefined]. *)
Definition keyGenerator (h : Auth.Headers) (ip : option string) : string :=
  let apiKey := Auth.presented_key h in
  if JS.truthy_opt apiKey then "api_key:" +:+ default "" apiKey
  else "ip:" +:+ default "undefined" ip.

(** A handler behind [apiKeyAuth]: the part of a protected route after
    the rate limiter.  ([logAuthAttempts] only writes a record at level
    [info] and calls [next()].) *)
Definition behind_gate (expectedApiKey : option string) (h : Auth.Headers)
    (handler : Async Response) : Async Response :=
  fun w =>
    match Auth.apiKeyAuth expectedApiKey h with
    | (Auth.Sent r, events) => (Returns r, w, events)
    | (Auth.Next, events) =>
        match handler w with
        | (outcome, w', events') => (outcome, w', events ++ events')
        end
    end.

Section WithEnv.
Variable env : Env.
Variable development : bool.
Variable expectedApiKey : option string.

(** [app.post('/api/process', logAuthAttempts, processingRateLimit,
    apiKeyAuth, processingController.processNote)] *)
Definition post_api_process (h : Auth.Headers)
    (body : ProcessingController.ProcessRequest) : Async Response :=
  behind_gate expectedApiKey h (ProcessingController.processNote env development body).

(** [app.get('/api/status/:noteId', logAuthAttempts, apiKeyAuth,
    processingController.getProcessingStatus)] *)
Definition get_api_status (h : Auth.Headers) (noteId : option string)
  : Async Response :=
  behind_gate expectedApiKey h (ProcessingController.getProcessingStatus env noteId).

End WithEnv.
End Server.

(** *** Statistics and health of the store *)

Module Statistics.

(** The value of a property of a counter object.  The objects start as
    [{}], so a key that names a member of [Object.prototype] is read as
    that member the first time: [(member || 0) + 1] is then a text, not a
    number, and stays one. *)
Inductive Tally :=
| Counted (n : nat)
| Mangled.

(** [counts[key] = (counts[key] || 0) + 1].  The assignment to
    [__proto__] goes to the setter of [Object.prototype], which ignores a
    value that is not an object. *)
Definition bump (key : string) (counts : gmap string Tally) : gmap string Tally :=
  match counts !! key with
  | Some (Counted n) => <[key := Counted (S n)]> counts
  | Some Mangled => counts
  | None =>
      if String.eqb key "__proto__" then counts
      else if existsb (String.eqb key) OpenAIService.object_prototype_names
      then <[key := Mangled]> counts
      else <[key := Counted 1]> counts
  end.

(** A JavaScript number that holds an integer: the double nearest to it
    (the integer itself below 2^53; the conversion is taken below 2^63). *)
Definition number (z : Z) : float :=
  if z <? 0 then PrimFloat.opp (PrimFloat.of_uint63 (Uint63.of_Z (- z)))
  else PrimFloat.of_uint63 (Uint63.of_Z z).

(** The [processing_time] of a row as the JavaScript number the service
    wrote: the elapsed milliseconds divided by 1000, in double precision
    ([(Date.now() - startTime) / 1000]). *)
Definition seconds (milliseconds : Z) : float :=
  PrimFloat.div (number milliseconds) (number 1000).

(** What [getProcessingStats] resolves to; [averageProcessingTime] is a
    double, in seconds. *)
Record Stats := mkStats {
  totalProcessed : nat;
  statusCounts : gmap string Tally;
  typeDistribution : gmap string Tally;
  totalTokensUsed : Z;
  averageProcessingTime : float
}.

(** The variables the [forEach] callback updates. *)
Record Running := mkRunning {
  r_statusCounts : gmap string Tally;
  r_typeDistribution : gmap string Tally;
  r_totalTokensUsed : Z;
  totalTime : float;
  timeCount : nat
}.

Definition start : Running :=
  {| r_statusCounts := ∅; r_typeDistribution := ∅; r_totalTokensUsed := 0;
     totalTime := number 0; timeCount := 0 |}.

(** The callback of [data.forEach]. *)
Definition visit (acc : Running) (note : Note.t) : Running :=
  let time := default 0 (Note.processing_time note) in
  {| r_statusCounts := bump (Note.processing_status note) (r_statusCounts acc);
     r_typeDistribution := bump (Note.note_type note) (r_typeDistribution acc);
     r_totalTokensUsed := r_totalTokensUsed acc + default 0 (Note.tokens_used note);
     totalTime := if time =? 0 then totalTime acc
                  else PrimFloat.add (totalTime acc) (seconds time);
     timeCount := if time =? 0 then timeCount acc else S (timeCount acc) |}.

Definition summarise (data : list Note.t) : Stats :=
  let acc := fold_left visit data start in
  {| totalProcessed := List.length data;
     statusCounts := r_statusCounts acc;
     typeDistribution := r_typeDistribution acc;
     totalTokensUsed := r_totalTokensUsed acc;
     averageProcessingTime :=
       if (0 <? timeCount acc)%nat
       then PrimFloat.div (totalTime acc) (number (Z.of_nat (timeCount acc)))
       else number 0 |}.

Definition processed (note : Note.t) : bool :=
  negb (String.eqb (Note.processing_status note) "pending").

(** The rows of [.from('notes').select(...).not('processing_status', 'eq',
    'pending')]. *)
Definition rows (w : World) : list Note.t :=
  List.filter processed (map snd (map_to_list (notes w))).



Section WithEnv.
Variable env : Env.
Variable SUPABASE_URL : option string.
Variable SUPABASE_SERVICE_KEY : option string.

Definition getProcessingStats : Async Stats :=
  t <- outbound ;;
  w <- world ;;
  match store_error env t with
  | None => ret (summarise (rows w))
  | Some message =>
      log LError "Failed to get processing stats" ;;;
      log LError "Error getting processing stats" ;;;
      throw (Error message)
  end.



End WithEnv.
End Statistics.

(** ** The speechcraft-processor server *)

Module Processor.

(** The settings the services read when they are constructed. *)
Record Config := mkConfig {
  SUPABASE_URL : option string;
  SUPABASE_SERVICE_ROLE_KEY : option string;
  OPENAI_API_KEY : option string
}.

(** What [updateNoteProcessing] resolves to: the updated row, or in test
    mode the id and the update echoed back. *)
Inductive NoteJson :=
| Row (n : Note.t)
| Echo (id : string) (updates : Patch.t).

Module SupabaseService.

Definition testMode (c : Config) : bool :=
  negb (JS.truthy_opt (SUPABASE_URL c))
  || negb (JS.truthy_opt (SUPABASE_SERVICE_ROLE_KEY c))
  || bool_decide (SUPABASE_URL c = Some "your-supabase-project-url")
  || bool_decide (SUPABASE_SERVICE_ROLE_KEY c = Some "your-supabase-service-role-key").

(** The columns of an update; [updated_at] is filled in by the service. *)
Record Updates := mkUpdates {
  processed_text : option string;
  processing_status : option string;
  tokens_used : option Z;
  processing_time : option Z;
  note_type : option string
}.

Section WithEnv.
Variable env : Env.
Variable config : Config.

Definition updateNoteProcessing (noteId : string) (updates : Updates)
  : Async NoteJson :=
  updated_at <- now env ;;
  let patch :=
    {| Patch.processed_text := processed_text updates;
       Patch.processing_status := processing_status updates;
       Patch.tokens_used := tokens_used updates;
       Patch.processing_time := processing_time updates;
       Patch.note_type := note_type updates;
       Patch.updated_at := updated_at |} in
  if testMode config then ret (Echo noteId patch)
  else
    t <- outbound ;;
    w <- world ;;
    match store_error env t, notes w !! noteId with
    | None, Some n =>
        let updated := Patch.apply patch n in
        set_notes (<[noteId := updated]> (notes w)) ;;;
        emit (NoteUpdated noteId n patch) ;;;
        ret (Row updated)
    | Some message, _ =>
        emit (NoteUpdateRejected noteId patch) ;;;
        log LError "Error updating note:" ;;;
        throw (Error message)
    | None, None =>
        emit (NoteUpdateRejected noteId patch) ;;;
        log LError "Error updating note:" ;;;
        throw (Error "JSON object requested, multiple (or no) rows returned")
    end.

(** In test mode a pending note is made up; the row it returns has no
    [updated_at], kept here as the creation time. *)
Definition getNoteById (noteId : string) : Async (option Note.t) :=
  if testMode config then
    created <- now env ;;
    ret (Some {| Note.id := noteId;
                 Note.user_id := "test-user-id";
                 Note.original_text :=
                   "This is a test voice note about productivity and meeting notes.";
                 Note.processed_text := None;
                 Note.note_type := "general";
                 Note.processing_status := "pending";
                 Note.tokens_used := None;
                 Note.processing_time := None;
                 Note.created_at := created;
                 Note.updated_at := created |})
  else
    t <- outbound ;;
    emit (NoteFetched noteId) ;;;
    w <- world ;;
    match store_error env t, notes w !! noteId with
    | None, Some n => ret (Some n)
    | Some message, _ =>
        log LError "Error fetching note:" ;;;
        throw (Error message)
    | None, None =>
        (* [.single()] reports the missing row as an error *)
        log LError "Error fetching note:" ;;;
        throw (Error "JSON object requested, multiple (or no) rows returned")
    end.

(** Outside test mode the update is built with
    [this.supabase.sql`notes_processed + 1`].  The store client has no
    member [sql], so the tagged template throws a [TypeError] inside the
    [try] block while the argument of [update] is evaluated: no request is
    sent and no counter changes; the [catch] block logs and throws on. *)
Definition incrementUserNoteCount (userId : string) : Async unit :=
  if testMode config then ret tt
  else
    log LError "Error incrementing user note count:" ;;;
    throw (Error "this.supabase.sql is not a function").

End WithEnv.
End SupabaseService.

Module OpenAIService.

Definition testMode (c : Config) : bool :=
  negb (JS.truthy_opt (OPENAI_API_KEY c))
  || bool_decide (OPENAI_API_KEY c = Some "your-openai-api-key").

(** [processingTime] is kept in milliseconds; [error] is only set by the
    [catch] block. *)
Record Result := mkResult {
  processedText : string;
  tokensUsed : Z;
  processingTime : Z;
  error : option string
}.

Definition mock (originalText noteType : string) : string :=
  "[TEST MODE - AI PROCESSED]" +:+ JS.LF +:+ JS.LF
    +:+ "**Enhanced " +:+ noteType +:+ " note:**" +:+ JS.LF +:+ JS.LF
    +:+ originalText +:+ JS.LF +:+ JS.LF
    +:+ "**Key Points:**" +:+ JS.LF
    +:+ "- This is a simulated AI enhancement" +:+ JS.LF
    +:+ "- Original text preserved" +:+ JS.LF
    +:+ "- Note type: " +:+ noteType +:+ JS.LF
    +:+ "- This would normally be processed by OpenAI".

(** [prompts[noteType] || prompts.general]; [None] when the slot found
    is a property inherited from [Object.prototype], which is truthy but
    is not a string. *)
Definition prompt (originalText noteType : string) : option string :=
  let general :=
    "Please clean up and improve this voice note. Fix any grammar, make it "
      +:+ "more readable, and organize the content logically while preserving "
      +:+ "all the original information:"
      +:+ JS.LF +:+ JS.LF +:+ originalText in
  if String.eqb noteType "meeting" then
    Some ("Please clean up and structure this meeting transcript. Format it "
            +:+ "with clear sections for key points, action items, and "
            +:+ "decisions made. Keep the original meaning but make it "
            +:+ "professional and well-organized:"
            +:+ JS.LF +:+ JS.LF +:+ originalText)
  else if String.eqb noteType "todo" then
    Some ("Please convert this voice note into a clear, actionable todo list. "
            +:+ "Break down tasks into specific steps if needed, and organize "
            +:+ "by priority if mentioned:"
            +:+ JS.LF +:+ JS.LF +:+ originalText)
  else if String.eqb noteType "idea" then
    Some ("Please expand and refine this idea. Add structure, potential next "
            +:+ "steps, and flesh out the concept while maintaining the "
            +:+ "original creative intent:"
            +:+ JS.LF +:+ JS.LF +:+ originalText)
  else if String.eqb noteType "general" then Some general
  else if existsb (String.eqb noteType) OpenAIService.object_prototype_names then None
  else Some general.

Section WithEnv.
Variable env : Env.
Variable config : Config.

Definition processNote (originalText noteType : string) : Async Result :=
  if testMode config then
    ret {| processedText := mock originalText noteType;
           tokensUsed := Z.of_nat (JS.length originalText) / 4;
           processingTime := 500;
           error := None |}
  else
    startTime <- now env ;;
    t <- outbound ;;
    emit (CompletionRequested (prompt originalText noteType)) ;;;
    match completion env t with
    | ApiCompletion content total_tokens model =>
        finished <- now env ;;
        ret {| processedText :=
                 if JS.truthy_opt content then default "" content else originalText;
               tokensUsed := total_tokens;
               processingTime := finished - startTime;
               error := None |}
    | ApiError message =>
        log LError "OpenAI processing error:" ;;;
        (* Return original text if OpenAI fails *)
        ret {| processedText := originalText;
               tokensUsed := 0;
               processingTime := 0;
               error := Some message |}
    end.

End WithEnv.
End OpenAIService.

Module ProcessingController.

(** [req.body] of [POST /api/process]: the two keys of the schema, each
    a JSON string when present. *)
Record Body := mkBody {
  noteId : option string;
  noteType : option string
}.

(** The text of a reply: a literal of the controller, or the message Joi
    produces for the key that failed ([error.details[0].message]). *)
Inductive Message :=
| Text (s : string)
| JoiDetail (key : string).

(** The replies of the controller: [{ error, message }] with a status
    code, or the 200 reply
    [{ success: true, note, processing: { tokensUsed, processingTime, error } }]. *)
Inductive Reply :=
| Refused (status : nat) (error : string) (message : Message)
| Done (note : NoteJson) (tokensUsed processingTime : Z) (error : option string).

Definition status_code (r : Reply) : nat :=
  match r with
  | Refused status _ _ => status
  | Done _ _ _ _ => 200%nat
  end.

Inductive Validation :=
| Valid (noteId noteType : string)
| Invalid (key : string).

Definition note_types : list string := [ "meeting"; "todo"; "idea"; "general" ].

(** The canonical text of a GUID: 8-4-4-4-12 hexadecimal digits. *)
Definition hex_digit (a : ascii) : bool :=
  let n := N_of_ascii a in
  ((48 <=? n) && (n <=? 57) || (65 <=? n) && (n <=? 70) || (97 <=? n) && (n <=? 102))%N.

Definition canonical_guid (s : string) : bool :=
  let l := list_ascii_of_string s in
  (List.length l =? 36)%nat
  && forallb (fun '(i, a) =>
                if existsb (Nat.eqb i) [8; 13; 18; 23]%nat
                then Ascii.eqb a "-"%char else hex_digit a)
             (combine (seq 0 36) l).

Section WithEnv.
Variable env : Env.
Variable config : Config.
(** The texts [Joi.string().uuid()] accepts; the rule is the
    library's. *)
Variable guid : string -> bool.

(** [processNoteSchema.validate(req.body)]:
    [noteId: Joi.string().uuid().required()],
    [noteType: Joi.string().valid('meeting', 'todo', 'idea', 'general')
                 .default('general')]. *)
Definition processNoteSchema (body : Body) : Validation :=
  match noteId body with
  | None => Invalid "noteId"
  | Some id =>
      if negb (JS.truthy id) || negb (guid id) then Invalid "noteId"
      else match noteType body with
           | None => Valid id "general"
           | Some ty =>
               if existsb (String.eqb ty) note_types then Valid id ty
               else Invalid "noteType"
           end
  end.

Definition process (noteId noteType : string) : Async Reply :=
  note <- SupabaseService.getNoteById env config noteId ;;
  match note with
  | None => ret (Refused 404 "Not found" (Text "Note not found"))
  | Some note =>
      if String.eqb (Note.processing_status note) "completed" then
        ret (Refused 400 "Already processed"
               (Text "This note has already been processed"))
      else
        SupabaseService.updateNoteProcessing env config noteId
          {| SupabaseService.processed_text := None;
             SupabaseService.processing_status := Some "processing";
             SupabaseService.tokens_used := None;
             SupabaseService.processing_time := None;
             SupabaseService.note_type := Some noteType |} ;;;
        result <- OpenAIService.processNote env config
                    (Note.original_text note) noteType ;;
        let failed := JS.truthy_opt (OpenAIService.error result) in
        updatedNote <- SupabaseService.updateNoteProcessing env config noteId
          {| SupabaseService.processed_text := Some (OpenAIService.processedText result);
             SupabaseService.processing_status :=
               Some (if failed then "failed" else "completed");
             SupabaseService.tokens_used := Some (OpenAIService.tokensUsed result);
             SupabaseService.processing_time :=
               Some (OpenAIService.processingTime result);
             SupabaseService.note_type := Some noteType |} ;;
        (* Increment user's note count *)
        SupabaseService.incrementUserNoteCount config (Note.user_id note) ;;;
        ret (Done updatedNote (OpenAIService.tokensUsed result)
               (OpenAIService.processingTime result)
               (if failed then OpenAIService.error result else None))
  end.

Definition recover (body : Body) (e : Exn) : Async Reply :=
  log LError "Processing controller error:" ;;;
  (* Try to update note status to failed *)
  (if JS.truthy_opt (noteId body) then
     try_catch
       (SupabaseService.updateNoteProcessing env config (default "" (noteId body))
          {| SupabaseService.processed_text := None;
             SupabaseService.processing_status := Some "failed";
             SupabaseService.tokens_used := None;
             SupabaseService.processing_time := None;
             SupabaseService.note_type := None |} ;;;
        ret tt)
       (fun updateError => log LError "Failed to update note status to failed:")
   else ret tt) ;;;
  ret (Refused 500 "Processing failed"
         (Text "An error occurred while processing the note")).

Definition processNote (body : Body) : Async Reply :=
  try_catch
    (match processNoteSchema body with
     | Invalid key => ret (Refused 400 "Validation error" (JoiDetail key))
     | Valid noteId noteType => process noteId noteType
     end)
    (recover body).

End WithEnv.
End ProcessingController.

End Processor.

(** *** The middleware of the speechcraft-processor server *)

Module ProcessorAuth.

(** What [authMiddleware] does with the request: pass it on, or answer 401
    with [{ error: 'Unauthorized', message }]. *)
Inductive Verdict :=
| Next
| Unauthorized (message : string).

(** [authMiddleware]; [API_KEY] is [process.env.API_KEY]. *)
Definition authMiddleware (API_KEY : option string) (h : Auth.Headers)
  : Verdict * list Event :=
  let apiKey := Auth.x_api_key h in
  if negb (JS.truthy_opt apiKey) then
    (Unauthorized "API key is required", [Log LWarn "Request without API key"])
  else if negb (bool_decide (apiKey = API_KEY)) then
    (Unauthorized "Invalid API key", [Log LWarn "Request with invalid API key"])
  else (Next, []).

End ProcessorAuth.

(** ** Reading the events of a request *)

Definition is_completion_request (e : Event) : bool :=
  match e with CompletionRequested _ => true | _ => false end.

Definition is_increment (e : Event) : bool :=
  match e with CountIncremented _ => true | _ => false end.

Definition is_update (e : Event) : bool :=
  match e with NoteUpdated _ _ _ => true | _ => false end.

(** A persisted update that sets the status to [s]. *)
Definition writes_status (s : string) (e : Event) : bool :=
  match e with
  | NoteUpdated _ _ patch =>
      match Patch.processing_status patch with
      | Some written => String.eqb written s
      | None => false
      end
  | _ => false
  end.

Definition is_warning (e : Event) : bool :=
  match e with Log LWarn _ => true | _ => false end.

(** How many events of a kind a request caused. *)
Definition count (kind : Event -> bool) (events : list Event) : nat :=
  List.length (List.filter kind events).

(** The status transitions of the persisted updates, oldest first: the
    status the row had and the status written. *)
Fixpoint transitions (events : list Event) : list (string * string) :=
  match events with
  | [] => []
  | NoteUpdated _ previous patch :: rest =>
      match Patch.processing_status patch with
      | Some s => (Note.processing_status previous, s) :: transitions rest
      | None => transitions rest
      end
  | _ :: rest => transitions rest
  end.

(** The response a handler sent, the world it left and its events. *)
Definition response_of {A} (r : Outcome A * World * list Event) : option A :=
  match r with
  | (Returns a, _, _) => Some a
  | (Throws _, _, _) => None
  end.

Definition world_after {A} (r : Outcome A * World * list Event) : World :=
  snd (fst r).

Definition events_of {A} (r : Outcome A * World * list Event) : list Event :=
  snd r.

(** The status of a note in the store. *)
Definition status_in (w : World) (noteId : string) : option string :=
  Note.processing_status <$> notes w !! noteId.

(** A run that left the notes and the profiles as they were and made no
    completion request, no increment and no update. *)
Definition untouched {A} (w : World) (r : Outcome A * World * list Event) : Prop :=
  notes (world_after r) = notes w
  /\ profiles (world_after r) = profiles w
  /\ count is_completion_request (events_of r) = 0%nat
  /\ count is_increment (events_of r) = 0%nat
  /\ count is_update (events_of r) = 0%nat.

(** The store answers every call of the run without an error. *)
Definition store_reliable (env : Env) : Prop :=
  forall t, store_error env t = None.

(** The world after [k] more outbound calls that left the store as it was. *)
Definition advance (k : nat) (w : World) : World :=
  mkWorld (notes w) (profiles w) (k + tick w).

(** The update [SupabaseService.updateNoteProcessing] issues for [data] when
    it is called in world [w]. *)
Definition patch_of (env : Env) (data : SupabaseService.ProcessingData) (w : World)
  : Patch.t :=
  {| Patch.processed_text := SupabaseService.processedText data;
     Patch.processing_status := SupabaseService.status data;
     Patch.tokens_used := SupabaseService.tokensUsed data;
     Patch.processing_time := SupabaseService.processingTime data;
     Patch.note_type := None;
     Patch.updated_at := clock env (tick w) |}.

(** The completion service never answers with content: it errs, or its
    first choice is empty. *)
Definition completion_unavailable (env : Env) : Prop :=
  forall t content total_tokens model,
    completion env t <> ApiCompletion (Some content) total_tokens model.

(** The status edges of the specification:
    pending → processing → completed or failed. *)
Definition lifecycle_edge (previous next : string) : bool :=
  (String.eqb previous "pending" && String.eqb next "processing")
  || (String.eqb previous "processing"
      && (String.eqb next "completed" || String.eqb next "failed")).

(** The status edges the controller writes: a note that is not completed is
    set to processing, or directly to failed; a note in processing is set to
    completed or failed. *)
Definition written_edge (previous next : string) : Prop :=
  previous <> "completed"
  /\ (next = "processing" \/ next = "failed"
      \/ previous = "processing" /\ next = "completed").

(** A computation that, from any world, leaves the profiles as they are
    and increments no counter. *)
Definition counts_nothing {A} (m : Async A) : Prop :=
  forall w,
    profiles (world_after (m w)) = profiles w
    /\ count is_increment (events_of (m w)) = 0%nat.

(** The prompts of the completion requests of a run, oldest first. *)
Definition requested_prompts (events : list Event) : list (option string) :=
  omap (fun e => match e with CompletionRequested prompt => Some prompt | _ => None end)
       events.


(** The stored notes that satisfy [p]. *)
Definition stored_with (p : Note.t -> bool) (w : World) : nat :=
  List.length (List.filter p (map snd (map_to_list (notes w)))).

Definition has_status (s : string) (note : Note.t) : bool :=
  String.eqb (Note.processing_status note) s.

Definition has_type (ty : string) (note : Note.t) : bool :=
  String.eqb (Note.note_type note) ty.

(** Two states of the [forEach] loop of the statistics that agree on
    everything that is counted: the counter objects, the token total and
    the number of timed rows. *)
Definition same_counts (a b : Statistics.Running) : Prop :=
  Statistics.r_statusCounts a = Statistics.r_statusCounts b
  /\ Statistics.r_typeDistribution a = Statistics.r_typeDistribution b
  /\ Statistics.r_totalTokensUsed a = Statistics.r_totalTokensUsed b
  /\ Statistics.timeCount a = Statistics.timeCount b.

(** ** Sample data *)

Module Sample.

(** The note id of [test-api.js]. *)
Definition id : string := "123e4567-e89b-12d3-a456-426614174000".

Definition note (note_type status : string) (processed : option string) : Note.t :=
  {| Note.id := id;
     Note.user_id := "user-1";
     Note.original_text := "buy milk. call mom.";
     Note.processed_text := processed;
     Note.note_type := note_type;
     Note.processing_status := status;
     Note.tokens_used := None;
     Note.processing_time := None;
     Note.created_at := 1000;
     Note.updated_at := 1000 |}.

Definition profile : Profile.t :=
  {| Profile.monthly_note_count := 3;
     Profile.notes_processed := 3;
     Profile.subscription_tier := "free" |}.

Definition store (n : Note.t) : World :=
  {| notes := {[ id := n ]}; profiles := {[ "user-1" := profile ]}; tick := 0 |}.

Definition within_limits : UserLimits.t :=
  {| UserLimits.limit_reached := false;
     UserLimits.monthly_note_count := 3;
     UserLimits.notes_remaining := 7;
     UserLimits.subscription_tier := "free" |}.

Definition over_limit : UserLimits.t :=
  {| UserLimits.limit_reached := true;
     UserLimits.monthly_note_count := 10;
     UserLimits.notes_remaining := 0;
     UserLimits.subscription_tier := "free" |}.

Definition env (faults : nat -> option string) (limits : UserLimits.t)
    (reply : ApiReply) : Env :=
  {| store_error := faults;
     limits_data := fun _ => Some limits;
     completion := fun _ => reply;
     clock := fun t => 2000 + 10 * Z.of_nat t |}.

Definition no_fault : nat -> option string := fun _ => None.

(** The store is unreachable for the first [k] calls. *)
Definition outage (k : nat) : nat -> option string :=
  fun t => if (t <? k)%nat then Some "fetch failed" else None.

Definition unavailable : ApiReply := ApiError "503 Service Unavailable".

Definition answer : ApiReply :=
  ApiCompletion (Some ("- Buy milk" +:+ JS.LF +:+ "- Call mom")) 57 "gpt-3.5-turbo".

Definition live : Processor.Config :=
  {| Processor.SUPABASE_URL := Some "https://project.supabase.co";
     Processor.SUPABASE_SERVICE_ROLE_KEY := Some "service-role-key";
     Processor.OPENAI_API_KEY := Some "sk-key" |}.

(** A completed note that took [milliseconds] to process. *)
Definition timed (milliseconds : Z) : Note.t :=
  {| Note.id := id;
     Note.user_id := "user-1";
     Note.original_text := "buy milk. call mom.";
     Note.processed_text := Some "- Buy milk";
     Note.note_type := "todo";
     Note.processing_status := "completed";
     Note.tokens_used := Some 57;
     Note.processing_time := Some milliseconds;
     Note.created_at := 1000;
     Note.updated_at := 1000 |}.

(** Nothing is configured: the store and the completion service of the
    speechcraft-processor server run in test mode. *)
Definition unconfigured : Processor.Config :=
  {| Processor.SUPABASE_URL := None;
     Processor.SUPABASE_SERVICE_ROLE_KEY := None;
     Processor.OPENAI_API_KEY := None |}.

End Sample.

(** * Properties *)

(** ** JavaScript strings *)

Example trim_ascii : JS.trim "  buy milk. call mom. " = "buy milk. call mom.".
Proof. reflexivity. Qed.

Example trim_nbsp : JS.trim (JS.of_bytes [194; 160; 104; 105; 226; 128; 168]%N) = "hi".
Proof. reflexivity. Qed.

Example replace_first_only : JS.replace "{text}" "x" "a {text} b {text}" = "a x b {text}".
Proof. reflexivity. Qed.

Example replace_dollar : JS.replace "{text}" "<$&|$$|$1>" "a {text} b" = "a <{text}|$|$1> b".
Proof. reflexivity. Qed.

Example marks : JS.replace_sentence_marks "-" "a.b!c?d" = "a-b-c-d".
Proof. reflexivity. Qed.

Example length_counts_code_units : JS.length "a•b" = 3%nat.
Proof. reflexivity. Qed.

Lemma app_cons a (s t : string) : String a s +:+ t = String a (s +:+ t).
Proof. reflexivity. Qed.

Lemma app_nil_l (t : string) : "" +:+ t = t.
Proof. reflexivity. Qed.

Lemma prefix_split (t s : string) :
  String.prefix t s = true -> s = t +:+ JS.drop_chars (String.length t) s.
Proof.
  revert s. induction t as [|a t IH]; intros s H.
  - reflexivity.
  - destruct s as [|b s]; [discriminate|].
    cbn in H. destruct (Ascii.ascii_dec a b) as [->|]; [|discriminate].
    rewrite app_cons. cbn. f_equal. by apply IH.
Qed.

Lemma prefix_app (t r : string) : String.prefix t (t +:+ r) = true.
Proof.
  induction t as [|a t IH]; [by destruct r|].
  rewrite app_cons. cbn. by destruct (Ascii.ascii_dec a a).
Qed.

Lemma split_at_first_eq (t s : string) :
  JS.split_at_first t s =
    if String.prefix t s then Some (""%string, JS.drop_chars (String.length t) s)
    else match s with
         | EmptyString => None
         | String a s' =>
             match JS.split_at_first t s' with
             | Some (before, after) => Some (String a before, after)
             | None => None
             end
         end.
Proof. by destruct s. Qed.

Lemma split_at_first_sound (t s before after : string) :
  JS.split_at_first t s = Some (before, after) -> s = before +:+ t +:+ after.
Proof.
  revert before. induction s as [|a s IH]; intros before;
    rewrite split_at_first_eq;
    (destruct (String.prefix t _) eqn:E;
     [intros [= <- <-]; by apply prefix_split|]).
  - discriminate.
  - destruct (JS.split_at_first t s) as [[b r]|]; [|discriminate].
    intros [= <- <-]. rewrite app_cons. f_equal. by apply IH.
Qed.

Lemma split_at_first_complete (t s : string) :
  JS.split_at_first t s = None -> ~ JS.occurs_in t s.
Proof.
  induction s as [|a s IH]; rewrite split_at_first_eq;
    (destruct (String.prefix t _) eqn:E; [discriminate|]);
    intros H [before [after Hs]].
  - destruct before; [|discriminate]. rewrite app_nil_l in Hs.
    rewrite Hs, prefix_app in E. discriminate.
  - destruct (JS.split_at_first t s) as [[b r]|]; [discriminate|].
    destruct before as [|c before].
    + rewrite app_nil_l in Hs. rewrite Hs, prefix_app in E. discriminate.
    + rewrite app_cons in Hs. injection Hs as -> Hs.
      apply IH; [done|]. by exists before, after.
Qed.

Lemma includes_spec (s t : string) : JS.includes s t = true <-> JS.occurs_in t s.
Proof.
  unfold JS.includes. destruct (JS.split_at_first t s) as [[b r]|] eqn:E.
  - split; [|done]. intros _. exists b, r. by apply split_at_first_sound.
  - split; [done|]. intros H. by apply split_at_first_complete in H.
Qed.

(** ** The API-key gate *)

Lemma presented_key_absent (h : Auth.Headers) :
  Auth.x_api_key h = None -> Auth.authorization h = None ->
  Auth.presented_key h = None.
Proof. unfold Auth.presented_key. by intros -> ->. Qed.

Lemma drop_chars_app (p s : string) : JS.drop_chars (String.length p) (p +:+ s) = s.
Proof. induction p as [|a p IH]; [by rewrite app_nil_l|]. by rewrite app_cons. Qed.

Lemma replace_prefix (p s : string) : JS.replace p "" (p +:+ s) = s.
Proof.
  unfold JS.replace. rewrite split_at_first_eq, prefix_app, drop_chars_app. cbn.
  by rewrite !app_nil_l.
Qed.

(** A text in which the pattern does not occur is left as it is. *)
Lemma replace_absent (p r s : string) :
  JS.includes s p = false -> JS.replace p r s = s.
Proof.
  unfold JS.includes, JS.replace. by destruct (JS.split_at_first p s) as [[? ?]|].
Qed.

(** C7, as amended: the key of a request is its [x-api-key] header when
    that is not empty, and else its [Authorization] header with the first
    [Bearer ] removed, so a header of another scheme is taken whole.  A
    request that presents no key (neither header, or an empty key) is
    answered 401 with code [MISSING_API_KEY]; on a server with a secret, a
    request whose key differs from the secret is answered 401 with code
    [INVALID_API_KEY]; the two codes differ. *)
Theorem apiKeyAuth_rejections (expectedApiKey : option string) (h : Auth.Headers) :
  let missing :=
    {| code := 401; success := false; message := Some "API key required";
       error := Some "MISSING_API_KEY"; data := None; details := None |} in
  let invalid :=
    {| code := 401; success := false; message := Some "Invalid API key";
       error := Some "INVALID_API_KEY"; data := None; details := None |} in
  (Auth.x_api_key h = None -> Auth.authorization h = None ->
   Auth.apiKeyAuth expectedApiKey h
   = (Auth.Sent missing, [Log LWarn "API request without key"]))
  /\ (JS.truthy_opt (Auth.presented_key h) = false ->
      Auth.apiKeyAuth expectedApiKey h
      = (Auth.Sent missing, [Log LWarn "API request without key"]))
  /\ (forall key secret : string,
        Auth.presented_key h = Some key -> JS.truthy key = true ->
        expectedApiKey = Some secret -> JS.truthy secret = true ->
        key <> secret ->
        Auth.apiKeyAuth expectedApiKey h
        = (Auth.Sent invalid, [Log LWarn "Invalid API key attempt"]))
  /\ (forall key,
        Auth.x_api_key h = Some key -> JS.truthy key = true ->
        Auth.presented_key h = Some key)
  /\ (forall token,
        JS.truthy_opt (Auth.x_api_key h) = false ->
        Auth.authorization h = Some ("Bearer " +:+ token) ->
        Auth.presented_key h = Some token)
  /\ (forall value,
        JS.truthy_opt (Auth.x_api_key h) = false ->
        Auth.authorization h = Some value ->
        JS.includes value "Bearer " = false ->
        Auth.presented_key h = Some value)
  /\ error missing <> error invalid.
Proof.
  cbn zeta. unfold Auth.apiKeyAuth, Auth.reject. repeat split.
  - intros Hkey Hauth. by rewrite (presented_key_absent h Hkey Hauth).
  - by intros ->.
  - intros key secret -> Hkey -> Hsecret Hne. cbn. rewrite Hkey, Hsecret. cbn.
    rewrite bool_decide_eq_false_2; [done|]. by intros [= ->].
  - intros key Hkey Htruthy. unfold Auth.presented_key. rewrite Hkey. cbn.
    by rewrite Htruthy.
  - intros token Hnone Hauth. unfold Auth.presented_key. rewrite Hnone, Hauth. cbn.
    by rewrite replace_prefix.
  - intros value Hnone Hauth Hscheme. unfold Auth.presented_key.
    rewrite Hnone, Hauth. cbn. by rewrite replace_absent.
  - discriminate.
Qed.

Lemma apiKeyAuth_rejections_witness :
  let missing :=
    {| code := 401; success := false; message := Some "API key required";
       error := Some "MISSING_API_KEY"; data := None; details := None |} in
  let invalid :=
    {| code := 401; success := false; message := Some "Invalid API key";
       error := Some "INVALID_API_KEY"; data := None; details := None |} in
  fst (Auth.apiKeyAuth (Some "s3cret") {| Auth.x_api_key := None; Auth.authorization := None |})
  = Auth.Sent missing
  /\ fst (Auth.apiKeyAuth (Some "s3cret")
            {| Auth.x_api_key := Some ""; Auth.authorization := Some "Bearer " |})
     = Auth.Sent missing
  /\ fst (Auth.apiKeyAuth (Some "s3cret")
            {| Auth.x_api_key := None; Auth.authorization := Some "Bearer guess" |})
     = Auth.Sent invalid.
Proof.
  split; [|split].
  - by rewrite (proj1 (apiKeyAuth_rejections (Some "s3cret")
                         {| Auth.x_api_key := None; Auth.authorization := None |})
                  eq_refl eq_refl).
  - by rewrite (proj1 (proj2 (apiKeyAuth_rejections (Some "s3cret")
                         {| Auth.x_api_key := Some "";
                            Auth.authorization := Some "Bearer " |}))
                  eq_refl).
  - by rewrite (proj1 (proj2 (proj2 (apiKeyAuth_rejections (Some "s3cret")
                         {| Auth.x_api_key := None;
                            Auth.authorization := Some "Bearer guess" |})))
                  "guess" "s3cret" eq_refl eq_refl eq_refl eq_refl ltac:(discriminate)).
Defined.

(** C7, as stated, fails for a request that sends no [x-api-key] and an
    [Authorization] header of another scheme: no shared secret is present,
    yet the header is taken whole as the key and the answer is
    [INVALID_API_KEY], not [MISSING_API_KEY]. *)
Lemma other_scheme_is_taken_as_key :
  Auth.apiKeyAuth (Some "s3cret")
    {| Auth.x_api_key := None; Auth.authorization := Some "Basic dXNlcjpwYXNz" |}
  = (Auth.Sent {| code := 401; success := false; message := Some "Invalid API key";
                  error := Some "INVALID_API_KEY"; data := None; details := None |},
     [Log LWarn "Invalid API key attempt"]).
Proof. vm_compute. reflexivity. Qed.

(** The key that matches passes. *)
Lemma apiKeyAuth_accepts (secret : string) (h : Auth.Headers) :
  JS.truthy secret = true -> Auth.presented_key h = Some secret ->
  Auth.apiKeyAuth (Some secret) h = (Auth.Next, []).
Proof.
  intros Hs Hk. unfold Auth.apiKeyAuth. rewrite Hk. cbn. rewrite Hs. cbn.
  by rewrite bool_decide_eq_true_2.
Qed.

(** C10: when [API_SECRET_KEY] is not configured, a request that presents a
    key is answered 500 with code [CONFIG_ERROR], not 401, and is not passed
    on to the handler. *)
Theorem apiKeyAuth_unconfigured (expectedApiKey : option string) (h : Auth.Headers) :
  JS.truthy_opt expectedApiKey = false ->
  JS.truthy_opt (Auth.presented_key h) = true ->
  Auth.apiKeyAuth expectedApiKey h
  = (Auth.Sent {| code := 500; success := false;
                  message := Some "Server configuration error";
                  error := Some "CONFIG_ERROR"; data := None; details := None |},
     [Log LError "API_SECRET_KEY not configured in environment"])
  /\ fst (Auth.apiKeyAuth expectedApiKey h) <> Auth.Next
  /\ (forall r, fst (Auth.apiKeyAuth expectedApiKey h) = Auth.Sent r -> code r <> 401%nat).
Proof.
  intros Hsecret Hkey. unfold Auth.apiKeyAuth, Auth.reject. rewrite Hkey, Hsecret. cbn.
  repeat split; [done|]. by intros r [= <-].
Qed.

Lemma apiKeyAuth_unconfigured_witness :
  Auth.apiKeyAuth None {| Auth.x_api_key := Some "any-key"; Auth.authorization := None |}
  = (Auth.Sent {| code := 500; success := false;
                  message := Some "Server configuration error";
                  error := Some "CONFIG_ERROR"; data := None; details := None |},
     [Log LError "API_SECRET_KEY not configured in environment"])
  /\ fst (Auth.apiKeyAuth None {| Auth.x_api_key := Some "any-key"; Auth.authorization := None |})
     <> Auth.Next.
Proof.
  destruct (apiKeyAuth_unconfigured None
              {| Auth.x_api_key := Some "any-key"; Auth.authorization := None |}
              eq_refl eq_refl) as (Hsent & Hnext & _).
  split; assumption.
Defined.

(** ** Running the services *)

#[local] Arguments JS.trim : simpl never.
#[local] Arguments JS.replace : simpl never.
#[local] Arguments JS.length : simpl never.
#[local] Arguments OpenAIService.prompts : simpl never.
#[local] Arguments OpenAIService._createFallbackText : simpl never.
#[local] Arguments ProcessingController.limit_notice : simpl never.

Ltac unfold_async :=
  unfold bind, try_catch, ret, throw, emit, log, world, set_notes, set_profiles,
    outbound, now, response_of, events_of, world_after in *.

Lemma count_nil kind : count kind [] = 0%nat.
Proof. reflexivity. Qed.

Lemma count_app kind (l1 l2 : list Event) :
  count kind (l1 ++ l2) = (count kind l1 + count kind l2)%nat.
Proof. unfold count. by rewrite List.filter_app, length_app. Qed.

Lemma count_cons kind e (l : list Event) :
  count kind (e :: l) = ((if kind e then 1 else 0) + count kind l)%nat.
Proof. unfold count. cbn. by destruct (kind e). Qed.

Lemma transitions_app (l1 l2 : list Event) :
  transitions (l1 ++ l2) = transitions l1 ++ transitions l2.
Proof.
  induction l1 as [|e l1 IH]; [done|].
  destruct e; cbn; try done.
  destruct (Patch.processing_status patch); cbn; by rewrite IH.
Qed.

#[local] Arguments count : simpl never.
#[local] Arguments transitions : simpl never.

Section Runs.
Variable env : Env.

Lemma getNoteById_run id w :
  SupabaseService.getNoteById env id w =
  match store_error env (tick w), notes w !! id with
  | None, Some n => (Returns (Some n), advance 1 w, [NoteFetched id])
  | None, None =>
      (Returns None, advance 1 w, [NoteFetched id; Log LWarn "Note not found"])
  | Some m, _ =>
      (Throws (Error m), advance 1 w,
       [NoteFetched id; Log LError "Failed to get note by ID";
        Log LError "Error getting note by ID"])
  end.
Proof.
  unfold SupabaseService.getNoteById. unfold_async. cbn.
  destruct (store_error env (tick w)); [done|]. by destruct (notes w !! id).
Qed.

Lemma updateNoteProcessing_run id data w :
  SupabaseService.updateNoteProcessing env id data w =
  match store_error env (tick w), notes w !! id with
  | None, Some n =>
      (Returns (Patch.apply (patch_of env data w) n),
       mkWorld (<[id := Patch.apply (patch_of env data w) n]> (notes w))
               (profiles w) (S (tick w)),
       [NoteUpdated id n (patch_of env data w)])
  | Some m, _ =>
      (Throws (Error m), advance 1 w,
       [NoteUpdateRejected id (patch_of env data w);
        Log LError "Failed to update note processing";
        Log LError "Error updating note processing"])
  | None, None =>
      (Throws (Error "JSON object requested, multiple (or no) rows returned"),
       advance 1 w,
       [NoteUpdateRejected id (patch_of env data w);
        Log LError "Failed to update note processing";
        Log LError "Error updating note processing"])
  end.
Proof.
  unfold SupabaseService.updateNoteProcessing. unfold_async. cbn.
  destruct (store_error env (tick w)); [done|]. by destruct (notes w !! id).
Qed.

Lemma incrementUserNoteCount_run uid w :
  SupabaseService.incrementUserNoteCount env uid w =
  match store_error env (tick w) with
  | None =>
      (Returns tt,
       mkWorld (notes w) (SupabaseService.increment_note_count uid (profiles w))
               (S (tick w)),
       [CountIncremented uid])
  | Some m =>
      (Throws (Error m), advance 1 w,
       [CountIncrementRejected uid;
        Log LError "Failed to increment user note count";
        Log LError "Error incrementing user note count"])
  end.
Proof.
  unfold SupabaseService.incrementUserNoteCount. unfold_async. cbn.
  by destruct (store_error env (tick w)).
Qed.

Lemma checkUserLimits_run uid w :
  SupabaseService.checkUserLimits env uid w =
  match store_error env (tick w) with
  | None => (Returns (limits_data env (tick w)), advance 1 w, [LimitsChecked uid])
  | Some m =>
      (Throws (Error m), advance 1 w,
       [LimitsChecked uid; Log LError "Failed to check user limits";
        Log LError "Error checking user limits"])
  end.
Proof.
  unfold SupabaseService.checkUserLimits. unfold_async. cbn.
  by destruct (store_error env (tick w)).
Qed.

(** A category that has no prompt of its own and is not inherited falls
    into the default branch of the fallback text, like [general]. *)
Lemma fallback_text_unknown text ty :
  OpenAIService.prompts ty = OpenAIService.Undefined ->
  OpenAIService._createFallbackText text ty
  = OpenAIService._createFallbackText text "general".
Proof.
  unfold OpenAIService.prompts, OpenAIService._createFallbackText.
  destruct (String.eqb ty "meeting"); [discriminate|].
  destruct (String.eqb ty "todo"); [discriminate|].
  by destruct (String.eqb ty "idea").
Qed.

(** The completion service's method always resolves.  It leaves the store
    as it was, makes at most one outbound call, and a result without
    success carries the fallback text and a token count of zero. *)
Lemma OpenAI_processNote_run text ty w :
  exists res k evs,
    OpenAIService.processNote env text ty w = (Returns res, advance k w, evs)
    /\ count is_update evs = 0%nat
    /\ (forall s, count (writes_status s) evs = 0%nat)
    /\ count is_increment evs = 0%nat
    /\ count is_completion_request evs = k
    /\ transitions evs = []
    /\ (k <= 1)%nat
    /\ (OpenAIService.success res = false ->
        OpenAIService.tokensUsed res = 0
        /\ OpenAIService.model res = None
        /\ OpenAIService.processedText res
           = OpenAIService._createFallbackText text ty)
    /\ (completion_unavailable env -> OpenAIService.success res = false).
Proof.
  unfold OpenAIService.processNote, OpenAIService.complete, OpenAIService.fallback.
  unfold_async. unfold advance. destruct w as [ns ps t]. cbn.
  destruct (OpenAIService.is_blank text).
  { eexists _, 0%nat, _. split; [reflexivity|]. cbn. repeat split; auto. }
  destruct (OpenAIService.prompts ty) eqn:Hslot; cbn.
  - destruct (completion env t) as [[c|] tok m|msg] eqn:Hreply; cbn;
      eexists _, 1%nat, _; (split; [reflexivity|]); cbn;
      repeat split; auto; try discriminate.
    intros Hdown. by destruct (Hdown t c tok m).
  - eexists _, 0%nat, _; (split; [reflexivity|]); cbn; repeat split; auto; lia.
  - change (OpenAIService.prompts "general")
      with (OpenAIService.Template OpenAIService.general_prompt).
    cbn. destruct (completion env t) as [[c|] tok m|msg] eqn:Hreply; cbn;
      eexists _, 1%nat, _; (split; [reflexivity|]); cbn;
      repeat split; auto; try discriminate;
      try (symmetry; by apply fallback_text_unknown).
    intros Hdown. by destruct (Hdown t c tok m).
Qed.
End Runs.

#[local] Arguments SupabaseService.getNoteById : simpl never.
#[local] Arguments SupabaseService.updateNoteProcessing : simpl never.
#[local] Arguments SupabaseService.incrementUserNoteCount : simpl never.
#[local] Arguments SupabaseService.checkUserLimits : simpl never.
#[local] Arguments OpenAIService.processNote : simpl never.

Ltac unfold_controller :=
  unfold ProcessingController.processNote, ProcessingController.process,
    ProcessingController.recover, ProcessingController.getProcessingStatus,
    ProcessingController.missing_note_id in *.

Ltac tidy := cbn; rewrite ?lookup_insert_eq; cbn; simplify_eq.

(** One step of a handler: run the next call of a service and split on what
    the collaborator answers. *)
Ltac step :=
  match goal with
  | H : store_reliable ?e |- context [store_error ?e ?t] => rewrite (H t); tidy
  | H : store_error ?e ?t = _ |- context [store_error ?e ?t] => rewrite H; tidy
  | H : notes ?w !! ?i = _ |- context [notes ?w !! ?i] => rewrite H; tidy
  | H : limits_data ?e ?t = _ |- context [limits_data ?e ?t] => rewrite H; tidy
  | H : UserLimits.limit_reached ?l = _ |- context [UserLimits.limit_reached ?l] =>
      rewrite H; tidy
  | H : Note.processing_status ?n = _
    |- context [String.eqb (Note.processing_status ?n) _] => rewrite H; tidy
  | H : JS.truthy ?x = _ |- context [JS.truthy ?x] => rewrite H; tidy
  | H : OpenAIService.success ?x = _ |- context [OpenAIService.success ?x] =>
      rewrite H; tidy
  | |- context [SupabaseService.getNoteById ?e ?i ?W] =>
      rewrite (getNoteById_run e i W); unfold advance; tidy
  | |- context [SupabaseService.checkUserLimits ?e ?i ?W] =>
      rewrite (checkUserLimits_run e i W); unfold advance; tidy
  | |- context [SupabaseService.updateNoteProcessing ?e ?i ?d ?W] =>
      rewrite (updateNoteProcessing_run e i d W); unfold advance; tidy
  | |- context [SupabaseService.incrementUserNoteCount ?e ?i ?W] =>
      rewrite (incrementUserNoteCount_run e i W); unfold advance; tidy
  | |- context [OpenAIService.processNote ?e ?x ?ty ?W] =>
      let H := fresh "Hai" in
      let Hfail := fresh "Hfail" in
      let Hdown := fresh "Hdown" in
      destruct (OpenAI_processNote_run e x ty W)
        as (?res & ?k & ?evs & H & ?Hupd & ?Hws & ?Hinc & ?Hreq & ?Htr & ?Hk & Hfail & Hdown);
      rewrite H; clear H; unfold advance;
      try (match goal with
           | Hu : completion_unavailable _ |- _ =>
               specialize (Hdown Hu);
               destruct (Hfail Hdown) as (?Htokens & ?Hmodel & ?Htext)
           end);
      tidy
  | |- context [match store_error ?e ?t with _ => _ end] =>
      destruct (store_error e t) eqn:?; tidy
  | |- context [match limits_data ?e ?t with _ => _ end] =>
      destruct (limits_data e t) eqn:?; tidy
  | |- context [match notes ?w !! ?i with _ => _ end] =>
      destruct (notes w !! i) eqn:?; tidy
  | |- context [if UserLimits.limit_reached ?l then _ else _] =>
      destruct (UserLimits.limit_reached l) eqn:?; tidy
  | |- context [if OpenAIService.success ?l then _ else _] =>
      destruct (OpenAIService.success l) eqn:?; tidy
  | |- context [if String.eqb ?a ?b then _ else _] =>
      destruct (String.eqb_spec a b); try congruence; tidy
  | |- context [if JS.truthy_opt ?a then _ else _] =>
      destruct (JS.truthy_opt a) eqn:?; tidy
  | |- context [if negb (JS.truthy_opt ?a) then _ else _] =>
      destruct (JS.truthy_opt a) eqn:?; tidy
  end.

Ltac counting :=
  repeat first
    [ rewrite count_app | rewrite count_cons | rewrite count_nil
    | match goal with H : count _ _ = _ |- _ => rewrite H end
    | match goal with H : forall s, count (writes_status s) _ = _ |- _ => rewrite H end
    | progress cbn ];
  try lia.

Ltac start_controller := cbn zeta; unfold_controller; unfold_async; cbn.

(** ** The note-processing request *)

(** The handler always sends a response. *)
Lemma processNote_responds env dev req w :
  exists r, response_of (ProcessingController.processNote env dev req w) = Some r.
Proof. start_controller. repeat step; eauto. Qed.

(** C4, as amended: for a note the lookup finds not completed, when the
    limit check reports that the user's limit is reached and the store
    answers every call, the completion service is not called and nothing is
    counted, the note is persisted as failed with the original text
    followed by two line feeds and the limit notice, and the response is
    429 LIMIT_REACHED with the monthly count, the remaining notes and the
    subscription tier of the check. *)
Theorem limit_reached_call env dev w id n limits :
  JS.truthy id = true ->
  notes w !! id = Some n ->
  Note.processing_status n <> "completed" ->
  store_reliable env ->
  limits_data env (S (tick w)) = Some limits ->
  UserLimits.limit_reached limits = true ->
  let r := ProcessingController.processNote env dev
             {| ProcessingController.noteId := Some id |} w in
  let notice :=
    String "010" (String "010"
      "**Note: Monthly processing limit reached. Please upgrade to premium.**") in
  let persisted :=
    Patch.apply
      {| Patch.processed_text :=
           Some (Note.original_text n +:+ ProcessingController.limit_notice);
         Patch.processing_status := Some "failed";
         Patch.tokens_used := None;
         Patch.processing_time := None;
         Patch.note_type := None;
         Patch.updated_at := clock env (S (S (tick w))) |} n in
  count is_completion_request (events_of r) = 0%nat
  /\ notes (world_after r) !! id = Some persisted
  /\ Note.processing_status persisted = "failed"
  /\ Note.processed_text persisted
     = Some (Note.original_text n +:+ ProcessingController.limit_notice)
  /\ response_of r
     = Some {| code := 429; success := false;
               message := Some "Monthly processing limit reached";
               error := Some "LIMIT_REACHED";
               data := Some (Json.DLimit
                 {| Json.monthlyCount := UserLimits.monthly_note_count limits;
                    Json.notesRemaining := UserLimits.notes_remaining limits;
                    Json.subscriptionTier := UserLimits.subscription_tier limits |});
               details := None |}
  /\ (Note.processed_text <$> notes (world_after r) !! id)
     = Some (Some (Note.original_text n +:+ notice))
  /\ (Note.original_text <$> notes (world_after r) !! id) = Some (Note.original_text n)
  /\ (Note.tokens_used <$> notes (world_after r) !! id) = Some (Note.tokens_used n)
  /\ count is_increment (events_of r) = 0%nat
  /\ profiles (world_after r) = profiles w
  /\ transitions (events_of r) = [(Note.processing_status n, "failed")].
Proof.
  intros Hid Hn Hstatus Hstore Hlimits Hreached.
  start_controller. repeat step. repeat split; counting.
Qed.

Lemma limit_reached_call_witness :
  let r := ProcessingController.processNote
             (Sample.env Sample.no_fault Sample.over_limit Sample.answer) false
             {| ProcessingController.noteId := Some Sample.id |}
             (Sample.store (Sample.note "todo" "pending" None)) in
  count is_completion_request (events_of r) = 0%nat
  /\ (Note.processing_status <$> notes (world_after r) !! Sample.id) = Some "failed"
  /\ (Note.processed_text <$> notes (world_after r) !! Sample.id)
     = Some (Some ("buy milk. call mom."
                     +:+ String "010" (String "010"
                           "**Note: Monthly processing limit reached. Please upgrade to premium.**")))
  /\ (code <$> response_of r) = Some 429%nat.
Proof.
  pose proof (limit_reached_call
                (Sample.env Sample.no_fault Sample.over_limit Sample.answer) false
                (Sample.store (Sample.note "todo" "pending" None))
                Sample.id (Sample.note "todo" "pending" None) Sample.over_limit
                eq_refl eq_refl ltac:(discriminate) (fun _ => eq_refl) eq_refl eq_refl)
    as (Hcalls & Hnote & _ & _ & Hresponse & Htext & _).
  split; [exact Hcalls|]. split; [|split].
  - rewrite Hnote. reflexivity.
  - exact Htext.
  - rewrite Hresponse. reflexivity.
Defined.

(** C4, as stated, fails for two calls whose user is over the limit.  When
    the store rejects the update that would mark the note, the answer is
    500 PROCESSING_ERROR, not 429, and the handler of exceptions leaves the
    note failed without a processed text: no limit notice is stored.  And a
    note that is already completed is answered 200 before the limit is
    looked at, and stays completed. *)
Lemma limit_reached_update_rejected :
  let rejected :=
    ProcessingController.processNote
      (Sample.env (fun t => if (t =? 2)%nat then Some "timeout" else None)
         Sample.over_limit Sample.answer) false
      {| ProcessingController.noteId := Some Sample.id |}
      (Sample.store (Sample.note "todo" "pending" None)) in
  let completed :=
    ProcessingController.processNote
      (Sample.env Sample.no_fault Sample.over_limit Sample.answer) false
      {| ProcessingController.noteId := Some Sample.id |}
      (Sample.store (Sample.note "todo" "completed" (Some "- Buy milk"))) in
  (code <$> response_of rejected) = Some 500%nat
  /\ (error <$> response_of rejected) = Some (Some "PROCESSING_ERROR")
  /\ status_in (world_after rejected) Sample.id = Some "failed"
  /\ (Note.processed_text <$> notes (world_after rejected) !! Sample.id) = Some None
  /\ (code <$> response_of completed) = Some 200%nat
  /\ (message <$> response_of completed) = Some (Some "Note already processed")
  /\ status_in (world_after completed) Sample.id = Some "completed"
  /\ count is_update (events_of completed) = 0%nat.
Proof. vm_compute. repeat split. Qed.

Ltac unfold_processor :=
  unfold Processor.ProcessingController.processNote,
    Processor.ProcessingController.process,
    Processor.ProcessingController.recover,
    Processor.SupabaseService.getNoteById,
    Processor.SupabaseService.updateNoteProcessing,
    Processor.SupabaseService.incrementUserNoteCount,
    Processor.OpenAIService.processNote in *.

(** C1, as amended: for a note the lookup finds in status [completed],
    neither controller calls the completion service, increments a counter
    or updates the note, and the store is left as it was.  The controller of
    the API-secret server answers 200 with the stored processed text, token
    count and processing time; the controller of the speechcraft-processor
    server refuses with 400 "Already processed" and returns no result. *)
Theorem completed_note_is_left_alone env dev config guid w id n :
  JS.truthy id = true ->
  notes w !! id = Some n ->
  Note.processing_status n = "completed" ->
  store_error env (tick w) = None ->
  let r := ProcessingController.processNote env dev
             {| ProcessingController.noteId := Some id |} w in
  response_of r
  = Some {| code := 200; success := true;
            message := Some "Note already processed";
            error := None;
            data := Some (Json.DAlready
              {| Json.a_noteId := id;
                 Json.a_processedText := Note.processed_text n;
                 Json.a_tokensUsed := Note.tokens_used n;
                 Json.a_processingTime := Note.processing_time n;
                 Json.alreadyProcessed := true |});
            details := None |}
  /\ untouched w r
  /\ (forall body noteType,
        Processor.SupabaseService.testMode config = false ->
        Processor.ProcessingController.processNoteSchema guid body
        = Processor.ProcessingController.Valid id noteType ->
        let r' := Processor.ProcessingController.processNote env config guid body w in
        response_of r'
        = Some (Processor.ProcessingController.Refused 400 "Already processed"
                  (Processor.ProcessingController.Text
                     "This note has already been processed"))
        /\ untouched w r').
Proof.
  intros Hid Hn Hstatus Hstore r.
  assert (r = (Returns {| code := 200; success := true;
                          message := Some "Note already processed";
                          error := None;
                          data := Some (Json.DAlready
                            {| Json.a_noteId := id;
                               Json.a_processedText := Note.processed_text n;
                               Json.a_tokensUsed := Note.tokens_used n;
                               Json.a_processingTime := Note.processing_time n;
                               Json.alreadyProcessed := true |});
                          details := None |},
               advance 1 w, [NoteFetched id])) as ->.
  { subst r. start_controller. by repeat step. }
  split; [done|]. split; [by repeat split|].
  intros body noteType Hlive Hschema r'.
  assert (r' = (Returns (Processor.ProcessingController.Refused 400 "Already processed"
                           (Processor.ProcessingController.Text
                              "This note has already been processed")),
                advance 1 w, [NoteFetched id])) as ->.
  { subst r'. unfold_processor. rewrite Hschema. unfold_async. cbn.
    rewrite Hlive. cbn. rewrite Hstore, Hn. cbn. by rewrite Hstatus. }
  by repeat split.
Qed.

Lemma completed_note_is_left_alone_witness :
  let w := Sample.store (Sample.note "todo" "completed" (Some "- Buy milk")) in
  let env := Sample.env Sample.no_fault Sample.within_limits Sample.answer in
  untouched w (ProcessingController.processNote env false
                 {| ProcessingController.noteId := Some Sample.id |} w)
  /\ untouched w (Processor.ProcessingController.processNote env Sample.live
                    Processor.ProcessingController.canonical_guid
                    {| Processor.ProcessingController.noteId := Some Sample.id;
                       Processor.ProcessingController.noteType := Some "todo" |} w).
Proof.
  intros w env.
  destruct (completed_note_is_left_alone env false Sample.live
              Processor.ProcessingController.canonical_guid w Sample.id
              (Sample.note "todo" "completed" (Some "- Buy milk"))
              eq_refl eq_refl eq_refl eq_refl)
    as (_ & Hmain & Hprocessor).
  split; [exact Hmain|].
  exact (proj2 (Hprocessor
                  {| Processor.ProcessingController.noteId := Some Sample.id;
                     Processor.ProcessingController.noteType := Some "todo" |}
                  "todo" eq_refl eq_refl)).
Defined.

(** C1, as stated, fails in the speechcraft-processor controller: for a
    completed note with a stored result the reply is a refusal, which has no
    place for the stored result. *)
Lemma completed_note_refused_by_processor :
  let stored := Sample.note "todo" "completed" (Some "- Buy milk") in
  Note.processed_text stored = Some "- Buy milk"
  /\ response_of
       (Processor.ProcessingController.processNote
          (Sample.env Sample.no_fault Sample.within_limits Sample.answer) Sample.live
          Processor.ProcessingController.canonical_guid
          {| Processor.ProcessingController.noteId := Some Sample.id;
             Processor.ProcessingController.noteType := None |}
          (Sample.store stored))
     = Some (Processor.ProcessingController.Refused 400 "Already processed"
               (Processor.ProcessingController.Text
                  "This note has already been processed")).
Proof. split; vm_compute; reflexivity. Qed.



(** X25: the counter is incremented once by a request that ends in the
    processed response with [openaiSuccess], and by no other request. *)
Lemma increments_per_path env dev req w :
  let r := ProcessingController.processNote env dev req w in
  count is_increment (events_of r)
  = match data <$> response_of r with
    | Some (Some (Json.DProcessed d)) => if Json.openaiSuccess d then 1%nat else 0%nat
    | _ => 0%nat
    end.
Proof. start_controller. repeat step; counting. Qed.

(** What the service resolves to when the endpoint answers with content. *)
Lemma OpenAI_processNote_success env text ty w content total_tokens model :
  OpenAIService.is_blank text = false ->
  OpenAIService.prompts ty <> OpenAIService.Inherited ->
  completion env (tick w) = ApiCompletion (Some content) total_tokens model ->
  exists evs,
    OpenAIService.processNote env text ty w
    = (Returns {| OpenAIService.processedText := JS.trim content;
                  OpenAIService.tokensUsed := total_tokens;
                  OpenAIService.processingTime := clock env (S (tick w)) - clock env (tick w);
                  OpenAIService.success := true;
                  OpenAIService.model := Some model;
                  OpenAIService.error := None;
                  OpenAIService.noteType :=
                    match OpenAIService.prompts ty with
                    | OpenAIService.Undefined => "general"
                    | _ => ty
                    end |},
       advance 1 w, evs)
    /\ count is_completion_request evs = 1%nat
    /\ count is_update evs = 0%nat
    /\ count is_increment evs = 0%nat.
Proof.
  intros Hblank Hslot Hreply.
  unfold OpenAIService.processNote, OpenAIService.complete, OpenAIService.fallback.
  unfold_async. unfold advance. destruct w as [ns ps t]. cbn in *.
  rewrite Hblank.
  destruct (OpenAIService.prompts ty) eqn:Hty; [|done|].
  - cbn. rewrite Hreply. cbn. eexists. split; [reflexivity|]. by cbn.
  - change (OpenAIService.prompts "general")
      with (OpenAIService.Template OpenAIService.general_prompt).
    cbn. rewrite Hreply. cbn. eexists. split; [reflexivity|]. by cbn.
Qed.

(** X26: the successful run of the API-secret controller: when the
    endpoint answers with content, the note is persisted as completed with
    the trimmed answer and the user's counter is incremented exactly once. *)
Lemma successful_processing env dev w id n limits content total_tokens model :
  JS.truthy id = true ->
  notes w !! id = Some n ->
  Note.processing_status n <> "completed" ->
  store_reliable env ->
  limits_data env (S (tick w)) = Some limits ->
  UserLimits.limit_reached limits = false ->
  OpenAIService.is_blank (Note.original_text n) = false ->
  OpenAIService.prompts (Note.note_type n) <> OpenAIService.Inherited ->
  completion env (S (S (S (tick w)))) = ApiCompletion (Some content) total_tokens model ->
  let r := ProcessingController.processNote env dev
             {| ProcessingController.noteId := Some id |} w in
  exists d n',
    (data <$> response_of r) = Some (Some (Json.DProcessed d))
    /\ Json.openaiSuccess d = true
    /\ Json.processedText d = JS.trim content
    /\ notes (world_after r) !! id = Some n'
    /\ Note.processing_status n' = "completed"
    /\ Note.processed_text n' = Some (JS.trim content)
    /\ Note.tokens_used n' = Some total_tokens
    /\ count is_increment (events_of r) = 1%nat
    /\ profiles (world_after r)
       = SupabaseService.increment_note_count (Note.user_id n) (profiles w).
Proof.
  intros Hid Hn Hstatus Hstore Hlimits Hwithin Hblank Hslot Hreply.
  start_controller.
  repeat (lazymatch goal with
          | |- context [OpenAIService.processNote ?e ?x ?ty ?W] => fail
          | _ => step
          end).
  match goal with
  | |- context [OpenAIService.processNote ?e ?x ?ty ?W] =>
      destruct (OpenAI_processNote_success e x ty W content total_tokens model
                  Hblank Hslot Hreply) as (evs & Hrun & Hone & Hnone & Hzero);
      rewrite Hrun; clear Hrun; unfold advance; tidy
  end.
  repeat step. eexists _, _. repeat split; try reflexivity. counting.
Qed.

(** *** The counter in the speechcraft-processor server *)

Lemma counts_nothing_ret {A} (a : A) : counts_nothing (ret a).
Proof. by intros w. Qed.

Lemma counts_nothing_throw {A} (e : Exn) : counts_nothing (@throw A e).
Proof. by intros w. Qed.

Lemma counts_nothing_log (level : Level) (text : string) :
  counts_nothing (log level text).
Proof. by intros w. Qed.

Lemma counts_nothing_bind {A B} (m : Async A) (k : A -> Async B) :
  counts_nothing m -> (forall a, counts_nothing (k a)) -> counts_nothing (bind m k).
Proof.
  intros Hm Hk w. unfold bind, world_after, events_of in *.
  specialize (Hm w). destruct (m w) as [[[a|e] w1] l1]; cbn in *; [|done].
  specialize (Hk a w1). destruct (k a w1) as [[r w2] l2]. cbn in *.
  rewrite count_app. destruct Hm as [Hp1 Hc1], Hk as [Hp2 Hc2].
  split; [congruence|lia].
Qed.

Lemma counts_nothing_try_catch {A} (m : Async A) (handler : Exn -> Async A) :
  counts_nothing m -> (forall e, counts_nothing (handler e)) ->
  counts_nothing (try_catch m handler).
Proof.
  intros Hm Hh w. unfold try_catch, world_after, events_of in *.
  specialize (Hm w). destruct (m w) as [[[a|e] w1] l1]; cbn in *; [done|].
  specialize (Hh e w1). destruct (handler e w1) as [[r w2] l2]. cbn in *.
  rewrite count_app. destruct Hm as [Hp1 Hc1], Hh as [Hp2 Hc2].
  split; [congruence|lia].
Qed.

Lemma processor_getNoteById_counts_nothing env config id :
  counts_nothing (Processor.SupabaseService.getNoteById env config id).
Proof.
  intros w. unfold Processor.SupabaseService.getNoteById. unfold_async.
  destruct (Processor.SupabaseService.testMode config); cbn; [done|].
  destruct (store_error env (tick w)); cbn; [done|]. by destruct (notes w !! id).
Qed.

Lemma processor_updateNoteProcessing_counts_nothing env config id updates :
  counts_nothing (Processor.SupabaseService.updateNoteProcessing env config id updates).
Proof.
  intros w. unfold Processor.SupabaseService.updateNoteProcessing. unfold_async.
  destruct (Processor.SupabaseService.testMode config); cbn; [done|].
  destruct (store_error env (tick w)); cbn; [done|]. by destruct (notes w !! id).
Qed.

(** The increment of the speechcraft-processor service increments nothing:
    in test mode it returns at once, and otherwise it throws before a
    request is sent. *)
Lemma processor_incrementUserNoteCount_counts_nothing config userId :
  counts_nothing (Processor.SupabaseService.incrementUserNoteCount config userId).
Proof.
  intros w. unfold Processor.SupabaseService.incrementUserNoteCount. unfold_async.
  by destruct (Processor.SupabaseService.testMode config).
Qed.

Lemma processor_OpenAI_counts_nothing env config text ty :
  counts_nothing (Processor.OpenAIService.processNote env config text ty).
Proof.
  intros w. unfold Processor.OpenAIService.processNote. unfold_async.
  destruct (Processor.OpenAIService.testMode config); cbn; [done|].
  by destruct (completion env (tick w)).
Qed.

Ltac counting_nothing :=
  repeat first
    [ apply processor_getNoteById_counts_nothing
    | apply processor_updateNoteProcessing_counts_nothing
    | apply processor_incrementUserNoteCount_counts_nothing
    | apply processor_OpenAI_counts_nothing
    | apply counts_nothing_ret | apply counts_nothing_throw | apply counts_nothing_log
    | apply counts_nothing_bind | apply counts_nothing_try_catch
    | match goal with
      | |- forall _, _ => intro
      | |- counts_nothing (match ?x with _ => _ end) => destruct x
      | |- counts_nothing (if ?b then _ else _) => destruct b
      end ].

Lemma processor_controller_counts_nothing env config guid body :
  counts_nothing (Processor.ProcessingController.processNote env config guid body).
Proof.
  unfold Processor.ProcessingController.processNote,
    Processor.ProcessingController.process, Processor.ProcessingController.recover.
  cbn zeta. counting_nothing.
Qed.

(** C2 at the failing input: the speechcraft-processor controller never
    increments a counter, whatever the request and whatever the store and
    the completion service answer.  For a pending note whose completion
    call succeeds, the note is written completed, the increment throws, the
    handler of exceptions sets the note to failed and the answer is 500; the
    counter of the user is 3 before and after.  The controller of the
    API-secret server, on the same note and with the same answer, leaves
    the note completed and raises the monthly counter from 3 to 4. *)
Theorem processor_never_counts :
  (forall env config guid body w,
     let r := Processor.ProcessingController.processNote env config guid body w in
     count is_increment (events_of r) = 0%nat
     /\ profiles (world_after r) = profiles w)
  /\ (let w := Sample.store (Sample.note "todo" "pending" None) in
      let env := Sample.env Sample.no_fault Sample.within_limits Sample.answer in
      let r := Processor.ProcessingController.processNote env Sample.live
                 Processor.ProcessingController.canonical_guid
                 {| Processor.ProcessingController.noteId := Some Sample.id;
                    Processor.ProcessingController.noteType := Some "todo" |} w in
      let r' := ProcessingController.processNote env false
                  {| ProcessingController.noteId := Some Sample.id |} w in
      count is_completion_request (events_of r) = 1%nat
      /\ transitions (events_of r)
         = [("pending", "processing"); ("processing", "completed");
            ("completed", "failed")]
      /\ response_of r
         = Some (Processor.ProcessingController.Refused 500 "Processing failed"
                   (Processor.ProcessingController.Text
                      "An error occurred while processing the note"))
      /\ status_in (world_after r) Sample.id = Some "failed"
      /\ count is_increment (events_of r) = 0%nat
      /\ (Profile.notes_processed <$> profiles w !! "user-1") = Some 3
      /\ (Profile.notes_processed <$> profiles (world_after r) !! "user-1") = Some 3
      /\ (Profile.monthly_note_count <$> profiles (world_after r) !! "user-1") = Some 3
      /\ status_in (world_after r') Sample.id = Some "completed"
      /\ count is_increment (events_of r') = 1%nat
      /\ (Profile.monthly_note_count <$> profiles (world_after r') !! "user-1") = Some 4).
Proof.
  split.
  - intros env config guid body w.
    destruct (processor_controller_counts_nothing env config guid body w). by split.
  - vm_compute. repeat split.
Qed.

(** ** Status transitions *)

Lemma transitions_nil : transitions [] = [].
Proof. reflexivity. Qed.

Lemma transitions_cons e (l : list Event) :
  transitions (e :: l)
  = match e with
    | NoteUpdated _ previous patch =>
        match Patch.processing_status patch with
        | Some s => (Note.processing_status previous, s) :: transitions l
        | None => transitions l
        end
    | _ => transitions l
    end.
Proof. reflexivity. Qed.

Ltac transiting :=
  repeat first
    [ rewrite transitions_app | rewrite transitions_cons | rewrite transitions_nil
    | match goal with H : transitions _ = _ |- _ => rewrite H end
    | progress cbn ].

(** C5, as amended: when the store answers every call, each status write of
    a request takes a note that is not completed to [processing] or directly
    to [failed] (the limit is reached, or the handler of exceptions runs),
    or takes it from [processing] to [completed] or [failed]; a request that
    finds its note completed writes no status; and a failed note within the
    limit is run again, from [failed] to [processing] and on to a terminal
    status. *)
Theorem status_writes env dev req w :
  store_reliable env ->
  let r := ProcessingController.processNote env dev req w in
  Forall (fun edge => written_edge edge.1 edge.2) (transitions (events_of r))
  /\ (forall id n,
        ProcessingController.noteId req = Some id -> notes w !! id = Some n ->
        Note.processing_status n = "completed" ->
        transitions (events_of r) = [])
  /\ (forall id n limits,
        ProcessingController.noteId req = Some id -> JS.truthy id = true ->
        notes w !! id = Some n -> Note.processing_status n = "failed" ->
        limits_data env (S (tick w)) = Some limits ->
        UserLimits.limit_reached limits = false ->
        exists final,
          transitions (events_of r) = [("failed", "processing"); ("processing", final)]
          /\ (final = "completed" \/ final = "failed")).
Proof.
  intros Hstore. start_controller. repeat split.
  - repeat step; transiting; repeat constructor; cbn; auto; discriminate.
  - intros id n -> Hn Hstatus. cbn.
    destruct (JS.truthy id); cbn; [|done]. by repeat step.
  - intros id n limits -> Hid Hn Hstatus Hlimits Hwithin. cbn.
    repeat step; transiting; rewrite Hstatus; eauto.
Qed.

Lemma status_writes_witness :
  let env := Sample.env Sample.no_fault Sample.within_limits Sample.answer in
  let r := ProcessingController.processNote env false
             {| ProcessingController.noteId := Some Sample.id |}
             (Sample.store (Sample.note "todo" "failed" None)) in
  Forall (fun edge => written_edge edge.1 edge.2) (transitions (events_of r))
  /\ exists final,
       transitions (events_of r) = [("failed", "processing"); ("processing", final)]
       /\ (final = "completed" \/ final = "failed").
Proof.
  intros env r.
  destruct (status_writes env false {| ProcessingController.noteId := Some Sample.id |}
              (Sample.store (Sample.note "todo" "failed" None)) (fun _ => eq_refl))
    as (Hedges & _ & Hagain).
  split; [exact Hedges|].
  exact (Hagain Sample.id (Sample.note "todo" "failed" None) Sample.within_limits
           eq_refl eq_refl eq_refl eq_refl eq_refl eq_refl).
Defined.

(** C5, as stated, fails on the limit-reached path: the note goes from
    [pending] straight to [failed], which is not an edge of the lifecycle
    pending → processing → completed or failed. *)
Lemma limit_reached_skips_processing :
  let r := ProcessingController.processNote
             (Sample.env Sample.no_fault Sample.over_limit Sample.answer) false
             {| ProcessingController.noteId := Some Sample.id |}
             (Sample.store (Sample.note "todo" "pending" None)) in
  transitions (events_of r) = [("pending", "failed")]
  /\ forallb (fun edge => lifecycle_edge edge.1 edge.2) (transitions (events_of r)) = false.
Proof. vm_compute. split; reflexivity. Qed.

(** The handler of exceptions writes [failed] without looking at the status:
    when the store fails the lookup of a completed note and then accepts the
    update, the completed note becomes failed; so does a note that was just
    completed when the increment of the counter is rejected. *)
Example exception_handler_overwrites_completed :
  let lookup_fails :=
    ProcessingController.processNote
      (Sample.env (Sample.outage 1) Sample.within_limits Sample.answer) false
      {| ProcessingController.noteId := Some Sample.id |}
      (Sample.store (Sample.note "todo" "completed" (Some "- Buy milk"))) in
  let increment_fails :=
    ProcessingController.processNote
      (Sample.env (fun t => if (t =? 5)%nat then Some "timeout" else None)
         Sample.within_limits Sample.answer) false
      {| ProcessingController.noteId := Some Sample.id |}
      (Sample.store (Sample.note "todo" "pending" None)) in
  transitions (events_of lookup_fails) = [("completed", "failed")]
  /\ transitions (events_of increment_fails)
     = [("pending", "processing"); ("processing", "completed"); ("completed", "failed")].
Proof. vm_compute. split; reflexivity. Qed.

(** ** Process, then ask for the status *)

Lemma getProcessingStatus_run env id w n :
  JS.truthy id = true ->
  store_error env (tick w) = None ->
  notes w !! id = Some n ->
  ProcessingController.getProcessingStatus env (Some id) w
  = (Returns {| code := 200; success := true; message := None; error := None;
                data := Some (Json.DStatus
                  {| Json.s_noteId := id;
                     Json.s_processingStatus := Note.processing_status n;
                     Json.s_tokensUsed := Note.tokens_used n;
                     Json.s_processingTime := Note.processing_time n;
                     Json.hasProcessedText := JS.truthy_opt (Note.processed_text n);
                     Json.createdAt := Note.created_at n;
                     Json.updatedAt := Note.updated_at n |});
                details := None |},
     advance 1 w, [NoteFetched id]).
Proof. intros Hid Hstore Hn. start_controller. by repeat step. Qed.

(** With a store that answers every call, a request for a note of the store
    leaves the note completed or failed. *)
Lemma processNote_final_status env dev w id n :
  store_reliable env ->
  JS.truthy id = true ->
  notes w !! id = Some n ->
  exists n',
    notes (world_after (ProcessingController.processNote env dev
                          {| ProcessingController.noteId := Some id |} w)) !! id
    = Some n'
    /\ (Note.processing_status n' = "completed" \/ Note.processing_status n' = "failed").
Proof.
  intros Hstore Hid Hn. start_controller.
  repeat step; (eexists; split; [first [reflexivity | eassumption]|cbn; auto]).
Qed.

(** C8, as amended: when the store answers every call, after [processNote]
    has answered for a note of the store, [getProcessingStatus] reports the
    status the store holds for it, which is [completed] or [failed], and so
    never [pending]. *)
Theorem status_after_process env dev w id n :
  store_reliable env ->
  JS.truthy id = true ->
  notes w !! id = Some n ->
  let w' := world_after (ProcessingController.processNote env dev
                           {| ProcessingController.noteId := Some id |} w) in
  exists d,
    response_of (ProcessingController.getProcessingStatus env (Some id) w')
    = Some {| code := 200; success := true; message := None; error := None;
              data := Some (Json.DStatus d); details := None |}
    /\ status_in w' id = Some (Json.s_processingStatus d)
    /\ (Json.s_processingStatus d = "completed" \/ Json.s_processingStatus d = "failed")
    /\ Json.s_processingStatus d <> "pending".
Proof.
  intros Hstore Hid Hn w'.
  destruct (processNote_final_status env dev w id n Hstore Hid Hn) as (n' & Hn' & Hstatus).
  fold w' in Hn'.
  rewrite (getProcessingStatus_run env id w' n' Hid (Hstore _) Hn').
  eexists. split; [reflexivity|]. cbn. unfold status_in. rewrite Hn'. cbn.
  repeat split; [done|]. destruct Hstatus as [-> | ->]; discriminate.
Qed.

Lemma status_after_process_witness :
  let env := Sample.env Sample.no_fault Sample.within_limits Sample.answer in
  let w' := world_after (ProcessingController.processNote env false
                           {| ProcessingController.noteId := Some Sample.id |}
                           (Sample.store (Sample.note "todo" "pending" None))) in
  exists d,
    response_of (ProcessingController.getProcessingStatus env (Some Sample.id) w')
    = Some {| code := 200; success := true; message := None; error := None;
              data := Some (Json.DStatus d); details := None |}
    /\ status_in w' Sample.id = Some (Json.s_processingStatus d)
    /\ (Json.s_processingStatus d = "completed" \/ Json.s_processingStatus d = "failed")
    /\ Json.s_processingStatus d <> "pending".
Proof.
  exact (status_after_process
           (Sample.env Sample.no_fault Sample.within_limits Sample.answer) false
           (Sample.store (Sample.note "todo" "pending" None)) Sample.id
           (Sample.note "todo" "pending" None) (fun _ => eq_refl) eq_refl eq_refl).
Defined.

(** C8, as stated, fails when the store rejects the calls of the request:
    the lookup throws, the attempt of the exception handler to mark the note
    failed is rejected as well, the response is 500, and the status read
    afterwards is still [pending]. *)
Lemma status_pending_after_store_outage :
  let env := Sample.env (Sample.outage 2) Sample.within_limits Sample.answer in
  let r := ProcessingController.processNote env false
             {| ProcessingController.noteId := Some Sample.id |}
             (Sample.store (Sample.note "todo" "pending" None)) in
  (error <$> response_of r) = Some (Some "PROCESSING_ERROR")
  /\ count is_update (events_of r) = 0%nat
  /\ (data <$> response_of
                 (ProcessingController.getProcessingStatus env (Some Sample.id)
                    (world_after r)))
     = Some (Some (Json.DStatus
          {| Json.s_noteId := Sample.id;
             Json.s_processingStatus := "pending";
             Json.s_tokensUsed := None;
             Json.s_processingTime := None;
             Json.hasProcessedText := false;
             Json.createdAt := 1000;
             Json.updatedAt := 1000 |})).
Proof. vm_compute. repeat split. Qed.

(** ** The fallback text *)

(** The heading each category's fallback puts before the text. *)
Lemma fallback_text_shape text ty :
  (ty = "todo" ->
   OpenAIService._createFallbackText text ty
   = "# Task List" +:+ JS.LF +:+ JS.LF +:+ "• "
       +:+ JS.replace_sentence_marks (JS.LF +:+ "• ") (JS.trim text)
       +:+ JS.LF +:+ JS.LF +:+ OpenAIService.fallback_notice)
  /\ (ty <> "todo" ->
      OpenAIService._createFallbackText text ty
      = (if String.eqb ty "meeting"
         then "# Meeting Notes" +:+ JS.LF +:+ JS.LF +:+ "**Discussion:**" +:+ JS.LF
         else if String.eqb ty "idea"
         then "# Creative Idea" +:+ JS.LF +:+ JS.LF +:+ "**Concept:**" +:+ JS.LF
         else "# Note" +:+ JS.LF +:+ JS.LF)
        +:+ JS.trim text +:+ JS.LF +:+ JS.LF +:+ OpenAIService.fallback_notice).
Proof.
  unfold OpenAIService._createFallbackText. split.
  - by intros ->.
  - intros Hty. destruct (String.eqb ty "meeting"); [reflexivity|].
    destruct (String.eqb_spec ty "todo"); [done|].
    by destruct (String.eqb ty "idea").
Qed.

(** Outside [todo] the trimmed text is in the fallback, unchanged. *)
Lemma fallback_text_keeps_trimmed_text text ty :
  ty <> "todo" ->
  JS.occurs_in (JS.trim text) (OpenAIService._createFallbackText text ty).
Proof.
  intros Hty. rewrite (proj2 (fallback_text_shape text ty) Hty).
  eexists _, _. reflexivity.
Qed.

(** C3, as amended: when the completion service gives no usable answer and
    the store answers every call, the request is answered 200 with
    [openaiSuccess] false, the note is persisted as failed with a token
    count of 0, and its processed text is the fallback of its category: the
    heading of the category ([# Meeting Notes] and [**Discussion:**],
    [# Creative Idea] and [**Concept:**], [# Task List] and a bullet, or
    [# Note]), the trimmed original text, and the notice that enhanced
    formatting is unavailable.  The trimmed text is unchanged under the
    meeting, idea and default headings; for [todo] every full stop,
    exclamation mark and question mark of it is replaced by a line feed and
    a bullet. *)
Theorem completion_failure_fallback env dev w id n limits :
  JS.truthy id = true ->
  notes w !! id = Some n ->
  Note.processing_status n <> "completed" ->
  store_reliable env ->
  limits_data env (S (tick w)) = Some limits ->
  UserLimits.limit_reached limits = false ->
  completion_unavailable env ->
  let r := ProcessingController.processNote env dev
             {| ProcessingController.noteId := Some id |} w in
  let text := OpenAIService._createFallbackText (Note.original_text n) (Note.note_type n) in
  let trimmed := JS.trim (Note.original_text n) in
  let nl := String "010" "" in
  let notice := "**Note:** Enhanced formatting temporarily unavailable." in
  exists d n',
    response_of r
    = Some {| code := 200; success := true;
              message := Some "Note processing completed with fallback";
              error := None; data := Some (Json.DProcessed d); details := None |}
    /\ Json.openaiSuccess d = false
    /\ Json.tokensUsed d = 0
    /\ Json.processingStatus d = "failed"
    /\ Json.processedText d = text
    /\ notes (world_after r) !! id = Some n'
    /\ Note.processing_status n' = "failed"
    /\ Note.processed_text n' = Some text
    /\ Note.tokens_used n' = Some 0
    /\ (Note.note_type n <> "todo" -> JS.occurs_in (JS.trim (Note.original_text n)) text)
    /\ (Note.note_type n = "todo" ->
        text = "# Task List" +:+ JS.LF +:+ JS.LF +:+ "• "
                 +:+ JS.replace_sentence_marks (JS.LF +:+ "• ")
                       (JS.trim (Note.original_text n))
                 +:+ JS.LF +:+ JS.LF +:+ OpenAIService.fallback_notice)
    /\ text
       = (if String.eqb (Note.note_type n) "meeting" then
            "# Meeting Notes" +:+ nl +:+ nl +:+ "**Discussion:**" +:+ nl +:+ trimmed
          else if String.eqb (Note.note_type n) "todo" then
            "# Task List" +:+ nl +:+ nl +:+ "• "
              +:+ JS.replace_sentence_marks (nl +:+ "• ") trimmed
          else if String.eqb (Note.note_type n) "idea" then
            "# Creative Idea" +:+ nl +:+ nl +:+ "**Concept:**" +:+ nl +:+ trimmed
          else "# Note" +:+ nl +:+ nl +:+ trimmed)
         +:+ nl +:+ nl +:+ notice
    /\ Note.original_text n' = Note.original_text n
    /\ (count is_completion_request (events_of r) <= 1)%nat
    /\ count is_increment (events_of r) = 0%nat.
Proof.
  intros Hid Hn Hstatus Hstore Hlimits Hwithin Hunavailable.
  start_controller. repeat step.
  all: repeat match goal with
              | H : OpenAIService.tokensUsed _ = _ |- _ => rewrite H
              | H : OpenAIService.processedText _ = _ |- _ => rewrite H
              end.
  all: eexists _, _; repeat split; try reflexivity; try counting;
    try (by apply fallback_text_keeps_trimmed_text);
    try (by apply fallback_text_shape);
    unfold OpenAIService._createFallbackText;
    repeat match goal with
           | |- context [String.eqb ?a ?b] =>
               destruct (String.eqb_spec a b); try congruence
           end;
    reflexivity.
Qed.

Lemma completion_failure_fallback_witness :
  let r := ProcessingController.processNote
             (Sample.env Sample.no_fault Sample.within_limits Sample.unavailable) false
             {| ProcessingController.noteId := Some Sample.id |}
             (Sample.store (Sample.note "idea" "pending" None)) in
  let nl := String "010" "" in
  exists d, (data <$> response_of r) = Some (Some (Json.DProcessed d))
            /\ Json.openaiSuccess d = false
            /\ Json.tokensUsed d = 0
            /\ JS.occurs_in "buy milk. call mom." (Json.processedText d)
            /\ Json.processedText d
               = "# Creative Idea" +:+ nl +:+ nl +:+ "**Concept:**" +:+ nl
                   +:+ "buy milk. call mom." +:+ nl +:+ nl
                   +:+ "**Note:** Enhanced formatting temporarily unavailable.".
Proof.
  destruct (completion_failure_fallback
              (Sample.env Sample.no_fault Sample.within_limits Sample.unavailable) false
              (Sample.store (Sample.note "idea" "pending" None)) Sample.id
              (Sample.note "idea" "pending" None) Sample.within_limits
              eq_refl eq_refl ltac:(discriminate) (fun _ => eq_refl) eq_refl eq_refl
              ltac:(intros t c k m; discriminate))
    as (d & n' & Hresponse & Hsuccess & Htokens & _ & Htext & _ & _ & _ & _ & Hkept & _
        & Hpinned & _).
  exists d. rewrite Hresponse.
  split; [reflexivity|]. split; [exact Hsuccess|]. split; [exact Htokens|]. split.
  - rewrite Htext. apply Hkept. discriminate.
  - rewrite Htext, Hpinned. reflexivity.
Defined.

(** C3, as stated, fails on the scenario of the specification: for the todo
    note "buy milk. call mom." and a completion service that is down, the
    persisted text is the todo fallback, in which the full stops of the
    original text have become bullets, so the original text is not in it. *)
Lemma todo_fallback_rewrites_text :
  let r := ProcessingController.processNote
             (Sample.env Sample.no_fault Sample.within_limits Sample.unavailable) false
             {| ProcessingController.noteId := Some Sample.id |}
             (Sample.store (Sample.note "todo" "pending" None)) in
  let text := "# Task List" +:+ JS.LF +:+ JS.LF
                +:+ "• buy milk" +:+ JS.LF
                +:+ "•  call mom" +:+ JS.LF
                +:+ "• " +:+ JS.LF +:+ JS.LF
                +:+ "**Note:** Enhanced formatting temporarily unavailable." in
  (Note.original_text <$> notes (world_after r) !! Sample.id) = Some "buy milk. call mom."
  /\ (Note.processing_status <$> notes (world_after r) !! Sample.id) = Some "failed"
  /\ (Note.processed_text <$> notes (world_after r) !! Sample.id) = Some (Some text)
  /\ ~ JS.occurs_in "buy milk. call mom." text.
Proof.
  cbn zeta. repeat split; try (vm_compute; reflexivity).
  intros H. apply includes_spec in H. vm_compute in H. discriminate.
Qed.

(** ** Categories without a prompt *)

Example unknown_slot : OpenAIService.prompts "recipe" = OpenAIService.Undefined.
Proof. reflexivity. Qed.

Example inherited_slot : OpenAIService.prompts "constructor" = OpenAIService.Inherited.
Proof. reflexivity. Qed.

(** A category has no slot exactly when it is none of the four categories
    and none of the names every object inherits. *)
Lemma prompts_undefined ty :
  OpenAIService.prompts ty = OpenAIService.Undefined
  <-> ~ In ty ["meeting"; "todo"; "idea"; "general"]
      /\ ~ In ty OpenAIService.object_prototype_names.
Proof.
  unfold OpenAIService.prompts.
  destruct (String.eqb_spec ty "meeting") as [->|H1].
  { split; [discriminate|]. intros [H _]. destruct H. cbn. auto. }
  destruct (String.eqb_spec ty "todo") as [->|H2].
  { split; [discriminate|]. intros [H _]. destruct H. cbn. auto. }
  destruct (String.eqb_spec ty "idea") as [->|H3].
  { split; [discriminate|]. intros [H _]. destruct H. cbn. auto. }
  destruct (String.eqb_spec ty "general") as [->|H4].
  { split; [discriminate|]. intros [H _]. destruct H. cbn. auto. }
  destruct (existsb (String.eqb ty) OpenAIService.object_prototype_names) eqn:Hin.
  - split; [discriminate|]. intros [_ H]. destruct H.
    apply existsb_exists in Hin as (x & Hx & Heq).
    apply String.eqb_eq in Heq. by subst.
  - split; [|done]. intros _. split.
    + cbn. intros [?|[?|[?|[?|[]]]]]; congruence.
    + intros Hty. assert (existsb (String.eqb ty) OpenAIService.object_prototype_names = true)
        as Hyes; [|congruence].
      apply existsb_exists. exists ty. split; [done|]. apply String.eqb_refl.
Qed.

(** C6, as amended.  In the API-secret server a stored category that has no
    prompt (none of the four, and not a name inherited by every object) makes
    the service log a warning and build its request from the general
    template, when the text is not blank; and whatever the category, a
    request within the limit whose store calls succeed is answered 200.  In
    the speechcraft-processor server a request whose [noteType] is none of
    the four is refused by the schema with 400 "Validation error", before
    any call is made. *)
Theorem unknown_category env dev config guid :
  (forall text ty w,
     OpenAIService.prompts ty = OpenAIService.Undefined ->
     OpenAIService.is_blank text = false ->
     exists res rest,
       OpenAIService.processNote env text ty w
       = (Returns res, advance 1 w,
          Log LWarn ("Unknown note type: " +:+ ty +:+ ", using general instead")
          :: CompletionRequested
               (Some (JS.replace "{text}" (JS.trim text) OpenAIService.general_prompt))
          :: rest)
       /\ OpenAIService.noteType res = "general"
       /\ count is_completion_request rest = 0%nat
       /\ count is_warning rest = 0%nat)
  /\ (forall w id n limits,
        JS.truthy id = true ->
        notes w !! id = Some n ->
        Note.processing_status n <> "completed" ->
        store_reliable env ->
        limits_data env (S (tick w)) = Some limits ->
        UserLimits.limit_reached limits = false ->
        (code <$> response_of (ProcessingController.processNote env dev
                                 {| ProcessingController.noteId := Some id |} w))
        = Some 200%nat)
  /\ (forall body ty w,
        Processor.ProcessingController.noteType body = Some ty ->
        ~ In ty Processor.ProcessingController.note_types ->
        exists key,
          Processor.ProcessingController.processNote env config guid body w
          = (Returns (Processor.ProcessingController.Refused 400 "Validation error"
                        (Processor.ProcessingController.JoiDetail key)),
             w, [])).
Proof.
  repeat split.
  - intros text ty w Hslot Hblank.
    unfold OpenAIService.processNote, OpenAIService.complete, OpenAIService.fallback.
    unfold_async. unfold advance. destruct w as [ns ps t]. cbn.
    rewrite Hblank, Hslot.
    change (OpenAIService.prompts "general")
      with (OpenAIService.Template OpenAIService.general_prompt).
    cbn. destruct (completion env t) as [[c|] tok m|msg]; cbn;
      eexists _, _; (split; [reflexivity|]); by cbn.
  - intros w id n limits Hid Hn Hstatus Hstore Hlimits Hwithin.
    start_controller. by repeat step.
  - intros body ty w Hty Hout.
    assert (existsb (String.eqb ty) Processor.ProcessingController.note_types = false)
      as Hno.
    { destruct (existsb _ _) eqn:Hin; [|done]. destruct Hout.
      apply existsb_exists in Hin as (x & Hx & Heq).
      apply String.eqb_eq in Heq. by subst. }
    unfold Processor.ProcessingController.processNote,
      Processor.ProcessingController.processNoteSchema.
    rewrite Hty, Hno. unfold_async.
    destruct (Processor.ProcessingController.noteId body) as [id|]; cbn; [|by eexists].
    destruct (negb (JS.truthy id) || negb (guid id)); cbn; by eexists.
Qed.

Lemma unknown_category_witness :
  let env := Sample.env Sample.no_fault Sample.within_limits Sample.answer in
  let w := Sample.store (Sample.note "recipe" "pending" None) in
  (exists res rest,
     OpenAIService.processNote env "flour, eggs" "recipe" w
     = (Returns res, advance 1 w,
        Log LWarn "Unknown note type: recipe, using general instead"
        :: CompletionRequested
             (Some (JS.replace "{text}" "flour, eggs" OpenAIService.general_prompt))
        :: rest))
  /\ (code <$> response_of (ProcessingController.processNote env false
                              {| ProcessingController.noteId := Some Sample.id |} w))
     = Some 200%nat
  /\ (exists key,
        response_of (Processor.ProcessingController.processNote env Sample.live
                       Processor.ProcessingController.canonical_guid
                       {| Processor.ProcessingController.noteId := Some Sample.id;
                          Processor.ProcessingController.noteType := Some "recipe" |} w)
        = Some (Processor.ProcessingController.Refused 400 "Validation error"
                  (Processor.ProcessingController.JoiDetail key))).
Proof.
  intros env w.
  destruct (unknown_category env false Sample.live
              Processor.ProcessingController.canonical_guid) as (Hservice & Hmain & Hschema).
  split; [|split].
  - destruct (Hservice "flour, eggs" "recipe" w eq_refl eq_refl)
      as (res & rest & Hrun & _).
    exists res, rest. exact Hrun.
  - exact (Hmain w Sample.id (Sample.note "recipe" "pending" None) Sample.within_limits
             eq_refl eq_refl ltac:(discriminate) (fun _ => eq_refl) eq_refl eq_refl).
  - destruct (Hschema {| Processor.ProcessingController.noteId := Some Sample.id;
                         Processor.ProcessingController.noteType := Some "recipe" |}
                "recipe" w eq_refl) as (key & Hrun).
    + cbn. intros [?|[?|[?|[?|[]]]]]; discriminate.
    + exists key. by rewrite Hrun.
Defined.

(** C6, as stated, fails in the speechcraft-processor server: of two
    requests that differ only in [noteType], the one with a category of the
    four passes the schema and the one with another category is refused.
    In test mode they are answered 200 and 400; with a live store the first
    is processed (the completion service is called) and the second is
    answered 400 before any call is made. *)
Lemma processor_rejects_unknown_type :
  let env := Sample.env Sample.no_fault Sample.within_limits Sample.answer in
  let w := Sample.store (Sample.note "general" "pending" None) in
  let request config ty :=
    Processor.ProcessingController.processNote env config
      Processor.ProcessingController.canonical_guid
      {| Processor.ProcessingController.noteId := Some Sample.id;
         Processor.ProcessingController.noteType := Some ty |} w in
  (Processor.ProcessingController.status_code
     <$> response_of (request Sample.unconfigured "general")) = Some 200%nat
  /\ response_of (request Sample.unconfigured "recipe")
     = Some (Processor.ProcessingController.Refused 400 "Validation error"
               (Processor.ProcessingController.JoiDetail "noteType"))
  /\ count is_completion_request (events_of (request Sample.live "general")) = 1%nat
  /\ response_of (request Sample.live "recipe")
     = Some (Processor.ProcessingController.Refused 400 "Validation error"
               (Processor.ProcessingController.JoiDetail "noteType"))
  /\ events_of (request Sample.live "recipe") = [].
Proof. vm_compute. repeat split. Qed.

(** A category that names a property every object inherits finds a slot, so
    no warning is logged; the slot is not a string, the request cannot be
    built, and the service falls back without calling the completion
    endpoint. *)
Example inherited_name_is_not_coerced :
  let r := OpenAIService.processNote
             (Sample.env Sample.no_fault Sample.within_limits Sample.answer)
             "buy milk. call mom." "constructor"
             (Sample.store (Sample.note "constructor" "pending" None)) in
  (OpenAIService.success <$> response_of r) = Some false
  /\ (OpenAIService.noteType <$> response_of r) = Some "constructor"
  /\ events_of r = [Log LError "OpenAI processing failed"].
Proof. vm_compute. repeat split. Qed.

(** ** More on the note-processing request *)

(** X1: a request without a note id is answered 400 MISSING_NOTE_ID before
    any call is made, and a request for an id the store does not hold is
    answered 404 NOTE_NOT_FOUND after the lookup alone; neither changes the
    store. *)
Theorem request_without_note env dev req w :
  (JS.truthy_opt (ProcessingController.noteId req) = false ->
   ProcessingController.processNote env dev req w
   = (Returns {| code := 400; success := false;
                 message := Some "Note ID is required";
                 error := Some "MISSING_NOTE_ID"; data := None; details := None |},
      w, []))
  /\ (forall id,
        ProcessingController.noteId req = Some id -> JS.truthy id = true ->
        store_error env (tick w) = None -> notes w !! id = None ->
        let r := ProcessingController.processNote env dev req w in
        response_of r
        = Some {| code := 404; success := false; message := Some "Note not found";
                  error := Some "NOTE_NOT_FOUND"; data := None; details := None |}
        /\ untouched w r).
Proof.
  split.
  - intros Hid. start_controller. rewrite Hid. cbn. by destruct w.
  - intros id Hreq Hid Hstore Hn. start_controller. rewrite Hreq. cbn.
    repeat step. by repeat split.
Qed.

Lemma request_without_note_witness :
  let env := Sample.env Sample.no_fault Sample.within_limits Sample.answer in
  let w := Sample.store (Sample.note "todo" "pending" None) in
  (code <$> response_of (ProcessingController.processNote env false
                           {| ProcessingController.noteId := Some "" |} w))
  = Some 400%nat
  /\ (code <$> response_of (ProcessingController.processNote env false
                              {| ProcessingController.noteId := Some "no-such-note" |} w))
     = Some 404%nat.
Proof.
  intros env w. split.
  - rewrite (proj1 (request_without_note env false
                      {| ProcessingController.noteId := Some "" |} w) eq_refl).
    reflexivity.
  - destruct (proj2 (request_without_note env false
                       {| ProcessingController.noteId := Some "no-such-note" |} w)
                "no-such-note" eq_refl eq_refl eq_refl eq_refl) as [Hresponse _].
    rewrite Hresponse. reflexivity.
Defined.

(** X2: whatever the store and the completion service answer, a request
    changes no note but the one it names, neither creates nor deletes a
    row, and leaves the id, the owner, the original text, the category and
    the creation time of its note as they were. *)
Theorem processNote_frame env dev req w :
  let w' := world_after (ProcessingController.processNote env dev req w) in
  (forall other, ProcessingController.noteId req <> Some other ->
                 notes w' !! other = notes w !! other)
  /\ (forall id, ProcessingController.noteId req = Some id ->
        match notes w !! id, notes w' !! id with
        | Some n, Some n' =>
            Note.id n' = Note.id n
            /\ Note.user_id n' = Note.user_id n
            /\ Note.original_text n' = Note.original_text n
            /\ Note.note_type n' = Note.note_type n
            /\ Note.created_at n' = Note.created_at n
        | None, None => True
        | _, _ => False
        end).
Proof.
  cbn zeta. split.
  - intros other Hother.
    assert (JS.truthy_opt (ProcessingController.noteId req) = true ->
            default "" (ProcessingController.noteId req) <> other) as Hne.
    { destruct (ProcessingController.noteId req); [|done]. cbn. congruence. }
    start_controller.
    repeat step; rewrite ?lookup_insert_ne by auto; reflexivity.
  - intros id Hreq.
    generalize (eq_refl (notes (world_after
                  (ProcessingController.processNote env dev req w)) !! id)).
    generalize (notes (world_after
                  (ProcessingController.processNote env dev req w)) !! id) at 2 3.
    intros after. destruct (notes w !! id) as [n|] eqn:Hn;
      start_controller; rewrite Hreq; cbn;
      (destruct (JS.truthy id) eqn:Hid; cbn; [|by rewrite Hn; intros <-]);
      repeat step; rewrite ?Hn, ?lookup_insert_eq; intros <-; cbn; auto.
Qed.

(** X3: a request calls [client.chat.completions.create] at most once,
    whatever fails: the controller and the service never call it again.
    (What the client library sends again inside one call is not counted.) *)
Theorem at_most_one_completion_request env dev req w :
  (count is_completion_request
     (events_of (ProcessingController.processNote env dev req w)) <= 1)%nat.
Proof. start_controller. repeat step; counting. Qed.

(** X4: the handler always answers, with one of the codes 200, 400, 404,
    429 and 500; [success] is set exactly on 200, and 500 carries
    PROCESSING_ERROR; the message of the exception is added to the response
    in development mode only. *)
Theorem response_shape env dev req w :
  exists r,
    response_of (ProcessingController.processNote env dev req w) = Some r
    /\ In (code r) [200; 400; 404; 429; 500]%nat
    /\ (success r = true <-> code r = 200%nat)
    /\ (code r = 500%nat -> error r = Some "PROCESSING_ERROR")
    /\ (dev = false -> details r = None)
    /\ (code r <> 500%nat -> details r = None).
Proof.
  start_controller.
  repeat step; eexists; (split; [reflexivity|]); cbn;
    repeat split; auto 10; try discriminate; try done; intros ->; done.
Qed.

(** X5: when the store rejects the lookup of a request, the response is 500
    PROCESSING_ERROR and neither the completion service nor the counter is
    touched; if the store then accepts the update of the exception handler,
    the note is marked failed whatever its status was (a completed note
    included), and its processed text and token count stay as they were. *)
Theorem rejected_lookup env dev w id n failure :
  JS.truthy id = true ->
  notes w !! id = Some n ->
  store_error env (tick w) = Some failure ->
  store_error env (S (tick w)) = None ->
  let r := ProcessingController.processNote env dev
             {| ProcessingController.noteId := Some id |} w in
  (code <$> response_of r) = Some 500%nat
  /\ (error <$> response_of r) = Some (Some "PROCESSING_ERROR")
  /\ count is_completion_request (events_of r) = 0%nat
  /\ count is_increment (events_of r) = 0%nat
  /\ transitions (events_of r) = [(Note.processing_status n, "failed")]
  /\ exists n',
       notes (world_after r) !! id = Some n'
       /\ Note.processing_status n' = "failed"
       /\ Note.processed_text n' = Note.processed_text n
       /\ Note.tokens_used n' = Note.tokens_used n.
Proof.
  intros Hid Hn Hfail Hnext. start_controller. repeat step.
  repeat split; try counting. eexists. by repeat split.
Qed.

Lemma rejected_lookup_witness :
  let r := ProcessingController.processNote
             (Sample.env (Sample.outage 1) Sample.within_limits Sample.answer) false
             {| ProcessingController.noteId := Some Sample.id |}
             (Sample.store (Sample.note "todo" "completed" (Some "- Buy milk"))) in
  (code <$> response_of r) = Some 500%nat
  /\ transitions (events_of r) = [("completed", "failed")].
Proof.
  destruct (rejected_lookup
              (Sample.env (Sample.outage 1) Sample.within_limits Sample.answer) false
              (Sample.store (Sample.note "todo" "completed" (Some "- Buy milk")))
              Sample.id (Sample.note "todo" "completed" (Some "- Buy milk"))
              "fetch failed" eq_refl eq_refl eq_refl eq_refl)
    as (Hcode & _ & _ & _ & Hedges & _).
  split; assumption.
Defined.

(** ** More on the status query *)

(** X6: the status query never changes the store and makes no call but the
    lookup; it answers 400 without a note id (before any call), 500
    STATUS_ERROR when the store rejects the lookup, and 404 when the store
    holds no such note. *)
Theorem status_query_is_read_only env noteId w :
  let r := ProcessingController.getProcessingStatus env noteId w in
  untouched w r
  /\ (JS.truthy_opt noteId = false ->
      (code <$> response_of r) = Some 400%nat /\ events_of r = [])
  /\ (forall failure,
        JS.truthy_opt noteId = true ->
        store_error env (tick w) = Some failure ->
        (code <$> response_of r) = Some 500%nat
        /\ (error <$> response_of r) = Some (Some "STATUS_ERROR"))
  /\ (JS.truthy_opt noteId = true ->
      store_error env (tick w) = None ->
      notes w !! default "" noteId = None ->
      (code <$> response_of r) = Some 404%nat).
Proof.
  start_controller. split; [|split; [|split]].
  - unfold untouched. start_controller. repeat step; repeat split; counting.
  - intros Hid. by rewrite Hid.
  - intros failure Hid Hfail. by repeat step.
  - intros Hid Hstore Hn. by repeat step.
Qed.

Lemma status_query_is_read_only_witness :
  let env := Sample.env (Sample.outage 1) Sample.within_limits Sample.answer in
  let w := Sample.store (Sample.note "todo" "pending" None) in
  (code <$> response_of (ProcessingController.getProcessingStatus env None w))
  = Some 400%nat
  /\ (code <$> response_of (ProcessingController.getProcessingStatus env (Some Sample.id) w))
     = Some 500%nat
  /\ (code <$> response_of
                 (ProcessingController.getProcessingStatus env (Some "other") (advance 1 w)))
     = Some 404%nat.
Proof.
  intros env w. split; [|split].
  - exact (proj1 (proj1 (proj2 (status_query_is_read_only env None w)) eq_refl)).
  - exact (proj1 (proj1 (proj2 (proj2 (status_query_is_read_only env (Some Sample.id) w)))
                    "fetch failed" eq_refl eq_refl)).
  - exact (proj2 (proj2 (proj2 (status_query_is_read_only env (Some "other") (advance 1 w))))
             eq_refl eq_refl eq_refl).
Defined.

(** ** Updating a note and reading it back *)

(** X7: after an update the store accepts, the lookup of the note returns
    the row with each given field set and each field left undefined as it
    was stored; the id, the owner, the original text, the category and the
    creation time are kept, and every other note is as before.  An update
    of a note the store does not hold throws and creates nothing. *)
Theorem update_then_lookup env id data w :
  store_error env (tick w) = None ->
  store_error env (S (tick w)) = None ->
  let updated := SupabaseService.updateNoteProcessing env id data w in
  let w' := world_after updated in
  (forall n,
     notes w !! id = Some n ->
     exists n',
       response_of (SupabaseService.getNoteById env id w') = Some (Some n')
       /\ response_of updated = Some n'
       /\ Note.processed_text n'
          = match SupabaseService.processedText data with
            | Some text => Some text
            | None => Note.processed_text n
            end
       /\ Note.processing_status n'
          = default (Note.processing_status n) (SupabaseService.status data)
       /\ Note.tokens_used n'
          = match SupabaseService.tokensUsed data with
            | Some tokens => Some tokens
            | None => Note.tokens_used n
            end
       /\ Note.processing_time n'
          = match SupabaseService.processingTime data with
            | Some time => Some time
            | None => Note.processing_time n
            end
       /\ Note.updated_at n' = clock env (tick w)
       /\ (Note.id n', Note.user_id n', Note.original_text n', Note.note_type n',
           Note.created_at n')
          = (Note.id n, Note.user_id n, Note.original_text n, Note.note_type n,
             Note.created_at n))
  /\ (forall other, other <> id -> notes w' !! other = notes w !! other)
  /\ (notes w !! id = None -> response_of updated = None /\ notes w' = notes w).
Proof.
  intros Hstore Hnext updated w'. subst updated w'.
  rewrite updateNoteProcessing_run, Hstore. unfold world_after, response_of.
  split; [|split].
  - intros n Hn. rewrite Hn. cbn. rewrite getNoteById_run. cbn.
    rewrite Hnext, lookup_insert_eq. eexists. by repeat split.
  - intros other Hother. destruct (notes w !! id); cbn; [|done].
    by rewrite lookup_insert_ne.
  - by intros ->.
Qed.

Lemma update_then_lookup_witness :
  let env := Sample.env Sample.no_fault Sample.within_limits Sample.answer in
  let w := Sample.store (Sample.note "todo" "pending" (Some "draft")) in
  let data := {| SupabaseService.processedText := None;
                 SupabaseService.status := Some "processing";
                 SupabaseService.tokensUsed := None;
                 SupabaseService.processingTime := None |} in
  exists n',
    response_of (SupabaseService.getNoteById env Sample.id
                   (world_after (SupabaseService.updateNoteProcessing env Sample.id data w)))
    = Some (Some n')
    /\ Note.processing_status n' = "processing"
    /\ Note.processed_text n' = Some "draft".
Proof.
  intros env w data.
  destruct (proj1 (update_then_lookup env Sample.id data w eq_refl eq_refl)
              (Sample.note "todo" "pending" (Some "draft")) eq_refl)
    as (n' & Hlookup & _ & Htext & Hstatus & _).
  exists n'. repeat split; assumption.
Defined.

(** ** The prompt sent to the completion service *)

Lemma includes_cons_false (a : ascii) (s t : string) :
  JS.includes (String a s) t = false -> JS.includes s t = false.
Proof.
  unfold JS.includes. rewrite (split_at_first_eq t (String a s)).
  destruct (String.prefix t (String a s)); [discriminate|].
  by destruct (JS.split_at_first t s) as [[? ?]|].
Qed.

Lemma dollar_free_head (a : ascii) (s : string) :
  JS.includes (String a s) "$" = false -> Ascii.eqb a "$"%char = false.
Proof.
  unfold JS.includes. rewrite (split_at_first_eq "$" (String a s)).
  cbn. destruct (Ascii.eqb_spec a "$"%char) as [->|Hne]; [|done].
  cbn. by destruct s.
Qed.

(** A replacement text without a dollar sign is inserted as it is. *)
Lemma substitution_dollar_free (matched before after r rest : string) :
  JS.includes r "$" = false ->
  JS.substitution matched before after (r +:+ rest)
  = r +:+ JS.substitution matched before after rest.
Proof.
  induction r as [|a r IH]; intros Hfree.
  - by rewrite app_nil_l.
  - rewrite !app_cons. cbn.
    rewrite (dollar_free_head a r Hfree).
    by rewrite (IH (includes_cons_false a r "$" Hfree)).
Qed.

Lemma string_app_nil_r (s : string) : s +:+ "" = s.
Proof. induction s as [|a s IH]; [done|]. by rewrite app_cons, IH. Qed.

Lemma string_app_assoc (s t u : string) : (s +:+ t) +:+ u = s +:+ (t +:+ u).
Proof.
  induction s as [|a s IH]; [by rewrite !app_nil_l|]. by rewrite !app_cons, IH.
Qed.

(** Each template has one [Input:] line, which holds the placeholder
    between double quotes. *)
Lemma template_shape (t : string) :
  In t [OpenAIService.meeting_prompt; OpenAIService.todo_prompt;
        OpenAIService.idea_prompt; OpenAIService.general_prompt] ->
  exists intro rest,
    JS.split_at_first "{text}" t
    = Some (intro +:+ "Input: " +:+ OpenAIService.DQ, OpenAIService.DQ +:+ rest).
Proof.
  intros Hin.
  exists (default "" (fst <$> JS.split_at_first "Input: " t)).
  exists (default "" (snd <$> JS.split_at_first
                                ("{text}" +:+ OpenAIService.DQ) t)).
  cbn in Hin. destruct Hin as [<-|[<-|[<-|[<-|[]]]]]; vm_compute; reflexivity.
Qed.

Lemma prompts_template ty t :
  OpenAIService.prompts ty = OpenAIService.Template t ->
  In t [OpenAIService.meeting_prompt; OpenAIService.todo_prompt;
        OpenAIService.idea_prompt; OpenAIService.general_prompt].
Proof.
  unfold OpenAIService.prompts.
  destruct (String.eqb ty "meeting"); [intros [= <-]; cbn; tauto|].
  destruct (String.eqb ty "todo"); [intros [= <-]; cbn; tauto|].
  destruct (String.eqb ty "idea"); [intros [= <-]; cbn; tauto|].
  destruct (String.eqb ty "general"); [intros [= <-]; cbn; tauto|].
  by destruct (existsb _ _).
Qed.

Lemma requested_prompts_of_processNote env text ty w :
  OpenAIService.is_blank text = false ->
  OpenAIService.prompts ty <> OpenAIService.Inherited ->
  requested_prompts (events_of (OpenAIService.processNote env text ty w))
  = [Some (JS.replace "{text}" (JS.trim text)
             match OpenAIService.prompts ty with
             | OpenAIService.Template t => t
             | _ => OpenAIService.general_prompt
             end)].
Proof.
  intros Hblank Hslot.
  unfold OpenAIService.processNote, OpenAIService.complete, OpenAIService.fallback.
  unfold_async. destruct w as [ns ps t]. cbn. rewrite Hblank.
  destruct (OpenAIService.prompts ty) eqn:Hty; [|done|].
  - cbn. by destruct (completion env t) as [[c|] tok m|msg].
  - change (OpenAIService.prompts "general")
      with (OpenAIService.Template OpenAIService.general_prompt).
    cbn. by destruct (completion env t) as [[c|] tok m|msg].
Qed.

(** X8: for a text that is not blank and a category that names no
    inherited member, the service makes one completion request, built from
    the template of the category (the general one for an unknown category).
    A trimmed text without a dollar sign stands in the prompt between the
    double quotes of the [Input:] line, unchanged.  A dollar pattern in the
    text is interpreted by [replace]: where the text has [$&], the prompt
    has the placeholder [{text}] instead. *)
Theorem prompt_carries_the_text env text ty w :
  OpenAIService.is_blank text = false ->
  OpenAIService.prompts ty <> OpenAIService.Inherited ->
  let template := match OpenAIService.prompts ty with
                  | OpenAIService.Template t => t
                  | _ => OpenAIService.general_prompt
                  end in
  let sent := requested_prompts (events_of (OpenAIService.processNote env text ty w)) in
  exists intro rest,
    template = intro +:+ "Input: " +:+ OpenAIService.DQ +:+ "{text}"
                 +:+ OpenAIService.DQ +:+ rest
    /\ (JS.includes (JS.trim text) "$" = false ->
        sent = [Some (intro +:+ "Input: " +:+ OpenAIService.DQ +:+ JS.trim text
                        +:+ OpenAIService.DQ +:+ rest)])
    /\ (forall a b,
          JS.trim text = a +:+ "$&" +:+ b ->
          JS.includes a "$" = false ->
          JS.includes b "$" = false ->
          sent = [Some (intro +:+ "Input: " +:+ OpenAIService.DQ +:+ a +:+ "{text}" +:+ b
                          +:+ OpenAIService.DQ +:+ rest)]).
Proof.
  intros Hblank Hslot template sent. subst sent.
  rewrite (requested_prompts_of_processNote env text ty w Hblank Hslot).
  fold template.
  assert (In template [OpenAIService.meeting_prompt; OpenAIService.todo_prompt;
                       OpenAIService.idea_prompt; OpenAIService.general_prompt]) as Hin.
  { subst template. destruct (OpenAIService.prompts ty) eqn:Hty;
      [by apply (prompts_template ty)|cbn; tauto..]. }
  destruct (template_shape template Hin) as (intro & rest & Hsplit).
  exists intro, rest. unfold JS.replace. rewrite Hsplit. split; [|split].
  - apply split_at_first_sound in Hsplit. by rewrite Hsplit, !string_app_assoc.
  - intros Hfree. rewrite <- (string_app_nil_r (JS.trim text)) at 1.
    rewrite substitution_dollar_free by done. cbn.
    by rewrite string_app_nil_r, !string_app_assoc.
  - intros a b Htext Ha Hb. rewrite Htext.
    rewrite substitution_dollar_free by done.
    rewrite (app_cons "$" "&" b), (app_cons "&" "" b), app_nil_l. cbn.
    rewrite <- (string_app_nil_r b) at 1.
    rewrite substitution_dollar_free by done. cbn.
    by rewrite string_app_nil_r, !string_app_assoc.
Qed.

Lemma prompt_carries_the_text_witness :
  let env := Sample.env Sample.no_fault Sample.within_limits Sample.answer in
  let w := Sample.store (Sample.note "todo" "pending" None) in
  (exists intro rest,
     requested_prompts (events_of (OpenAIService.processNote env " buy milk " "todo" w))
     = [Some (intro +:+ "Input: " +:+ OpenAIService.DQ +:+ "buy milk"
                +:+ OpenAIService.DQ +:+ rest)])
  /\ (exists intro rest,
        requested_prompts (events_of (OpenAIService.processNote env "pay $& now" "todo" w))
        = [Some (intro +:+ "Input: " +:+ OpenAIService.DQ +:+ "pay {text} now"
                   +:+ OpenAIService.DQ +:+ rest)]).
Proof.
  intros env w. split.
  - destruct (prompt_carries_the_text env " buy milk " "todo" w eq_refl
                ltac:(discriminate)) as (intro & rest & _ & Hplain & _).
    exists intro, rest. apply Hplain. reflexivity.
  - destruct (prompt_carries_the_text env "pay $& now" "todo" w eq_refl
                ltac:(discriminate)) as (intro & rest & _ & _ & Hpattern).
    exists intro, rest. apply (Hpattern "pay " " now"); reflexivity.
Defined.

(** ** Notes the service has no prompt for *)

(** Without a text, or with a category that names an inherited member, the
    service resolves to the fallback without an outbound call. *)
Lemma OpenAI_processNote_without_prompt env text ty w :
  OpenAIService.is_blank text = true
  \/ OpenAIService.prompts ty = OpenAIService.Inherited ->
  OpenAIService.processNote env text ty w
  = (Returns {| OpenAIService.processedText := OpenAIService._createFallbackText text ty;
                OpenAIService.tokensUsed := 0;
                OpenAIService.processingTime := 0;
                OpenAIService.success := false;
                OpenAIService.model := None;
                OpenAIService.error :=
                  Some (if OpenAIService.is_blank text
                        then "Original text is required"
                        else "this.prompts[noteType].replace is not a function");
                OpenAIService.noteType := ty |},
     w, [Log LError "OpenAI processing failed"]).
Proof.
  intros Hwhy.
  unfold OpenAIService.processNote, OpenAIService.complete, OpenAIService.fallback.
  unfold_async. destruct w as [ns ps t]. cbn.
  destruct (OpenAIService.is_blank text) eqn:Hblank; cbn.
  - by rewrite Z.sub_diag.
  - destruct Hwhy as [|Hslot]; [done|]. rewrite Hslot. cbn. by rewrite Z.sub_diag.
Qed.

(** X9: a note whose text is blank, or whose category names a member every
    object inherits ([constructor], [toString], ...), is processed without
    any completion request: the request is answered 200 as completed with
    fallback, the note goes from its status to processing and then to
    failed, its processed text is the fallback text and its token count 0,
    and the user's counter is not incremented. *)
Theorem note_without_prompt env dev w id n limits :
  JS.truthy id = true ->
  notes w !! id = Some n ->
  Note.processing_status n <> "completed" ->
  store_reliable env ->
  limits_data env (S (tick w)) = Some limits ->
  UserLimits.limit_reached limits = false ->
  OpenAIService.is_blank (Note.original_text n) = true
  \/ OpenAIService.prompts (Note.note_type n) = OpenAIService.Inherited ->
  let r := ProcessingController.processNote env dev
             {| ProcessingController.noteId := Some id |} w in
  exists d n',
    response_of r
    = Some {| code := 200; success := true;
              message := Some "Note processing completed with fallback";
              error := None; data := Some (Json.DProcessed d); details := None |}
    /\ Json.openaiSuccess d = false
    /\ Json.model d = "fallback"
    /\ count is_completion_request (events_of r) = 0%nat
    /\ count is_increment (events_of r) = 0%nat
    /\ profiles (world_after r) = profiles w
    /\ transitions (events_of r)
       = [(Note.processing_status n, "processing"); ("processing", "failed")]
    /\ notes (world_after r) !! id = Some n'
    /\ Note.processing_status n' = "failed"
    /\ Note.processed_text n'
       = Some (OpenAIService._createFallbackText (Note.original_text n) (Note.note_type n))
    /\ Note.tokens_used n' = Some 0.
Proof.
  intros Hid Hn Hstatus Hstore Hlimits Hwithin Hwhy.
  start_controller.
  repeat (lazymatch goal with
          | |- context [OpenAIService.processNote ?e ?x ?ty ?W] => fail
          | _ => step
          end).
  match goal with
  | |- context [OpenAIService.processNote ?e ?x ?ty ?W] =>
      rewrite (OpenAI_processNote_without_prompt e x ty W Hwhy); tidy
  end.
  repeat step. eexists _, _. repeat split; try reflexivity; counting.
Qed.

Lemma note_without_prompt_witness :
  let env := Sample.env Sample.no_fault Sample.within_limits Sample.answer in
  let r := ProcessingController.processNote env false
             {| ProcessingController.noteId := Some Sample.id |}
             (Sample.store (Sample.note "toString" "pending" None)) in
  (code <$> response_of r) = Some 200%nat
  /\ count is_completion_request (events_of r) = 0%nat
  /\ status_in (world_after r) Sample.id = Some "failed".
Proof.
  destruct (note_without_prompt
              (Sample.env Sample.no_fault Sample.within_limits Sample.answer) false
              (Sample.store (Sample.note "toString" "pending" None)) Sample.id
              (Sample.note "toString" "pending" None) Sample.within_limits
              eq_refl eq_refl ltac:(discriminate) (fun _ => eq_refl) eq_refl eq_refl
              (or_intror eq_refl))
    as (d & n' & Hresponse & _ & _ & Hrequests & _ & _ & _ & Hn' & Hstatus & _).
  split; [by rewrite Hresponse|]. split; [exact Hrequests|].
  unfold status_in. rewrite Hn'. cbn. by rewrite Hstatus.
Defined.

(** ** The task list of the todo fallback *)

Lemma includes_char_cons (a c : ascii) (s : string) :
  JS.includes (String a s) (String c "")
  = (Ascii.eqb c a || JS.includes s (String c ""))%bool.
Proof.
  unfold JS.includes. rewrite (split_at_first_eq (String c "") (String a s)). cbn.
  destruct (ascii_dec c a) as [->|Hne].
  - rewrite Ascii.eqb_refl. cbn. by destruct s.
  - apply Ascii.eqb_neq in Hne. rewrite Hne. cbn.
    by destruct (JS.split_at_first (String c "") s) as [[? ?]|].
Qed.

Lemma includes_char_app (s t : string) (c : ascii) :
  JS.includes (s +:+ t) (String c "")
  = (JS.includes s (String c "") || JS.includes t (String c ""))%bool.
Proof.
  induction s as [|a s IH]; [by rewrite app_nil_l|].
  rewrite app_cons, !includes_char_cons, IH. by rewrite orb_assoc.
Qed.

Lemma replace_sentence_marks_clean (by_ s : string) (c : ascii) :
  In c ["."; "!"; "?"]%char ->
  JS.includes by_ (String c "") = false ->
  JS.includes (JS.replace_sentence_marks by_ s) (String c "") = false.
Proof.
  intros Hc Hby. induction s as [|a s IH]; [done|]. cbn.
  destruct (Ascii.eqb a "." || Ascii.eqb a "!" || Ascii.eqb a "?")%bool eqn:Hmark.
  - by rewrite includes_char_app, Hby, IH.
  - rewrite includes_char_cons, IH, orb_false_r.
    apply Ascii.eqb_neq. intros ->.
    cbn in Hc. destruct Hc as [<-|[<-|[<-|[]]]]; discriminate.
Qed.

Lemma replace_sentence_marks_id (by_ s : string) :
  (forall c, In c ["."; "!"; "?"]%char -> JS.includes s (String c "") = false) ->
  JS.replace_sentence_marks by_ s = s.
Proof.
  induction s as [|a s IH]; [done|]. intros Hfree. cbn.
  assert (forall c, In c ["."; "!"; "?"]%char ->
                    Ascii.eqb c a = false /\ JS.includes s (String c "") = false) as Hsplit.
  { intros c Hc. specialize (Hfree c Hc). rewrite includes_char_cons in Hfree.
    by apply orb_false_elim in Hfree. }
  destruct (Hsplit "."%char) as [H1 _]; [cbn; tauto|].
  destruct (Hsplit "!"%char) as [H2 _]; [cbn; tauto|].
  destruct (Hsplit "?"%char) as [H3 _]; [cbn; tauto|].
  rewrite Ascii.eqb_sym in H1, H2, H3. rewrite H1, H2, H3. cbn.
  f_equal. apply IH. intros c Hc. by apply Hsplit.
Qed.

(** X10: the todo fallback is the heading, a task list and the notice.  The
    task list holds no full stop, exclamation mark or question mark; the
    trimmed text is in it, unchanged, exactly when the text has none of
    the three, and then the task list is the trimmed text. *)
Theorem todo_fallback_task_list text :
  let marks := ["."; "!"; "?"]%char in
  let list_ := JS.replace_sentence_marks (JS.LF +:+ OpenAIService.bullet) (JS.trim text) in
  OpenAIService._createFallbackText text "todo"
  = "# Task List" +:+ JS.LF +:+ JS.LF +:+ OpenAIService.bullet +:+ list_
      +:+ JS.LF +:+ JS.LF +:+ OpenAIService.fallback_notice
  /\ (forall c, In c marks -> JS.includes list_ (String c "") = false)
  /\ (JS.occurs_in (JS.trim text) list_
      <-> forall c, In c marks -> JS.includes (JS.trim text) (String c "") = false)
  /\ ((forall c, In c marks -> JS.includes (JS.trim text) (String c "") = false) ->
      list_ = JS.trim text).
Proof.
  intros marks list_.
  assert (forall c, In c marks -> JS.includes list_ (String c "") = false) as Hclean.
  { intros c Hc. apply replace_sentence_marks_clean; [done|].
    cbn in Hc. destruct Hc as [<-|[<-|[<-|[]]]]; vm_compute; reflexivity. }
  split; [reflexivity|]. split; [exact Hclean|]. split; [split|].
  - intros (before & after & Hin) c Hc. specialize (Hclean c Hc).
    rewrite Hin, !includes_char_app in Hclean.
    apply orb_false_elim in Hclean as [_ Hclean].
    by apply orb_false_elim in Hclean as [Hclean _].
  - intros Hfree. subst list_. rewrite replace_sentence_marks_id by done.
    exists "", "". by rewrite app_nil_l, string_app_nil_r.
  - intros Hfree. subst list_. by apply replace_sentence_marks_id.
Qed.

(** ** The key gate accepts *)

Lemma apiKeyAuth_next (expectedApiKey : option string) (h : Auth.Headers) :
  fst (Auth.apiKeyAuth expectedApiKey h) = Auth.Next
  <-> exists secret,
        expectedApiKey = Some secret /\ JS.truthy secret = true
        /\ Auth.presented_key h = Some secret.
Proof.
  unfold Auth.apiKeyAuth.
  destruct (Auth.presented_key h) as [key|]; cbn; [|split; [done|by intros (? & _ & _ & ?)]].
  destruct (JS.truthy key) eqn:Hkey; cbn.
  - destruct expectedApiKey as [secret|]; cbn;
      [|split; [done|by intros (? & ? & _)]].
    destruct (JS.truthy secret) eqn:Hsecret; cbn.
    + destruct (decide (Some key = Some secret)) as [[= ->]|Hne].
      * rewrite bool_decide_eq_true_2 by done. cbn. split; [eauto|done].
      * rewrite bool_decide_eq_false_2 by done. cbn.
        split; [done|]. intros (s & [= <-] & _ & [= ->]). done.
    + split; [done|]. intros (s & [= <-] & Hs & _). congruence.
  - split; [done|]. intros (s & _ & Hs & [= ->]). congruence.
Qed.

(** X11: the gate passes a request on exactly when the server has a
    non-empty secret and the key the request presents is that secret.  The
    secret passes as [x-api-key] and as [Authorization: Bearer <secret>];
    a non-empty [x-api-key] that is not the secret is rejected whatever the
    [Authorization] header holds; and a request that passes is not logged. *)
Theorem apiKeyAuth_passes_exactly (expectedApiKey : option string) (h : Auth.Headers) :
  (fst (Auth.apiKeyAuth expectedApiKey h) = Auth.Next
   <-> exists secret,
         expectedApiKey = Some secret /\ JS.truthy secret = true
         /\ Auth.presented_key h = Some secret)
  /\ (forall secret,
        expectedApiKey = Some secret -> JS.truthy secret = true ->
        Auth.x_api_key h = Some secret
        \/ JS.truthy_opt (Auth.x_api_key h) = false
           /\ Auth.authorization h = Some ("Bearer " +:+ secret) ->
        Auth.apiKeyAuth expectedApiKey h = (Auth.Next, []))
  /\ (forall key,
        Auth.x_api_key h = Some key -> JS.truthy key = true ->
        expectedApiKey <> Some key ->
        fst (Auth.apiKeyAuth expectedApiKey h) <> Auth.Next).
Proof.
  split; [apply apiKeyAuth_next|]. split.
  - intros secret -> Hsecret Hsent. apply apiKeyAuth_accepts; [done|].
    unfold Auth.presented_key. destruct Hsent as [->|[Hnone ->]].
    + cbn. by rewrite Hsecret.
    + rewrite Hnone. cbn. by rewrite replace_prefix.
  - intros key Hkey Htruthy Hne Hnext.
    apply apiKeyAuth_next in Hnext as (secret & -> & _ & Hpresented).
    unfold Auth.presented_key in Hpresented. rewrite Hkey in Hpresented.
    cbn in Hpresented. rewrite Htruthy in Hpresented. congruence.
Qed.

Lemma apiKeyAuth_passes_exactly_witness :
  Auth.apiKeyAuth (Some "s3cret")
    {| Auth.x_api_key := None; Auth.authorization := Some "Bearer s3cret" |}
  = (Auth.Next, [])
  /\ fst (Auth.apiKeyAuth (Some "s3cret")
            {| Auth.x_api_key := Some "guess";
               Auth.authorization := Some "Bearer s3cret" |})
     <> Auth.Next.
Proof.
  split.
  - apply (proj1 (proj2 (apiKeyAuth_passes_exactly (Some "s3cret")
                           {| Auth.x_api_key := None;
                              Auth.authorization := Some "Bearer s3cret" |}))
             "s3cret" eq_refl eq_refl).
    right. split; reflexivity.
  - apply (proj2 (proj2 (apiKeyAuth_passes_exactly (Some "s3cret")
                           {| Auth.x_api_key := Some "guess";
                              Auth.authorization := Some "Bearer s3cret" |}))
             "guess" eq_refl eq_refl).
    discriminate.
Defined.

(** ** Optional authentication and the rate-limit tier *)

(** X12: [optionalAuth] never rejects and changes nothing but the
    [authenticated] mark, which it always sets: to true exactly when the
    key gate would pass the request on.  Followed by
    [authenticatedRateLimit], a request gets 100 requests per minute when
    it carries the secret and 20 otherwise; a request no middleware has
    marked gets 20. *)
Theorem optionalAuth_agrees_with_gate (expectedApiKey : option string)
    (req : Middleware.Request) :
  let req' := Middleware.optionalAuth expectedApiKey req in
  let passes := fst (Auth.apiKeyAuth expectedApiKey (Middleware.headers req)) = Auth.Next in
  Middleware.headers req' = Middleware.headers req
  /\ Middleware.rateLimit req' = Middleware.rateLimit req
  /\ (Middleware.authenticated req' = Some true <-> passes)
  /\ (Middleware.authenticated req' = Some false <-> ~ passes)
  /\ (passes ->
      Middleware.rateLimit (Middleware.authenticatedRateLimit req')
      = Some {| Middleware.max := 100; Middleware.windowMs := 60000 |})
  /\ (~ passes ->
      Middleware.rateLimit (Middleware.authenticatedRateLimit req')
      = Some {| Middleware.max := 20; Middleware.windowMs := 60000 |})
  /\ (Middleware.authenticated req = None ->
      Middleware.rateLimit (Middleware.authenticatedRateLimit req)
      = Some {| Middleware.max := 20; Middleware.windowMs := 60000 |}).
Proof.
  intros req' passes.
  assert (Middleware.authenticated req' = Some true /\ passes
          \/ Middleware.authenticated req' = Some false /\ ~ passes) as Hcases.
  { subst req' passes. rewrite apiKeyAuth_next. unfold Middleware.optionalAuth.
    destruct (JS.truthy_opt (Auth.presented_key (Middleware.headers req))) eqn:Hkey.
    - destruct (decide (Auth.presented_key (Middleware.headers req) = expectedApiKey))
        as [Heq|Hne].
      + rewrite bool_decide_eq_true_2 by done. left. split; [done|].
        rewrite <- Heq in *.
        destruct (Auth.presented_key (Middleware.headers req)) as [key|]; [|done].
        by exists key.
      + rewrite bool_decide_eq_false_2 by done. right. split; [done|].
        intros (secret & -> & _ & Hsame). by destruct Hne.
    - right. split; [done|]. intros (secret & _ & Hsecret & Hsame).
      rewrite Hsame in Hkey. cbn in Hkey. congruence. }
  assert (Middleware.headers req' = Middleware.headers req
          /\ Middleware.rateLimit req' = Middleware.rateLimit req) as [Hheaders Hlimit].
  { subst req'. unfold Middleware.optionalAuth. by repeat case_match. }
  repeat split; try done.
  - intros Hmark. destruct Hcases as [[_ Hp]|[Hf _]]; [done|congruence].
  - intros Hp. destruct Hcases as [[Ht _]|[_ Hn]]; [done|tauto].
  - intros Hmark. destruct Hcases as [[Ht _]|[_ Hn]]; [congruence|done].
  - intros Hn. destruct Hcases as [[_ Hp]|[Hf _]]; [tauto|done].
  - intros Hp. destruct Hcases as [[Ht _]|[_ Hn]]; [|tauto].
    unfold Middleware.authenticatedRateLimit. by rewrite Ht.
  - intros Hn. destruct Hcases as [[_ Hp]|[Hf _]]; [tauto|].
    unfold Middleware.authenticatedRateLimit. by rewrite Hf.
  - intros Hnone. unfold Middleware.authenticatedRateLimit. by rewrite Hnone.
Qed.

Lemma optionalAuth_agrees_with_gate_witness :
  let fresh h := {| Middleware.headers := h; Middleware.authenticated := None;
                    Middleware.rateLimit := None |} in
  Middleware.rateLimit
    (Middleware.authenticatedRateLimit
       (Middleware.optionalAuth (Some "s3cret")
          (fresh {| Auth.x_api_key := Some "s3cret"; Auth.authorization := None |})))
  = Some {| Middleware.max := 100; Middleware.windowMs := 60000 |}
  /\ Middleware.rateLimit
       (Middleware.authenticatedRateLimit
          (Middleware.optionalAuth None
             (fresh {| Auth.x_api_key := Some "s3cret"; Auth.authorization := None |})))
     = Some {| Middleware.max := 20; Middleware.windowMs := 60000 |}.
Proof.
  intros fresh. split.
  - apply (proj1 (proj2 (proj2 (proj2 (proj2
             (optionalAuth_agrees_with_gate (Some "s3cret")
                (fresh {| Auth.x_api_key := Some "s3cret";
                          Auth.authorization := None |}))))))).
    reflexivity.
  - apply (proj1 (proj2 (proj2 (proj2 (proj2 (proj2
             (optionalAuth_agrees_with_gate None
                (fresh {| Auth.x_api_key := Some "s3cret";
                          Auth.authorization := None |})))))))).
    intros Hpasses. vm_compute in Hpasses. discriminate.
Defined.

(** X13: in development [devBypass] passes every request on, a request
    without a key included, and marks it authenticated.  Outside
    development it answers as the key gate does and leaves the request
    unmarked: a request that carries the secret passes, and
    [authenticatedRateLimit] behind it still gives the lower tier. *)
Theorem devBypass_tiers (development : bool) (expectedApiKey : option string)
    (h : Auth.Headers) :
  let req := {| Middleware.headers := h; Middleware.authenticated := None;
                Middleware.rateLimit := None |} in
  let r := Middleware.devBypass development expectedApiKey req in
  (development = true ->
   r = (Auth.Next,
        {| Middleware.headers := h; Middleware.authenticated := Some true;
           Middleware.rateLimit := None |}, []))
  /\ (development = false ->
      (fst (fst r), snd r) = Auth.apiKeyAuth expectedApiKey h
      /\ snd (fst r) = req
      /\ Middleware.rateLimit (Middleware.authenticatedRateLimit (snd (fst r)))
         = Some {| Middleware.max := 20; Middleware.windowMs := 60000 |}).
Proof.
  intros req r. subst r. unfold Middleware.devBypass. split; intros ->; [done|].
  cbn. by destruct (Auth.apiKeyAuth expectedApiKey h) as [verdict events].
Qed.

Lemma devBypass_tiers_witness :
  let req := {| Middleware.headers :=
                  {| Auth.x_api_key := None; Auth.authorization := None |};
                Middleware.authenticated := None; Middleware.rateLimit := None |} in
  fst (fst (Middleware.devBypass true (Some "s3cret") req)) = Auth.Next
  /\ fst (fst (Middleware.devBypass false (Some "s3cret") req))
     = fst (Auth.apiKeyAuth (Some "s3cret")
              {| Auth.x_api_key := None; Auth.authorization := None |}).
Proof.
  intros req. subst req. split.
  - by rewrite (proj1 (devBypass_tiers true (Some "s3cret")
                         {| Auth.x_api_key := None; Auth.authorization := None |})
                  eq_refl).
  - by destruct (proj2 (devBypass_tiers false (Some "s3cret")
                          {| Auth.x_api_key := None; Auth.authorization := None |})
                   eq_refl) as (<- & _).
Defined.

(** ** The buckets of the processing rate limit *)

Lemma app_inj_l (p a b : string) : p +:+ a = p +:+ b -> a = b.
Proof.
  induction p as [|c p IH]; [by rewrite !app_nil_l|].
  rewrite !app_cons. intros [= H]. by apply IH.
Qed.

(** X14: the bucket of the processing rate limit is chosen from the key a
    request presents, before the key is checked.  Two requests that present
    a key share a bucket exactly when the keys are the same, whatever
    their addresses; two requests without a key share one exactly when
    their addresses are rendered the same; a request with a key and one
    without never share a bucket. *)
Theorem rate_limit_buckets (h1 h2 : Auth.Headers) (ip1 ip2 : option string) :
  (forall key1 key2,
     Auth.presented_key h1 = Some key1 -> JS.truthy key1 = true ->
     Auth.presented_key h2 = Some key2 -> JS.truthy key2 = true ->
     (Server.keyGenerator h1 ip1 = Server.keyGenerator h2 ip2 <-> key1 = key2))
  /\ (JS.truthy_opt (Auth.presented_key h1) = false ->
      JS.truthy_opt (Auth.presented_key h2) = false ->
      (Server.keyGenerator h1 ip1 = Server.keyGenerator h2 ip2
       <-> default "undefined" ip1 = default "undefined" ip2))
  /\ (JS.truthy_opt (Auth.presented_key h1) = true ->
      JS.truthy_opt (Auth.presented_key h2) = false ->
      Server.keyGenerator h1 ip1 <> Server.keyGenerator h2 ip2).
Proof.
  unfold Server.keyGenerator. split; [|split].
  - intros key1 key2 -> H1 -> H2. cbn. rewrite H1, H2. split; [|by intros ->].
    apply app_inj_l.
  - intros -> ->. split; [|by intros ->]. apply app_inj_l.
  - intros -> ->. rewrite (app_cons "a" "pi_key:"), (app_cons "i" "p:"). discriminate.
Qed.

Lemma rate_limit_buckets_witness :
  Server.keyGenerator {| Auth.x_api_key := Some "guess-1"; Auth.authorization := None |}
    (Some "10.0.0.7")
  <> Server.keyGenerator {| Auth.x_api_key := Some "guess-2"; Auth.authorization := None |}
       (Some "10.0.0.7")
  /\ Server.keyGenerator {| Auth.x_api_key := Some "guess-1"; Auth.authorization := None |}
       (Some "10.0.0.7")
     <> Server.keyGenerator {| Auth.x_api_key := None; Auth.authorization := None |}
          (Some "10.0.0.7").
Proof.
  split.
  - intros Hsame.
    apply (proj1 (rate_limit_buckets
                    {| Auth.x_api_key := Some "guess-1"; Auth.authorization := None |}
                    {| Auth.x_api_key := Some "guess-2"; Auth.authorization := None |}
                    (Some "10.0.0.7") (Some "10.0.0.7"))
             "guess-1" "guess-2" eq_refl eq_refl eq_refl eq_refl) in Hsame.
    discriminate.
  - apply (proj2 (proj2 (rate_limit_buckets
                    {| Auth.x_api_key := Some "guess-1"; Auth.authorization := None |}
                    {| Auth.x_api_key := None; Auth.authorization := None |}
                    (Some "10.0.0.7") (Some "10.0.0.7"))));
      reflexivity.
Defined.

(** ** The protected routes *)

(** X15: a request to a protected route that does not present the
    configured secret never reaches the handler: it is answered 401 or 500
    without success, the store is as before, and no store call, completion
    request, update or increment is made.  A request that presents the
    secret gets the handler's response and leaves the world the handler
    leaves. *)
Theorem gate_protects_the_store env development expectedApiKey h body noteId w :
  let posted := Server.post_api_process env development expectedApiKey h body w in
  let asked := Server.get_api_status env expectedApiKey h noteId w in
  (fst (Auth.apiKeyAuth expectedApiKey h) <> Auth.Next ->
   world_after posted = w /\ untouched w posted
   /\ world_after asked = w /\ untouched w asked
   /\ (exists r, response_of posted = Some r /\ response_of asked = Some r
                 /\ success r = false /\ (code r = 401%nat \/ code r = 500%nat)))
  /\ (fst (Auth.apiKeyAuth expectedApiKey h) = Auth.Next ->
      posted = ProcessingController.processNote env development body w
      /\ asked = ProcessingController.getProcessingStatus env noteId w).
Proof.
  intros posted asked. subst posted asked.
  unfold Server.post_api_process, Server.get_api_status, Server.behind_gate.
  split.
  - intros Hrejected. unfold Auth.apiKeyAuth in *.
    repeat case_match; simplify_eq; cbn in *; try done;
      (repeat split; try done; eexists; repeat split; cbn; auto).
  - intros Hpassed.
    assert (Auth.apiKeyAuth expectedApiKey h = (Auth.Next, [])) as ->.
    { unfold Auth.apiKeyAuth in *. by repeat case_match. }
    split.
    + by destruct (ProcessingController.processNote env development body w) as [[? ?] ?].
    + by destruct (ProcessingController.getProcessingStatus env noteId w) as [[? ?] ?].
Qed.

Lemma gate_protects_the_store_witness :
  let env := Sample.env Sample.no_fault Sample.within_limits Sample.answer in
  let w := Sample.store (Sample.note "todo" "pending" None) in
  let h := {| Auth.x_api_key := Some "guess"; Auth.authorization := None |} in
  world_after (Server.post_api_process env false (Some "s3cret") h
                 {| ProcessingController.noteId := Some Sample.id |} w) = w
  /\ Server.get_api_status env (Some "s3cret")
       {| Auth.x_api_key := Some "s3cret"; Auth.authorization := None |}
       (Some Sample.id) w
     = ProcessingController.getProcessingStatus env (Some Sample.id) w.
Proof.
  intros env w h. split.
  - apply (proj1 (gate_protects_the_store env false (Some "s3cret") h
                    {| ProcessingController.noteId := Some Sample.id |}
                    (Some Sample.id) w)).
    discriminate.
  - apply (proj2 (gate_protects_the_store env false (Some "s3cret")
                    {| Auth.x_api_key := Some "s3cret"; Auth.authorization := None |}
                    {| ProcessingController.noteId := Some Sample.id |}
                    (Some Sample.id) w)).
    reflexivity.
Defined.

(** ** The gate of the speechcraft-processor server *)

(** X16: [authMiddleware] passes a request on exactly when its [x-api-key]
    header is not empty and equals [API_KEY]; such a request also passes the
    key gate of the API-secret server configured with the same secret.  The
    [Authorization] header is not read: without [x-api-key] the answer is
    401 "API key is required" even when a bearer token carries the secret.
    With no [API_KEY] configured every key is answered 401 "Invalid API
    key", where the key gate of the API-secret server answers 500. *)
Theorem authMiddleware_passes_exactly (API_KEY : option string) (h : Auth.Headers) :
  (fst (ProcessorAuth.authMiddleware API_KEY h) = ProcessorAuth.Next
   <-> exists key, Auth.x_api_key h = Some key /\ JS.truthy key = true
                   /\ API_KEY = Some key)
  /\ (fst (ProcessorAuth.authMiddleware API_KEY h) = ProcessorAuth.Next ->
      fst (Auth.apiKeyAuth API_KEY h) = Auth.Next)
  /\ (JS.truthy_opt (Auth.x_api_key h) = false ->
      fst (ProcessorAuth.authMiddleware API_KEY h)
      = ProcessorAuth.Unauthorized "API key is required")
  /\ (JS.truthy_opt (Auth.x_api_key h) = true -> JS.truthy_opt API_KEY = false ->
      fst (ProcessorAuth.authMiddleware API_KEY h)
      = ProcessorAuth.Unauthorized "Invalid API key"
      /\ fst (Auth.apiKeyAuth API_KEY h)
         = Auth.Sent (Auth.reject 500 "Server configuration error" "CONFIG_ERROR")).
Proof.
  assert (fst (ProcessorAuth.authMiddleware API_KEY h) = ProcessorAuth.Next
          <-> exists key, Auth.x_api_key h = Some key /\ JS.truthy key = true
                          /\ API_KEY = Some key) as Hiff.
  { unfold ProcessorAuth.authMiddleware.
    destruct (Auth.x_api_key h) as [key|]; cbn; [|split; [done|by intros (? & ? & _)]].
    destruct (JS.truthy key) eqn:Hkey; cbn.
    - destruct (decide (Some key = API_KEY)) as [<-|Hne].
      + rewrite bool_decide_eq_true_2 by done. cbn. split; [eauto|done].
      + rewrite bool_decide_eq_false_2 by done. cbn. split; [done|].
        intros (k & [= <-] & _ & ->). done.
    - split; [done|]. intros (k & [= <-] & Hk & _). congruence. }
  split; [exact Hiff|]. split; [|split].
  - intros Hnext. apply Hiff in Hnext as (key & Hkey & Htruthy & ->).
    apply apiKeyAuth_next. exists key. repeat split; try done.
    unfold Auth.presented_key. rewrite Hkey. cbn. by rewrite Htruthy.
  - intros Hnone. unfold ProcessorAuth.authMiddleware. by rewrite Hnone.
  - intros Hkey Hnone. unfold ProcessorAuth.authMiddleware, Auth.apiKeyAuth,
      Auth.presented_key. rewrite Hkey, Hnone. cbn. rewrite Hkey. cbn.
    rewrite bool_decide_eq_false_2; [done|].
    intros Heq. rewrite Heq, Hnone in Hkey. done.
Qed.

Lemma authMiddleware_passes_exactly_witness :
  fst (ProcessorAuth.authMiddleware (Some "s3cret")
         {| Auth.x_api_key := None; Auth.authorization := Some "Bearer s3cret" |})
  = ProcessorAuth.Unauthorized "API key is required"
  /\ fst (ProcessorAuth.authMiddleware None
            {| Auth.x_api_key := Some "any-key"; Auth.authorization := None |})
     = ProcessorAuth.Unauthorized "Invalid API key".
Proof.
  split.
  - apply (proj1 (proj2 (proj2 (authMiddleware_passes_exactly (Some "s3cret")
             {| Auth.x_api_key := None; Auth.authorization := Some "Bearer s3cret" |})))).
    reflexivity.
  - apply (proj2 (proj2 (proj2 (authMiddleware_passes_exactly None
             {| Auth.x_api_key := Some "any-key"; Auth.authorization := None |}))));
      reflexivity.
Defined.

(** ** Statistics of the store *)

Lemma bump_lookup_ne (key k : string) (counts : gmap string Statistics.Tally) :
  key <> k -> Statistics.bump key counts !! k = counts !! k.
Proof.
  intros Hne. unfold Statistics.bump.
  repeat case_match; try done; by rewrite lookup_insert_ne.
Qed.

(** What a counter object holds for a key after the keys of the rows have
    been counted, by the number of rows with that key. *)
Lemma bump_fold (keys : list string) (k : string) :
  fold_left (fun counts key => Statistics.bump key counts) keys ∅ !! k
  = if (count_occ string_dec keys k =? 0)%nat then None
    else if String.eqb k "__proto__" then None
    else if existsb (String.eqb k) OpenAIService.object_prototype_names
    then Some Statistics.Mangled
    else Some (Statistics.Counted (count_occ string_dec keys k)).
Proof.
  induction keys as [|key keys IH] using rev_ind; [done|].
  rewrite fold_left_app, count_occ_app. cbn [fold_left count_occ].
  set (counts := fold_left _ keys ∅) in *. clearbody counts.
  destruct (string_dec key k) as [->|Hne].
  - replace (count_occ string_dec keys k + 1 =? 0)%nat with false
      by (symmetry; apply Nat.eqb_neq; lia).
    unfold Statistics.bump. rewrite IH.
    destruct (count_occ string_dec keys k =? 0)%nat eqn:Hzero.
    + apply Nat.eqb_eq in Hzero. rewrite Hzero.
      destruct (String.eqb k "__proto__"); [done|].
      destruct (existsb _ _); by rewrite lookup_insert_eq.
    + destruct (String.eqb k "__proto__") eqn:Hproto; [done|].
      destruct (existsb _ _) eqn:Hinherited; [done|].
      rewrite lookup_insert_eq. do 2 f_equal. lia.
  - rewrite bump_lookup_ne by done. rewrite IH. by rewrite Nat.add_0_r.
Qed.

Lemma fold_visit_status (data : list Note.t) (acc : Statistics.Running) :
  Statistics.r_statusCounts (fold_left Statistics.visit data acc)
  = fold_left (fun counts key => Statistics.bump key counts)
      (map Note.processing_status data) (Statistics.r_statusCounts acc).
Proof. revert acc. induction data as [|n data IH]; intros acc; [done|]. cbn. by rewrite IH. Qed.

Lemma fold_visit_type (data : list Note.t) (acc : Statistics.Running) :
  Statistics.r_typeDistribution (fold_left Statistics.visit data acc)
  = fold_left (fun counts key => Statistics.bump key counts)
      (map Note.note_type data) (Statistics.r_typeDistribution acc).
Proof. revert acc. induction data as [|n data IH]; intros acc; [done|]. cbn. by rewrite IH. Qed.

Lemma count_occ_filter (key : Note.t -> string) (k : string) (data : list Note.t) :
  count_occ string_dec (map key data) k
  = List.length (List.filter (fun n => String.eqb (key n) k) data).
Proof.
  induction data as [|n data IH]; [done|]. cbn.
  destruct (string_dec (key n) k) as [->|Hne].
  - rewrite String.eqb_refl. cbn. by rewrite IH.
  - apply String.eqb_neq in Hne. by rewrite Hne.
Qed.

Lemma filter_status_processed (s : string) (all : list Note.t) :
  List.filter (has_status s) (List.filter Statistics.processed all)
  = if String.eqb s "pending" then [] else List.filter (has_status s) all.
Proof.
  induction all as [|n all IH]; [by destruct (String.eqb s "pending")|].
  cbn. unfold Statistics.processed at 1, has_status at 2 4.
  destruct (String.eqb_spec (Note.processing_status n) "pending") as [Hp|Hp]; cbn.
  - rewrite IH. destruct (String.eqb_spec s "pending") as [->|Hs]; [done|].
    destruct (String.eqb_spec (Note.processing_status n) s); [congruence|done].
  - unfold has_status at 1. rewrite IH.
    destruct (String.eqb_spec s "pending") as [->|Hs]; [|done].
    by destruct (String.eqb_spec (Note.processing_status n) "pending").
Qed.

Lemma filter_filter_and {A} (p q : A -> bool) (l : list A) :
  List.filter p (List.filter q l) = List.filter (fun x => q x && p x) l.
Proof.
  induction l as [|x l IH]; [done|]. cbn.
  destruct (q x); cbn; [|done]. destruct (p x); by rewrite IH.
Qed.

Lemma getProcessingStats_run env w :
  Statistics.getProcessingStats env w
  = match store_error env (tick w) with
    | None => (Returns (Statistics.summarise (Statistics.rows w)), advance 1 w, [])
    | Some message =>
        (Throws (Error message), advance 1 w,
         [Log LError "Failed to get processing stats";
          Log LError "Error getting processing stats"])
    end.
Proof.
  unfold Statistics.getProcessingStats. unfold_async. unfold advance.
  destruct w as [ns ps t]. cbn. by destruct (store_error env t).
Qed.

(** X17: when the store answers, [getProcessingStats] resolves without
    changing the store, after one call.  [totalProcessed] is the number of
    stored notes that are not pending, and pending notes are counted
    nowhere.  For a status or category that names no member of
    [Object.prototype], the count is the number of such notes, and the key
    is absent when there is none.  A status that names such a member is not
    counted as a number: its value is a text, and [__proto__] never
    becomes a key. *)
Theorem stats_agree_with_store env w :
  store_error env (tick w) = None ->
  let r := Statistics.getProcessingStats env w in
  let inherited key := existsb (String.eqb key) OpenAIService.object_prototype_names in
  exists stats,
    r = (Returns stats, advance 1 w, [])
    /\ Statistics.totalProcessed stats = stored_with Statistics.processed w
    /\ Statistics.statusCounts stats !! "pending" = None
    /\ (forall s,
          inherited s = false ->
          Statistics.statusCounts stats !! s
          = if String.eqb s "pending" then None
            else match stored_with (has_status s) w with
                 | O => None
                 | S n => Some (Statistics.Counted (S n))
                 end)
    /\ (forall ty,
          inherited ty = false ->
          Statistics.typeDistribution stats !! ty
          = match stored_with (fun n => Statistics.processed n && has_type ty n) w with
            | O => None
            | S n => Some (Statistics.Counted (S n))
            end)
    /\ (forall s,
          inherited s = true ->
          Statistics.statusCounts stats !! s
          = if (stored_with (has_status s) w =? 0)%nat then None
            else if String.eqb s "__proto__" then None
            else Some Statistics.Mangled).
Proof.
  intros Hstore r inherited. subst r inherited. cbn beta.
  rewrite getProcessingStats_run, Hstore.
  eexists. split; [reflexivity|].
  assert (forall s,
            Statistics.statusCounts (Statistics.summarise (Statistics.rows w)) !! s
            = let n := if String.eqb s "pending" then 0%nat
                       else stored_with (has_status s) w in
              if (n =? 0)%nat then None
              else if String.eqb s "__proto__" then None
              else if existsb (String.eqb s) OpenAIService.object_prototype_names
              then Some Statistics.Mangled
              else Some (Statistics.Counted n)) as Hstatus.
  { intros s. cbn. rewrite fold_visit_status. cbn. rewrite bump_fold.
    rewrite (count_occ_filter Note.processing_status s).
    change (fun n => String.eqb (Note.processing_status n) s) with (has_status s).
    unfold Statistics.rows, stored_with. rewrite filter_status_processed.
    by destruct (String.eqb s "pending"). }
  assert (forall ty,
            Statistics.typeDistribution (Statistics.summarise (Statistics.rows w)) !! ty
            = let n := stored_with (fun n => Statistics.processed n && has_type ty n) w in
              if (n =? 0)%nat then None
              else if String.eqb ty "__proto__" then None
              else if existsb (String.eqb ty) OpenAIService.object_prototype_names
              then Some Statistics.Mangled
              else Some (Statistics.Counted n)) as Htype.
  { intros ty. cbn. rewrite fold_visit_type. cbn. rewrite bump_fold.
    rewrite (count_occ_filter Note.note_type ty).
    change (fun n => String.eqb (Note.note_type n) ty) with (has_type ty).
    unfold Statistics.rows, stored_with. by rewrite filter_filter_and. }
  assert (forall key,
            existsb (String.eqb key) OpenAIService.object_prototype_names = false ->
            String.eqb key "__proto__" = false) as Hproto.
  { intros key Hkey. destruct (String.eqb_spec key "__proto__") as [->|]; [|done].
    by vm_compute in Hkey. }
  repeat split.
  - by rewrite Hstatus.
  - intros s Hs. rewrite Hstatus. cbn zeta.
    destruct (String.eqb s "pending"); [done|].
    destruct (stored_with (has_status s) w); [done|].
    cbn [Nat.eqb]. by rewrite (Hproto s Hs), Hs.
  - intros ty Hty. rewrite Htype. cbn zeta.
    destruct (stored_with _ w); [done|].
    cbn [Nat.eqb]. by rewrite (Hproto ty Hty), Hty.
  - intros s Hs. rewrite Hstatus. cbn zeta.
    destruct (String.eqb_spec s "pending") as [->|_]; [by vm_compute in Hs|].
    by rewrite Hs.
Qed.

Lemma stats_agree_with_store_witness :
  let env := Sample.env Sample.no_fault Sample.within_limits Sample.answer in
  let w := Sample.store (Sample.note "todo" "failed" None) in
  exists stats,
    response_of (Statistics.getProcessingStats env w) = Some stats
    /\ Statistics.totalProcessed stats = 1%nat
    /\ Statistics.statusCounts stats !! "failed" = Some (Statistics.Counted 1).
Proof.
  intros env w.
  destruct (stats_agree_with_store env w eq_refl)
    as (stats & Hrun & Htotal & _ & Hcount & _).
  exists stats. split; [by rewrite Hrun|]. split; [exact Htotal|].
  exact (Hcount "failed" eq_refl).
Defined.

Lemma bump_lookup_eq (key : string) (counts : gmap string Statistics.Tally) :
  Statistics.bump key counts !! key
  = match counts !! key with
    | Some (Statistics.Counted n) => Some (Statistics.Counted (S n))
    | Some Statistics.Mangled => Some Statistics.Mangled
    | None =>
        if String.eqb key "__proto__" then None
        else if existsb (String.eqb key) OpenAIService.object_prototype_names
        then Some Statistics.Mangled
        else Some (Statistics.Counted 1)
    end.
Proof.
  unfold Statistics.bump.
  destruct (counts !! key) as [[n|]|] eqn:Hkey; rewrite ?lookup_insert_eq; try done.
  destruct (String.eqb key "__proto__"); [done|].
  destruct (existsb _ _); by rewrite lookup_insert_eq.
Qed.

Lemma bump_comm (a b : string) (counts : gmap string Statistics.Tally) :
  Statistics.bump a (Statistics.bump b counts)
  = Statistics.bump b (Statistics.bump a counts).
Proof.
  destruct (string_dec a b) as [->|Hne]; [done|].
  apply map_eq. intros k.
  destruct (string_dec a k) as [<-|Ha].
  - rewrite bump_lookup_eq, !(bump_lookup_ne b a) by done. by rewrite bump_lookup_eq.
  - rewrite (bump_lookup_ne a k) by done.
    destruct (string_dec b k) as [<-|Hb].
    + by rewrite !bump_lookup_eq, (bump_lookup_ne a b) by done.
    + by rewrite !(bump_lookup_ne b k), (bump_lookup_ne a k) by done.
Qed.

Lemma visit_same_counts (a b : Statistics.Running) (n : Note.t) :
  same_counts a b -> same_counts (Statistics.visit a n) (Statistics.visit b n).
Proof.
  intros (Hs & Ht & Hk & Hc). unfold same_counts, Statistics.visit. cbn.
  rewrite Hs, Ht, Hk, Hc. by repeat split.
Qed.

Lemma visit_swap (acc : Statistics.Running) (n m : Note.t) :
  same_counts (Statistics.visit (Statistics.visit acc n) m)
              (Statistics.visit (Statistics.visit acc m) n).
Proof.
  unfold same_counts, Statistics.visit. cbn. repeat split.
  - apply bump_comm.
  - apply bump_comm.
  - lia.
  - by repeat case_match.
Qed.

Lemma fold_visit_same_counts (data : list Note.t) (a b : Statistics.Running) :
  same_counts a b ->
  same_counts (fold_left Statistics.visit data a) (fold_left Statistics.visit data b).
Proof.
  revert a b. induction data as [|n data IH]; intros a b Hab; [done|].
  cbn. apply IH. by apply visit_same_counts.
Qed.

Lemma fold_visit_permutation (data data' : list Note.t) :
  Permutation data data' ->
  forall acc,
    same_counts (fold_left Statistics.visit data acc)
                (fold_left Statistics.visit data' acc).
Proof.
  induction 1 as [|n l l' _ IH|n m l|l l' l'' _ IH _ IH']; intros acc; cbn.
  - done.
  - apply IH.
  - apply fold_visit_same_counts, visit_swap.
  - destruct (IH acc) as (H1 & H2 & H3 & H4), (IH' acc) as (H1' & H2' & H3' & H4').
    unfold same_counts. by rewrite H1, H2, H3, H4.
Qed.

(** X18: what the statistics count does not depend on the order in which
    the store returns the rows: the same rows in another order give the
    same [totalProcessed], the same counter objects and the same token
    total.  The average processing time does depend on it: it is a sum of
    doubles, and rows that took 0.1, 0.2 and 0.3 seconds give a larger
    average in that order than in the opposite one. *)
Theorem summarise_any_order :
  (forall data data' : list Note.t,
     Permutation data data' ->
     Statistics.totalProcessed (Statistics.summarise data)
     = Statistics.totalProcessed (Statistics.summarise data')
     /\ Statistics.statusCounts (Statistics.summarise data)
        = Statistics.statusCounts (Statistics.summarise data')
     /\ Statistics.typeDistribution (Statistics.summarise data)
        = Statistics.typeDistribution (Statistics.summarise data')
     /\ Statistics.totalTokensUsed (Statistics.summarise data)
        = Statistics.totalTokensUsed (Statistics.summarise data'))
  /\ (let data := [Sample.timed 100; Sample.timed 200; Sample.timed 300] in
      let data' := [Sample.timed 300; Sample.timed 200; Sample.timed 100] in
      Permutation data data'
      /\ PrimFloat.ltb (Statistics.averageProcessingTime (Statistics.summarise data'))
                       (Statistics.averageProcessingTime (Statistics.summarise data))
         = true
      /\ Statistics.averageProcessingTime (Statistics.summarise data)
         <> Statistics.averageProcessingTime (Statistics.summarise data')).
Proof.
  split.
  - intros data data' Hperm. unfold Statistics.summarise. cbn.
    destruct (fold_visit_permutation data data' Hperm Statistics.start)
      as (Hs & Ht & Hk & _).
    by rewrite Hs, Ht, Hk, (Permutation_length Hperm).
  - cbn zeta. split; [|split].
    + apply (Permutation_rev [Sample.timed 100; Sample.timed 200; Sample.timed 300]).
    + vm_compute. reflexivity.
    + intros Hsame.
      apply (f_equal (fun x =>
               PrimFloat.ltb
                 (Statistics.averageProcessingTime
                    (Statistics.summarise
                       [Sample.timed 300; Sample.timed 200; Sample.timed 100])) x))
        in Hsame.
      vm_compute in Hsame. discriminate.
Qed.

Lemma summarise_any_order_witness :
  Statistics.statusCounts
    (Statistics.summarise [Sample.note "todo" "failed" None;
                           Sample.note "idea" "completed" (Some "- Buy milk")])
  = Statistics.statusCounts
      (Statistics.summarise [Sample.note "idea" "completed" (Some "- Buy milk");
                             Sample.note "todo" "failed" None]).
Proof.
  apply (proj1 summarise_any_order
           [Sample.note "todo" "failed" None;
            Sample.note "idea" "completed" (Some "- Buy milk")]
           [Sample.note "idea" "completed" (Some "- Buy milk");
            Sample.note "todo" "failed" None]).
  apply perm_swap.
Defined.

(** ** Health of the store *)



(** ** More on the speechcraft-processor controller *)

(** The lookup of the speechcraft-processor service resolves to a note or
    throws. *)
Lemma processor_lookup_finds env config id w :
  fst (fst (Processor.SupabaseService.getNoteById env config id w)) <> Returns None.
Proof.
  unfold Processor.SupabaseService.getNoteById. unfold_async. cbn.
  destruct (Processor.SupabaseService.testMode config); cbn; [done|].
  destruct (store_error env (tick w)); cbn; [done|].
  by destruct (notes w !! id).
Qed.

Lemma processor_getNoteById_run env config id w :
  Processor.SupabaseService.testMode config = false ->
  Processor.SupabaseService.getNoteById env config id w
  = match store_error env (tick w), notes w !! id with
    | None, Some n => (Returns (Some n), advance 1 w, [NoteFetched id])
    | Some message, _ =>
        (Throws (Error message), advance 1 w,
         [NoteFetched id; Log LError "Error fetching note:"])
    | None, None =>
        (Throws (Error "JSON object requested, multiple (or no) rows returned"),
         advance 1 w, [NoteFetched id; Log LError "Error fetching note:"])
    end.
Proof.
  intros Hlive. unfold Processor.SupabaseService.getNoteById. rewrite Hlive.
  unfold_async. unfold advance. destruct w as [ns ps t]. cbn.
  destruct (store_error env t); [done|]. by destruct (ns !! id).
Qed.

Lemma processor_updateNoteProcessing_run env config id updates w :
  Processor.SupabaseService.testMode config = false ->
  let patch :=
    {| Patch.processed_text := Processor.SupabaseService.processed_text updates;
       Patch.processing_status := Processor.SupabaseService.processing_status updates;
       Patch.tokens_used := Processor.SupabaseService.tokens_used updates;
       Patch.processing_time := Processor.SupabaseService.processing_time updates;
       Patch.note_type := Processor.SupabaseService.note_type updates;
       Patch.updated_at := clock env (tick w) |} in
  Processor.SupabaseService.updateNoteProcessing env config id updates w
  = match store_error env (tick w), notes w !! id with
    | None, Some n =>
        (Returns (Processor.Row (Patch.apply patch n)),
         mkWorld (<[id := Patch.apply patch n]> (notes w)) (profiles w) (S (tick w)),
         [NoteUpdated id n patch])
    | Some message, _ =>
        (Throws (Error message), advance 1 w,
         [NoteUpdateRejected id patch; Log LError "Error updating note:"])
    | None, None =>
        (Throws (Error "JSON object requested, multiple (or no) rows returned"),
         advance 1 w,
         [NoteUpdateRejected id patch; Log LError "Error updating note:"])
    end.
Proof.
  intros Hlive. unfold Processor.SupabaseService.updateNoteProcessing. rewrite Hlive.
  unfold_async. unfold advance. destruct w as [ns ps t]. cbn.
  destruct (store_error env t); [done|]. by destruct (ns !! id).
Qed.

Lemma processor_incrementUserNoteCount_run config uid w :
  Processor.SupabaseService.testMode config = false ->
  Processor.SupabaseService.incrementUserNoteCount config uid w
  = (Throws (Error "this.supabase.sql is not a function"), w,
     [Log LError "Error incrementing user note count:"]).
Proof.
  intros Hlive. unfold Processor.SupabaseService.incrementUserNoteCount.
  by rewrite Hlive.
Qed.

(** The completion service of the speechcraft-processor server always
    resolves and leaves the store as it was. *)
Lemma processor_OpenAI_run env config text ty w :
  exists res k evs,
    Processor.OpenAIService.processNote env config text ty w
    = (Returns res, advance k w, evs)
    /\ count is_update evs = 0%nat
    /\ count is_increment evs = 0%nat
    /\ (Processor.OpenAIService.testMode config = true ->
        k = 0%nat /\ evs = []
        /\ Processor.OpenAIService.processedText res
           = Processor.OpenAIService.mock text ty
        /\ Processor.OpenAIService.error res = None).
Proof.
  unfold Processor.OpenAIService.processNote. unfold_async. unfold advance.
  destruct w as [ns ps t]. cbn.
  destruct (Processor.OpenAIService.testMode config); cbn.
  - by eexists _, 0%nat, _.
  - destruct (completion env t); cbn; by eexists _, 1%nat, _.
Qed.

Lemma valid_body guid body id ty :
  Processor.ProcessingController.processNoteSchema guid body
  = Processor.ProcessingController.Valid id ty ->
  Processor.ProcessingController.noteId body = Some id /\ JS.truthy id = true
  /\ (Processor.ProcessingController.noteType body = None -> ty = "general")
  /\ In ty Processor.ProcessingController.note_types.
Proof.
  unfold Processor.ProcessingController.processNoteSchema. intros Hvalid.
  destruct (Processor.ProcessingController.noteId body) as [i|]; [|done].
  destruct (negb (JS.truthy i) || negb (guid i)) eqn:Hguid; [done|].
  apply orb_false_elim in Hguid as [Hi _]. apply negb_false_iff in Hi.
  destruct (Processor.ProcessingController.noteType body) as [given|].
  - destruct (existsb (String.eqb given) Processor.ProcessingController.note_types)
      eqn:Hin; [|done].
    injection Hvalid as <- <-. repeat split; try done.
    apply existsb_exists in Hin as (x & Hx & Heq).
    apply String.eqb_eq in Heq. by subst.
  - injection Hvalid as <- <-. repeat split; try done. cbn. tauto.
Qed.

#[local] Arguments Processor.SupabaseService.getNoteById : simpl never.
#[local] Arguments Processor.SupabaseService.updateNoteProcessing : simpl never.
#[local] Arguments Processor.SupabaseService.incrementUserNoteCount : simpl never.
#[local] Arguments Processor.OpenAIService.processNote : simpl never.

Ltac start_processor :=
  cbn zeta;
  unfold Processor.ProcessingController.processNote,
    Processor.ProcessingController.process, Processor.ProcessingController.recover;
  unfold_async; cbn.

(** One step of a run of the speechcraft-processor controller with a live
    store: the next service call is replaced by its closed form, and the
    answers of the environment are taken from the hypotheses or split. *)
Ltac processor_step Hlive :=
  match goal with
  | H : store_reliable ?e |- context [store_error ?e ?t] => rewrite (H t); tidy
  | H : store_error ?e ?t = _ |- context [store_error ?e ?t] => rewrite H; tidy
  | H : notes ?w !! ?i = _ |- context [notes ?w !! ?i] => rewrite H; tidy
  | H : ?m !! ?i = _ |- context [?m !! ?i] => rewrite H; tidy
  | H : Note.processing_status ?n = _
    |- context [String.eqb (Note.processing_status ?n) _] => rewrite H; tidy
  | H : JS.truthy_opt ?x = _ |- context [JS.truthy_opt ?x] => rewrite H; tidy
  | |- context [Processor.SupabaseService.getNoteById ?e ?c ?i ?W] =>
      rewrite (processor_getNoteById_run e c i W Hlive); unfold advance; tidy
  | |- context [Processor.SupabaseService.updateNoteProcessing ?e ?c ?i ?u ?W] =>
      rewrite (processor_updateNoteProcessing_run e c i u W Hlive); unfold advance; tidy
  | |- context [Processor.SupabaseService.incrementUserNoteCount ?c ?u ?W] =>
      rewrite (processor_incrementUserNoteCount_run c u W Hlive); tidy
  | |- context [Processor.OpenAIService.processNote ?e ?c ?x ?ty ?W] =>
      let H := fresh "Hrun" in
      destruct (processor_OpenAI_run e c x ty W) as (?res & ?k & ?evs & H & ? & ? & ?);
      rewrite H; clear H; unfold advance; tidy
  | |- context [store_error ?e ?t] => destruct (store_error e t) eqn:?; tidy
  | |- context [match notes ?w !! ?i with _ => _ end] =>
      destruct (notes w !! i) eqn:?; tidy
  | |- context [String.eqb ?a ?b] =>
      destruct (String.eqb_spec a b); try congruence; tidy
  | |- context [if JS.truthy_opt ?x then _ else _] =>
      destruct (JS.truthy_opt x) eqn:?; tidy
  end.

Lemma processor_missing_note env config guid body w id ty :
  Processor.SupabaseService.testMode config = false ->
  Processor.ProcessingController.processNoteSchema guid body
  = Processor.ProcessingController.Valid id ty ->
  notes w !! id = None ->
  let r := Processor.ProcessingController.processNote env config guid body w in
  response_of r
  = Some (Processor.ProcessingController.Refused 500 "Processing failed"
            (Processor.ProcessingController.Text
               "An error occurred while processing the note"))
  /\ notes (world_after r) = notes w
  /\ profiles (world_after r) = profiles w
  /\ count is_completion_request (events_of r) = 0%nat
  /\ count is_update (events_of r) = 0%nat
  /\ count is_increment (events_of r) = 0%nat.
Proof.
  intros Hlive Hschema Hmissing.
  destruct (valid_body guid body id ty Hschema) as (Hbody & Hid & _).
  start_processor. rewrite Hschema, Hbody. cbn. rewrite Hid. cbn.
  repeat processor_step Hlive; by repeat split.
Qed.

(** X20: the speechcraft-processor controller always replies, with status
    200, 400 or 500, never 404: its lookup reports a missing row as an
    error.  A valid request for a note the store does not hold is answered
    500 "Processing failed"; no completion request, update or increment is
    made and the store is as before. *)
Theorem processor_never_answers_404 env config guid body w :
  let r := Processor.ProcessingController.processNote env config guid body w in
  exists reply,
    response_of r = Some reply
    /\ In (Processor.ProcessingController.status_code reply) [200; 400; 500]%nat
    /\ (forall id ty,
          Processor.SupabaseService.testMode config = false ->
          Processor.ProcessingController.processNoteSchema guid body
          = Processor.ProcessingController.Valid id ty ->
          notes w !! id = None ->
          reply = Processor.ProcessingController.Refused 500 "Processing failed"
                    (Processor.ProcessingController.Text
                       "An error occurred while processing the note")
          /\ notes (world_after r) = notes w
          /\ profiles (world_after r) = profiles w
          /\ count is_completion_request (events_of r) = 0%nat
          /\ count is_update (events_of r) = 0%nat
          /\ count is_increment (events_of r) = 0%nat).
Proof.
  intros r.
  assert (exists reply,
            response_of r = Some reply
            /\ In (Processor.ProcessingController.status_code reply) [200; 400; 500]%nat)
    as (reply & Hreply & Hcode).
  { subst r. unfold Processor.ProcessingController.processNote,
      Processor.ProcessingController.process, Processor.ProcessingController.recover.
    unfold_async.
    destruct (Processor.ProcessingController.processNoteSchema guid body) as [id ty|key];
      [|eexists; split; [reflexivity|cbn; tauto]].
    pose proof (processor_lookup_finds env config id w) as Hfinds.
    destruct (Processor.SupabaseService.getNoteById env config id w)
      as [[[[n|]|e] w1] l1]; cbn in *; [|done|].
    - destruct (String.eqb (Note.processing_status n) "completed"); cbn;
        [eexists; split; [reflexivity|cbn; tauto]|].
      repeat match goal with
             | |- context [if ?b then _ else _] => destruct b; cbn
             | |- context [match ?call ?W with _ => _ end] =>
                 destruct (call W) as [[[?|?] ?] ?]; cbn
             end;
        eexists; (split; [reflexivity|cbn; tauto]).
    - repeat match goal with
             | |- context [if ?b then _ else _] => destruct b; cbn
             | |- context [match ?call ?W with _ => _ end] =>
                 destruct (call W) as [[[?|?] ?] ?]; cbn
             end;
        eexists; (split; [reflexivity|cbn; tauto]). }
  exists reply. split; [exact Hreply|]. split; [exact Hcode|].
  intros id ty Hlive Hschema Hmissing.
  destruct (processor_missing_note env config guid body w id ty Hlive Hschema Hmissing)
    as (Hresponse & Hrest).
  fold r in Hresponse, Hrest. split; [congruence|exact Hrest].
Qed.

Lemma processor_never_answers_404_witness :
  let r := Processor.ProcessingController.processNote
             (Sample.env Sample.no_fault Sample.within_limits Sample.answer) Sample.live
             Processor.ProcessingController.canonical_guid
             {| Processor.ProcessingController.noteId :=
                  Some "00000000-0000-4000-8000-000000000000";
                Processor.ProcessingController.noteType := None |}
             (Sample.store (Sample.note "todo" "pending" None)) in
  (Processor.ProcessingController.status_code <$> response_of r) = Some 500%nat.
Proof.
  destruct (processor_never_answers_404
              (Sample.env Sample.no_fault Sample.within_limits Sample.answer) Sample.live
              Processor.ProcessingController.canonical_guid
              {| Processor.ProcessingController.noteId :=
                   Some "00000000-0000-4000-8000-000000000000";
                 Processor.ProcessingController.noteType := None |}
              (Sample.store (Sample.note "todo" "pending" None)))
    as (reply & Hreply & _ & Hmissing).
  destruct (Hmissing "00000000-0000-4000-8000-000000000000" "general"
              eq_refl eq_refl eq_refl) as (-> & _).
  cbn zeta. by rewrite Hreply.
Defined.

(** X21: with a live store that answers every call, a valid request for a
    note that is not completed writes the category of the request into the
    note: the [noteType] of the body, or [general] when the body has none,
    whatever category the note was stored with.  The note ends completed or
    failed; its owner and its original text are kept, and no other note
    changes. *)
Theorem processor_overwrites_category env config guid body w id ty n :
  Processor.SupabaseService.testMode config = false ->
  store_reliable env ->
  Processor.ProcessingController.processNoteSchema guid body
  = Processor.ProcessingController.Valid id ty ->
  notes w !! id = Some n ->
  Note.processing_status n <> "completed" ->
  let r := Processor.ProcessingController.processNote env config guid body w in
  exists n',
    notes (world_after r) !! id = Some n'
    /\ Note.note_type n' = ty
    /\ (Processor.ProcessingController.noteType body = None -> Note.note_type n' = "general")
    /\ (Note.processing_status n' = "completed" \/ Note.processing_status n' = "failed")
    /\ Note.user_id n' = Note.user_id n
    /\ Note.original_text n' = Note.original_text n
    /\ (forall other, other <> id -> notes (world_after r) !! other = notes w !! other).
Proof.
  intros Hlive Hstore Hschema Hn Hstatus.
  destruct (valid_body guid body id ty Hschema) as (Hbody & Hid & Hdefault & _).
  start_processor. rewrite Hschema, Hbody. cbn. rewrite Hid. cbn.
  repeat processor_step Hlive;
    (eexists; split; [reflexivity|]; cbn; repeat split; auto;
     try (by destruct (JS.truthy_opt _); auto);
     intros other Hother; by rewrite ?lookup_insert_ne).
Qed.

Lemma processor_overwrites_category_witness :
  let r := Processor.ProcessingController.processNote
             (Sample.env Sample.no_fault Sample.within_limits Sample.answer) Sample.live
             Processor.ProcessingController.canonical_guid
             {| Processor.ProcessingController.noteId := Some Sample.id;
                Processor.ProcessingController.noteType := None |}
             (Sample.store (Sample.note "meeting" "pending" None)) in
  (Note.note_type <$> notes (world_after r) !! Sample.id) = Some "general".
Proof.
  destruct (processor_overwrites_category
              (Sample.env Sample.no_fault Sample.within_limits Sample.answer) Sample.live
              Processor.ProcessingController.canonical_guid
              {| Processor.ProcessingController.noteId := Some Sample.id;
                 Processor.ProcessingController.noteType := None |}
              (Sample.store (Sample.note "meeting" "pending" None)) Sample.id "general"
              (Sample.note "meeting" "pending" None)
              eq_refl (fun _ => eq_refl) eq_refl eq_refl ltac:(discriminate))
    as (n' & Hn' & Hty & _).
  cbn zeta. rewrite Hn'. cbn. by rewrite Hty.
Defined.

Lemma processor_test_mode_services env config w :
  Processor.SupabaseService.testMode config = true ->
  (forall id,
     Processor.SupabaseService.getNoteById env config id w
     = (Returns (Some {| Note.id := id;
                         Note.user_id := "test-user-id";
                         Note.original_text :=
                           "This is a test voice note about productivity and meeting notes.";
                         Note.processed_text := None;
                         Note.note_type := "general";
                         Note.processing_status := "pending";
                         Note.tokens_used := None;
                         Note.processing_time := None;
                         Note.created_at := clock env (tick w);
                         Note.updated_at := clock env (tick w) |}),
        w, []))
  /\ (forall id updates,
        Processor.SupabaseService.updateNoteProcessing env config id updates w
        = (Returns (Processor.Echo id
             {| Patch.processed_text := Processor.SupabaseService.processed_text updates;
                Patch.processing_status :=
                  Processor.SupabaseService.processing_status updates;
                Patch.tokens_used := Processor.SupabaseService.tokens_used updates;
                Patch.processing_time := Processor.SupabaseService.processing_time updates;
                Patch.note_type := Processor.SupabaseService.note_type updates;
                Patch.updated_at := clock env (tick w) |}),
           w, []))
  /\ (forall uid,
        Processor.SupabaseService.incrementUserNoteCount config uid w
        = (Returns tt, w, [])).
Proof.
  intros Htest.
  unfold Processor.SupabaseService.getNoteById,
    Processor.SupabaseService.updateNoteProcessing,
    Processor.SupabaseService.incrementUserNoteCount.
  rewrite Htest. unfold_async. by destruct w.
Qed.

(** X22: in test mode (the store is not configured) the
    speechcraft-processor controller answers every valid request with 200
    and an echo of the update, whatever the store holds under the id, and
    makes no store call: the notes and the profiles are as before and no
    update or increment happens.  When the completion service is in test
    mode too, nothing at all is called and the processed text of the echo
    is the mock text for the made-up note. *)
Theorem processor_test_mode env config guid body w id ty :
  Processor.SupabaseService.testMode config = true ->
  Processor.ProcessingController.processNoteSchema guid body
  = Processor.ProcessingController.Valid id ty ->
  let r := Processor.ProcessingController.processNote env config guid body w in
  exists patch tokens time err,
    response_of r
    = Some (Processor.ProcessingController.Done (Processor.Echo id patch) tokens time err)
    /\ Patch.note_type patch = Some ty
    /\ Patch.processing_status patch
       = Some (if JS.truthy_opt err then "failed" else "completed")
    /\ notes (world_after r) = notes w
    /\ profiles (world_after r) = profiles w
    /\ count is_update (events_of r) = 0%nat
    /\ count is_increment (events_of r) = 0%nat
    /\ (Processor.OpenAIService.testMode config = true ->
        world_after r = w /\ events_of r = [] /\ err = None
        /\ Patch.processed_text patch
           = Some (Processor.OpenAIService.mock
                     "This is a test voice note about productivity and meeting notes."
                     ty)).
Proof.
  intros Htest Hschema.
  destruct (valid_body guid body id ty Hschema) as (Hbody & Hid & _).
  start_processor. rewrite Hschema. cbn.
  rewrite (proj1 (processor_test_mode_services env config w Htest)). cbn.
  rewrite (proj1 (proj2 (processor_test_mode_services env config w Htest))). cbn.
  match goal with
  | |- context [Processor.OpenAIService.processNote ?e ?c ?x ?t ?W] =>
      destruct (processor_OpenAI_run e c x t W)
        as (res & k & evs & Hrun & Hupdates & Hincrements & Hmock);
      rewrite Hrun; clear Hrun; cbn
  end.
  rewrite (proj1 (proj2 (processor_test_mode_services env config (advance k w) Htest))).
  cbn.
  rewrite (proj2 (proj2 (processor_test_mode_services env config (advance k w) Htest))).
  cbn. eexists _, _, _, _. split; [reflexivity|]. cbn.
  repeat split; try done.
  - destruct (JS.truthy_opt (Processor.OpenAIService.error res)) eqn:Herr; cbn;
      by rewrite ?Herr.
  - by rewrite !app_nil_r.
  - by rewrite !app_nil_r.
  - destruct (Hmock H) as (-> & _). by destruct w.
  - destruct (Hmock H) as (_ & -> & _). done.
  - destruct (Hmock H) as (_ & _ & _ & ->). done.
  - destruct (Hmock H) as (_ & _ & -> & _). done.
Qed.

Lemma processor_test_mode_witness :
  let config := {| Processor.SUPABASE_URL := None;
                   Processor.SUPABASE_SERVICE_ROLE_KEY := None;
                   Processor.OPENAI_API_KEY := None |} in
  let w := Sample.store (Sample.note "todo" "completed" (Some "- Buy milk")) in
  let r := Processor.ProcessingController.processNote
             (Sample.env Sample.no_fault Sample.within_limits Sample.answer) config
             Processor.ProcessingController.canonical_guid
             {| Processor.ProcessingController.noteId := Some Sample.id;
                Processor.ProcessingController.noteType := Some "todo" |} w in
  (Processor.ProcessingController.status_code <$> response_of r) = Some 200%nat
  /\ world_after r = w.
Proof.
  intros config w.
  destruct (processor_test_mode
              (Sample.env Sample.no_fault Sample.within_limits Sample.answer) config
              Processor.ProcessingController.canonical_guid
              {| Processor.ProcessingController.noteId := Some Sample.id;
                 Processor.ProcessingController.noteType := Some "todo" |}
              w Sample.id "todo" eq_refl eq_refl)
    as (patch & tokens & time & err & Hreply & _ & _ & _ & _ & _ & _ & Hmock).
  cbn zeta. rewrite Hreply. split; [done|]. exact (proj1 (Hmock eq_refl)).
Defined.

(** ** Failures of the store in the middle of a request *)

(** X23: when the limit check resolves to null, reading [limit_reached]
    throws: the request is answered 500 PROCESSING_ERROR, no completion
    request is made and nothing is counted, and the handler of exceptions
    marks the note failed, straight from the status it had. *)
Theorem null_limits_answer env dev w id n :
  JS.truthy id = true ->
  notes w !! id = Some n ->
  Note.processing_status n <> "completed" ->
  store_reliable env ->
  limits_data env (S (tick w)) = None ->
  let r := ProcessingController.processNote env dev
             {| ProcessingController.noteId := Some id |} w in
  (code <$> response_of r) = Some 500%nat
  /\ (error <$> response_of r) = Some (Some "PROCESSING_ERROR")
  /\ count is_completion_request (events_of r) = 0%nat
  /\ count is_increment (events_of r) = 0%nat
  /\ transitions (events_of r) = [(Note.processing_status n, "failed")]
  /\ status_in (world_after r) id = Some "failed".
Proof.
  intros Hid Hn Hstatus Hstore Hlimits. start_controller. repeat step.
  unfold status_in. cbn. rewrite lookup_insert_eq. repeat split; try counting.
Qed.

Lemma null_limits_answer_witness :
  let env := {| store_error := Sample.no_fault;
                limits_data := fun _ => None;
                completion := fun _ => Sample.answer;
                clock := fun t => 2000 + 10 * Z.of_nat t |} in
  let r := ProcessingController.processNote env false
             {| ProcessingController.noteId := Some Sample.id |}
             (Sample.store (Sample.note "todo" "pending" None)) in
  (code <$> response_of r) = Some 500%nat
  /\ status_in (world_after r) Sample.id = Some "failed".
Proof.
  intros env.
  destruct (null_limits_answer env false
              (Sample.store (Sample.note "todo" "pending" None)) Sample.id
              (Sample.note "todo" "pending" None)
              eq_refl eq_refl ltac:(discriminate) (fun _ => eq_refl) eq_refl)
    as (Hcode & _ & _ & _ & _ & Hfinal).
  split; assumption.
Defined.

Lemma transitions_without_update (evs : list Event) :
  count is_update evs = 0%nat -> transitions evs = [].
Proof.
  induction evs as [|e evs IH]; [done|]. rewrite count_cons.
  destruct e; cbn; try (intros H; rewrite transitions_cons; by apply IH).
  discriminate.
Qed.

(** X24: when the completion service answers and the store then rejects
    the increment of the counter, the request is answered 500
    PROCESSING_ERROR although the note had been persisted as completed:
    the handler of exceptions sets it to failed.  The note keeps the
    processed text and the token count of the answer, one completion
    request was made, and the counter of the user is as before. *)
Theorem rejected_increment env dev w id n limits content total_tokens model failure :
  JS.truthy id = true ->
  notes w !! id = Some n ->
  Note.processing_status n <> "completed" ->
  limits_data env (S (tick w)) = Some limits ->
  UserLimits.limit_reached limits = false ->
  OpenAIService.is_blank (Note.original_text n) = false ->
  OpenAIService.prompts (Note.note_type n) <> OpenAIService.Inherited ->
  completion env (3 + tick w) = ApiCompletion (Some content) total_tokens model ->
  (forall k, k <> 5%nat -> store_error env (k + tick w) = None) ->
  store_error env (5 + tick w) = Some failure ->
  let r := ProcessingController.processNote env dev
             {| ProcessingController.noteId := Some id |} w in
  exists n',
    (code <$> response_of r) = Some 500%nat
    /\ (error <$> response_of r) = Some (Some "PROCESSING_ERROR")
    /\ count is_completion_request (events_of r) = 1%nat
    /\ count is_increment (events_of r) = 0%nat
    /\ profiles (world_after r) = profiles w
    /\ transitions (events_of r)
       = [(Note.processing_status n, "processing"); ("processing", "completed");
          ("completed", "failed")]
    /\ notes (world_after r) !! id = Some n'
    /\ Note.processing_status n' = "failed"
    /\ Note.processed_text n' = Some (JS.trim content)
    /\ Note.tokens_used n' = Some total_tokens.
Proof.
  intros Hid Hn Hstatus Hlimits Hwithin Hblank Hslot Hreply Hstore Hfail.
  pose proof (Hstore 0%nat ltac:(lia)) as H0.
  pose proof (Hstore 1%nat ltac:(lia)) as H1.
  pose proof (Hstore 2%nat ltac:(lia)) as H2.
  pose proof (Hstore 4%nat ltac:(lia)) as H4.
  pose proof (Hstore 6%nat ltac:(lia)) as H6.
  cbn in H0, H1, H2, H4, H6, Hfail, Hreply. clear Hstore.
  start_controller.
  repeat (lazymatch goal with
          | |- context [OpenAIService.processNote ?e ?x ?ty ?W] => fail
          | _ => step
          end).
  match goal with
  | |- context [OpenAIService.processNote ?e ?x ?ty ?W] =>
      destruct (OpenAI_processNote_success e x ty W content total_tokens model
                  Hblank Hslot Hreply) as (evs & Hrun & Hone & Hnone & Hzero);
      rewrite Hrun; clear Hrun; unfold advance; tidy
  end.
  repeat step. eexists. repeat split; try reflexivity; try counting.
  transiting. by rewrite (transitions_without_update evs Hnone).
Qed.

Lemma rejected_increment_witness :
  let env := Sample.env (fun t => if (t =? 5)%nat then Some "timeout" else None)
               Sample.within_limits Sample.answer in
  let r := ProcessingController.processNote env false
             {| ProcessingController.noteId := Some Sample.id |}
             (Sample.store (Sample.note "todo" "pending" None)) in
  (code <$> response_of r) = Some 500%nat
  /\ transitions (events_of r)
     = [("pending", "processing"); ("processing", "completed"); ("completed", "failed")].
Proof.
  intros env.
  destruct (rejected_increment env false
              (Sample.store (Sample.note "todo" "pending" None)) Sample.id
              (Sample.note "todo" "pending" None) Sample.within_limits
              ("- Buy milk" +:+ JS.LF +:+ "- Call mom") 57 "gpt-3.5-turbo" "timeout"
              eq_refl eq_refl ltac:(discriminate) eq_refl eq_refl eq_refl
              ltac:(discriminate) eq_refl
              ltac:(intros k Hk; cbn; destruct (Nat.eqb_spec (k + 0) 5); [lia|reflexivity])
              eq_refl)
    as (n' & Hcode & _ & _ & _ & _ & Hedges & _).
  split; assumption.
Defined.

(** ** Requests one after the other *)

(** X27: asking again is safe.  After a request that was processed with an
    answer of the completion service, the same request is answered 200
    "Note already processed" with the processed text and the token count of
    the first run; it makes no completion request, no update and no
    increment, so the counter of the user has been raised once in all. *)
Theorem asking_again_is_safe env dev w id n limits content total_tokens model :
  JS.truthy id = true ->
  notes w !! id = Some n ->
  Note.processing_status n <> "completed" ->
  store_reliable env ->
  limits_data env (S (tick w)) = Some limits ->
  UserLimits.limit_reached limits = false ->
  OpenAIService.is_blank (Note.original_text n) = false ->
  OpenAIService.prompts (Note.note_type n) <> OpenAIService.Inherited ->
  completion env (S (S (S (tick w)))) = ApiCompletion (Some content) total_tokens model ->
  let req := {| ProcessingController.noteId := Some id |} in
  let first := ProcessingController.processNote env dev req w in
  let again := ProcessingController.processNote env dev req (world_after first) in
  exists d time,
    (data <$> response_of first) = Some (Some (Json.DProcessed d))
    /\ response_of again
       = Some {| code := 200; success := true;
                 message := Some "Note already processed";
                 error := None;
                 data := Some (Json.DAlready
                   {| Json.a_noteId := id;
                      Json.a_processedText := Some (Json.processedText d);
                      Json.a_tokensUsed := Some (Json.tokensUsed d);
                      Json.a_processingTime := Some time;
                      Json.alreadyProcessed := true |});
                 details := None |}
    /\ Json.processedText d = JS.trim content
    /\ untouched (world_after first) again
    /\ (count is_increment (events_of first) + count is_increment (events_of again) = 1)%nat.
Proof.
  intros Hid Hn Hstatus Hstore Hlimits Hwithin Hblank Hslot Hreply req first again.
  assert (exists d n' evs,
            first = (Returns {| code := 200; success := true;
                                message := Some "Note processed successfully";
                                error := None; data := Some (Json.DProcessed d);
                                details := None |},
                     mkWorld (<[id := n']> (notes w))
                       (SupabaseService.increment_note_count (Note.user_id n) (profiles w))
                       (6 + tick w),
                     evs)
            /\ Json.processedText d = JS.trim content
            /\ Note.processing_status n' = "completed"
            /\ Note.processed_text n' = Some (Json.processedText d)
            /\ Note.tokens_used n' = Some (Json.tokensUsed d)
            /\ Note.processing_time n' = Some (Json.processingTime d)
            /\ count is_increment evs = 1%nat)
    as (d & n' & evs & Hfirst & Htext & Hdone & Hkept & Htokens & Htime & Hcount).
  { subst first req. start_controller.
    repeat (lazymatch goal with
            | |- context [OpenAIService.processNote ?e ?x ?ty ?W] => fail
            | _ => step
            end).
    match goal with
    | |- context [OpenAIService.processNote ?e ?x ?ty ?W] =>
        destruct (OpenAI_processNote_success e x ty W content total_tokens model
                    Hblank Hslot Hreply) as (evs & Hrun & Hone & Hnone & Hzero);
        rewrite Hrun; clear Hrun; unfold advance; tidy
    end.
    repeat step. rewrite insert_insert_eq.
    eexists _, _, _. split; [reflexivity|]. cbn. repeat split. counting. }
  exists d, (Json.processingTime d).
  subst again. rewrite Hfirst. cbn [world_after response_of events_of fst snd].
  split; [done|].
  assert (ProcessingController.processNote env dev req
            (mkWorld (<[id := n']> (notes w))
               (SupabaseService.increment_note_count (Note.user_id n) (profiles w))
               (6 + tick w))
          = (Returns {| code := 200; success := true;
                        message := Some "Note already processed";
                        error := None;
                        data := Some (Json.DAlready
                          {| Json.a_noteId := id;
                             Json.a_processedText := Note.processed_text n';
                             Json.a_tokensUsed := Note.tokens_used n';
                             Json.a_processingTime := Note.processing_time n';
                             Json.alreadyProcessed := true |});
                        details := None |},
             mkWorld (<[id := n']> (notes w))
               (SupabaseService.increment_note_count (Note.user_id n) (profiles w))
               (7 + tick w),
             [NoteFetched id])) as ->.
  { subst req. start_controller. rewrite Hid. cbn.
    rewrite getNoteById_run. cbn. rewrite (Hstore _), lookup_insert_eq. cbn.
    by rewrite Hdone. }
  cbn. rewrite Hkept, Htokens, Htime, Hcount. by repeat split.
Qed.

Lemma asking_again_is_safe_witness :
  let env := Sample.env Sample.no_fault Sample.within_limits Sample.answer in
  let req := {| ProcessingController.noteId := Some Sample.id |} in
  let first := ProcessingController.processNote env false req
                 (Sample.store (Sample.note "todo" "pending" None)) in
  let again := ProcessingController.processNote env false req (world_after first) in
  untouched (world_after first) again
  /\ (count is_increment (events_of first) + count is_increment (events_of again) = 1)%nat.
Proof.
  intros env req.
  destruct (asking_again_is_safe env false
              (Sample.store (Sample.note "todo" "pending" None)) Sample.id
              (Sample.note "todo" "pending" None) Sample.within_limits
              ("- Buy milk" +:+ JS.LF +:+ "- Call mom") 57 "gpt-3.5-turbo"
              eq_refl eq_refl ltac:(discriminate) (fun _ => eq_refl) eq_refl eq_refl
              eq_refl ltac:(discriminate) eq_refl)
    as (d & time & _ & _ & _ & Huntouched & Hcount).
  split; assumption.
Defined.

Lemma filter_length_permutation {A} (p : A -> bool) (l l' : list A) :
  Permutation l l' -> List.length (List.filter p l) = List.length (List.filter p l').
Proof.
  induction 1 as [|x l l' _ IH|x y l|l l' l'' _ IH _ IH']; cbn.
  - done.
  - destruct (p x); cbn; by rewrite IH.
  - by destruct (p x), (p y).
  - by rewrite IH.
Qed.

(** Overwriting a stored note moves it from the notes that satisfy [p] to
    those that do not, or back, and leaves the others where they are. *)
Lemma stored_with_insert (p : Note.t -> bool) (w : World) id n n' ps t :
  notes w !! id = Some n ->
  (stored_with p (mkWorld (<[id := n']> (notes w)) ps t) + (if p n then 1 else 0)
   = stored_with p w + (if p n' then 1 else 0))%nat.
Proof.
  intros Hn. unfold stored_with. cbn [notes].
  rewrite <- (insert_delete_eq (notes w) id n').
  rewrite (filter_length_permutation p _ _
             (Permutation_map snd
                (map_to_list_insert (delete id (notes w)) id n' (lookup_delete_eq _ _)))).
  rewrite <- (filter_length_permutation p _ _
                (Permutation_map snd (map_to_list_delete (notes w) id n Hn))).
  cbn. destruct (p n), (p n'); cbn; lia.
Qed.

Lemma status_count_of_summarise (w : World) (s : string) :
  Statistics.statusCounts (Statistics.summarise (Statistics.rows w)) !! s
  = let n := if String.eqb s "pending" then 0%nat else stored_with (has_status s) w in
    if (n =? 0)%nat then None
    else if String.eqb s "__proto__" then None
    else if existsb (String.eqb s) OpenAIService.object_prototype_names
    then Some Statistics.Mangled
    else Some (Statistics.Counted n).
Proof.
  cbn. rewrite fold_visit_status. cbn. rewrite bump_fold.
  rewrite (count_occ_filter Note.processing_status s).
  change (fun n => String.eqb (Note.processing_status n) s) with (has_status s).
  unfold Statistics.rows, stored_with. rewrite filter_status_processed.
  by destruct (String.eqb s "pending").
Qed.

(** What a request does to a pending note when the store answers every
    call: the note is overwritten by one that is completed or failed. *)
Lemma pending_note_is_settled env dev w id n limits :
  JS.truthy id = true ->
  notes w !! id = Some n ->
  Note.processing_status n = "pending" ->
  store_reliable env ->
  limits_data env (S (tick w)) = Some limits ->
  exists n' ps t,
    world_after (ProcessingController.processNote env dev
                   {| ProcessingController.noteId := Some id |} w)
    = mkWorld (<[id := n']> (notes w)) ps t
    /\ (Note.processing_status n' = "completed" \/ Note.processing_status n' = "failed").
Proof.
  intros Hid Hn Hstatus Hstore Hlimits. start_controller.
  repeat step; rewrite ?insert_insert_eq;
    (eexists _, _, _; split; [reflexivity|]; cbn; auto).
Qed.

(** X28: a handled request shows in the statistics.  When the store answers
    every call and the limit check answers, a request for a pending note
    leaves the note completed or failed, and the statistics taken after it
    count one processed note more than those taken before, and one note
    more with that status. *)
Theorem handled_note_enters_statistics env dev w id n limits :
  JS.truthy id = true ->
  notes w !! id = Some n ->
  Note.processing_status n = "pending" ->
  store_reliable env ->
  limits_data env (S (tick w)) = Some limits ->
  let r := ProcessingController.processNote env dev
             {| ProcessingController.noteId := Some id |} w in
  exists before after final,
    response_of (Statistics.getProcessingStats env w) = Some before
    /\ response_of (Statistics.getProcessingStats env (world_after r)) = Some after
    /\ status_in (world_after r) id = Some final
    /\ (final = "completed" \/ final = "failed")
    /\ Statistics.totalProcessed after = S (Statistics.totalProcessed before)
    /\ Statistics.statusCounts after !! final
       = Some (Statistics.Counted (S (stored_with (has_status final) w)))
    /\ Statistics.statusCounts after !! "pending" = None.
Proof.
  intros Hid Hn Hstatus Hstore Hlimits r.
  destruct (pending_note_is_settled env dev w id n limits Hid Hn Hstatus Hstore Hlimits)
    as (n' & ps & t & Hworld & Hfinal).
  fold r in Hworld.
  rewrite !getProcessingStats_run, !Hstore, Hworld.
  eexists _, _, (Note.processing_status n'). cbn [response_of].
  split; [reflexivity|]. split; [reflexivity|].
  split; [unfold status_in; cbn; by rewrite lookup_insert_eq|].
  split; [exact Hfinal|].
  assert (Statistics.processed n = false) as Hbefore.
  { unfold Statistics.processed. by rewrite Hstatus. }
  assert (Statistics.processed n' = true) as Hafter.
  { unfold Statistics.processed. by destruct Hfinal as [-> | ->]. }
  assert (has_status (Note.processing_status n') n = false) as Hwas.
  { unfold has_status. rewrite Hstatus. by destruct Hfinal as [-> | ->]. }
  assert (has_status (Note.processing_status n') n' = true) as His.
  { unfold has_status. apply String.eqb_refl. }
  pose proof (stored_with_insert Statistics.processed w id n n' ps t Hn) as Htotal.
  pose proof (stored_with_insert (has_status (Note.processing_status n')) w id n n' ps t Hn)
    as Hcount.
  rewrite Hbefore, Hafter in Htotal. rewrite Hwas, His in Hcount.
  split; [|split].
  - change (stored_with Statistics.processed (mkWorld (<[id := n']> (notes w)) ps t)
            = S (stored_with Statistics.processed w)). lia.
  - rewrite status_count_of_summarise. cbn zeta.
    replace (stored_with (has_status (Note.processing_status n'))
               (mkWorld (<[id := n']> (notes w)) ps t))
      with (S (stored_with (has_status (Note.processing_status n')) w)) by lia.
    by destruct Hfinal as [-> | ->].
  - by rewrite status_count_of_summarise.
Qed.

Lemma handled_note_enters_statistics_witness :
  let env := Sample.env Sample.no_fault Sample.over_limit Sample.answer in
  let w := Sample.store (Sample.note "todo" "pending" None) in
  let r := ProcessingController.processNote env false
             {| ProcessingController.noteId := Some Sample.id |} w in
  exists before after,
    response_of (Statistics.getProcessingStats env w) = Some before
    /\ response_of (Statistics.getProcessingStats env (world_after r)) = Some after
    /\ Statistics.totalProcessed after = S (Statistics.totalProcessed before).
Proof.
  intros env w.
  destruct (handled_note_enters_statistics env false w Sample.id
              (Sample.note "todo" "pending" None) Sample.over_limit
              eq_refl eq_refl eq_refl (fun _ => eq_refl) eq_refl)
    as (before & after & final & Hbefore & Hafter & _ & _ & Htotal & _).
  exists before, after. repeat split; assumption.
Defined.

(** ** Witnesses of the properties above *)

Lemma processNote_frame_witness :
  let w := Sample.store (Sample.note "todo" "pending" None) in
  let r := ProcessingController.processNote
             (Sample.env Sample.no_fault Sample.within_limits Sample.answer) false
             {| ProcessingController.noteId := Some Sample.id |} w in
  notes (world_after r) !! "another-note" = notes w !! "another-note".
Proof.
  intros w.
  apply (proj1 (processNote_frame
                  (Sample.env Sample.no_fault Sample.within_limits Sample.answer) false
                  {| ProcessingController.noteId := Some Sample.id |} w)).
  discriminate.
Defined.

Lemma response_shape_witness :
  exists r,
    response_of (ProcessingController.processNote
                   (Sample.env (Sample.outage 1) Sample.within_limits Sample.answer) false
                   {| ProcessingController.noteId := Some Sample.id |}
                   (Sample.store (Sample.note "todo" "pending" None))) = Some r
    /\ details r = None.
Proof.
  destruct (response_shape
              (Sample.env (Sample.outage 1) Sample.within_limits Sample.answer) false
              {| ProcessingController.noteId := Some Sample.id |}
              (Sample.store (Sample.note "todo" "pending" None)))
    as (r & Hr & _ & _ & _ & Hproduction & _).
  exists r. split; [exact Hr|exact (Hproduction eq_refl)].
Defined.

Lemma todo_fallback_task_list_witness :
  JS.replace_sentence_marks (JS.LF +:+ OpenAIService.bullet) (JS.trim " buy milk ")
  = JS.trim " buy milk ".
Proof.
  apply (proj2 (proj2 (proj2 (todo_fallback_task_list " buy milk ")))).
  intros c [<-|[<-|[<-|[]]]]; reflexivity.
Defined.

Lemma successful_processing_witness :
  let r := ProcessingController.processNote
             (Sample.env Sample.no_fault Sample.within_limits Sample.answer) false
             {| ProcessingController.noteId := Some Sample.id |}
             (Sample.store (Sample.note "todo" "pending" None)) in
  status_in (world_after r) Sample.id = Some "completed"
  /\ count is_increment (events_of r) = 1%nat.
Proof.
  destruct (successful_processing
              (Sample.env Sample.no_fault Sample.within_limits Sample.answer) false
              (Sample.store (Sample.note "todo" "pending" None)) Sample.id
              (Sample.note "todo" "pending" None) Sample.within_limits
              ("- Buy milk" +:+ JS.LF +:+ "- Call mom") 57 "gpt-3.5-turbo"
              eq_refl eq_refl ltac:(discriminate) (fun _ => eq_refl) eq_refl eq_refl
              eq_refl ltac:(discriminate) eq_refl)
    as (d & n' & _ & _ & _ & Hn' & Hstatus & _ & _ & Hcount & _).
  split; [|exact Hcount]. unfold status_in. rewrite Hn'. cbn. by rewrite Hstatus.
Defined.
